(** * Railway station announcer: generator, text normaliser, speech engine
      and the announcement loop, embedded from the Python sources
      [src/llm_generator.py], [src/tts_engine.py] and [src/main.py]. *)

From Stdlib Require Import String Ascii List NArith ZArith QArith Lia Bool Arith.
From Stdlib Require Import DecimalString.
From Stdlib Require Import DecimalZ DecimalPos Sorted Permutation.
Import ListNotations.

Open Scope string_scope.
Open Scope nat_scope.

Set Warnings "-abstract-large-number".

(** ** Python values shared by the three modules *)

(** A Python call either returns a value or raises; [e] is [str(exception)]. *)
Inductive result (A : Type) : Type :=
| Ok (a : A)
| Raise (e : string).
Arguments Ok {A} a.
Arguments Raise {A} e.

Definition bind {A B : Type} (r : result A) (k : A -> result B) : result B :=
  match r with
  | Ok a => k a
  | Raise e => Raise e
  end.

Notation "x <- r ;; k" := (bind r (fun x => k))
  (at level 61, r at next level, right associativity).

(** A [str] is modelled by the code points below 256 it is made of. *)
Definition code (c : ascii) : N := N_of_ascii c.

(** [\d] and [int] on those code points: the ASCII digits. *)
Definition is_digit (c : ascii) : bool :=
  ((48 <=? code c) && (code c <=? 57))%N.

Definition digit_value (c : ascii) : N := (code c - 48)%N.

(** [str.isspace] on those code points, as [str.strip()] uses it. *)
Definition is_space (c : ascii) : bool :=
  let n := code c in
  (((9 <=? n) && (n <=? 13)) || ((28 <=? n) && (n <=? 32))
   || (n =? 133) || (n =? 160))%N.

Fixpoint lstrip (s : string) : string :=
  match s with
  | EmptyString => EmptyString
  | String c t => if is_space c then lstrip t else s
  end.

Fixpoint rstrip (s : string) : string :=
  match s with
  | EmptyString => EmptyString
  | String c t =>
      match rstrip t with
      | EmptyString => if is_space c then EmptyString else String c EmptyString
      | t' => String c t'
      end
  end.

(** [s.strip()] *)
Definition strip (s : string) : string := rstrip (lstrip s).

Fixpoint forall_chars (p : ascii -> bool) (s : string) : bool :=
  match s with
  | EmptyString => true
  | String c t => p c && forall_chars p t
  end.

Fixpoint map_chars (f : ascii -> ascii) (s : string) : string :=
  match s with
  | EmptyString => EmptyString
  | String c t => String (f c) (map_chars f t)
  end.


Definition has_digit (s : string) : bool :=
  negb (forall_chars (fun x => negb (is_digit x)) s).

(** [sub in s] *)
Fixpoint contains (sub s : string) : bool :=
  prefix sub s ||
  match s with
  | EmptyString => false
  | String _ t => contains sub t
  end.

(** [str(n)] for a non-negative [int], as an f-string prints it. *)
Definition str_of_nat (n : nat) : string :=
  NilZero.string_of_uint (Nat.to_uint n).

Definition str_of_Z (z : Z) : string :=
  NilZero.string_of_int (Z.to_int z).

(** ** tts_engine.py: text normalisation *)

Module Re.

(** A match object: [group(0)] first, then the capture groups. *)
Definition Match := list string.

Definition group (m : Match) (k : nat) : string := nth k m "".

Definition span (m : Match) : nat := String.length (group m 0).

(** [re.sub(pattern, repl, s)] with a callable [repl], for a pattern that
    never matches the empty string: [pattern t] is the match anchored at
    the start of [t].  The scan goes left to right; [skip] counts the
    characters of the current match that are still to be passed over. *)
Fixpoint sub_from (pattern : string -> option Match)
         (repl : Match -> result string) (skip : nat) (s : string)
  : result string :=
  match s with
  | EmptyString => Ok EmptyString
  | String c t =>
      match skip with
      | S k => sub_from pattern repl k t
      | O =>
          match pattern s with
          | Some m =>
              r <- repl m ;;
              rest <- sub_from pattern repl (pred (span m)) t ;;
              Ok (r ++ rest)
          | None =>
              rest <- sub_from pattern repl 0 t ;;
              Ok (String c rest)
          end
      end
  end.

Definition sub (pattern : string -> option Match)
           (repl : Match -> result string) (s : string) : result string :=
  sub_from pattern repl 0 s.

(** [\d:\d\d] at the start of [s]. *)
Definition at_time1 (s : string) : bool :=
  match s with
  | String a (String b (String c (String d _))) =>
      is_digit a && Ascii.eqb b ":" && is_digit c && is_digit d
  | _ => false
  end.

(** [\d\d:\d\d] at the start of [s]. *)
Definition at_time2 (s : string) : bool :=
  match s with
  | String a t => is_digit a && at_time1 t
  | EmptyString => false
  end.

(** [(\d{1,2}):(\d{2})]: the greedy two-digit hour is tried first. *)
Definition time_pattern (s : string) : option Match :=
  if at_time2 s then
    Some [substring 0 5 s; substring 0 2 s; substring 3 2 s]
  else if at_time1 s then
    Some [substring 0 4 s; substring 0 1 s; substring 2 2 s]
  else None.

(** The longest prefix of digits. *)
Fixpoint digit_run (s : string) : string :=
  match s with
  | String c t => if is_digit c then String c (digit_run t) else EmptyString
  | EmptyString => EmptyString
  end.

(** [\d+] *)
Definition digits_pattern (s : string) : option Match :=
  match digit_run s with
  | EmptyString => None
  | run => Some [run]
  end.

End Re.

Section Normalizer.

(** [num2words] is the third-party package of that name; the code calls it
    on non-negative integers only.  It raises above its largest number. *)
Variable num2words : N -> result string.

(** [sys.get_int_max_str_digits()]: [0] switches the limit of [int(str)]
    off (as in interpreters that have none); the interpreter refuses to
    set a limit below 640. *)
Variable int_max_str_digits : nat.

Definition int_limit_exceeded (s : string) : bool :=
  match int_max_str_digits with
  | O => false
  | S _ => Nat.max 640 int_max_str_digits <? String.length s
  end.

Fixpoint int_digits (acc : N) (s : string) : N :=
  match s with
  | EmptyString => acc
  | String c t => int_digits (acc * 10 + digit_value c)%N t
  end.

(** [int(s)] for a string of digits. *)
Definition py_int (s : string) : result N :=
  if int_limit_exceeded s
  then Raise "Exceeds the limit for integer string conversion"
  else Ok (int_digits 0%N s).

(** [replace_time(match)] *)
Definition replace_time (m : Re.Match) : result string :=
  h <- py_int (Re.group m 1) ;;
  mi <- py_int (Re.group m 2) ;;
  wh <- num2words h ;;
  wm <- num2words mi ;;
  Ok (wh ++ " " ++ wm).

(** [replace_number(match)] *)
Definition replace_number (m : Re.Match) : result string :=
  n <- py_int (Re.group m 0) ;;
  num2words n.

Definition sub_times (text : string) : result string :=
  Re.sub Re.time_pattern replace_time text.

Definition sub_numbers (text : string) : result string :=
  Re.sub Re.digits_pattern replace_number text.

(** [text.replace("-", " ")] *)
Definition replace_hyphens (text : string) : string :=
  map_chars (fun c => if Ascii.eqb c "-" then " "%char else c) text.

(** [SileroTTS._normalize_text]: the returned text and the lines printed.
    The handler returns the variable [text] as it stands when the
    exception is raised. *)
Definition _normalize_text (text : string) : string * list string :=
  match sub_times text with
  | Raise e => (text, ["Normalization error: " ++ e])
  | Ok text1 =>
      match sub_numbers text1 with
      | Raise e => (text1, ["Normalization error: " ++ e])
      | Ok text2 => (replace_hyphens text2, [])
      end
  end.

Definition normalize (text : string) : string := fst (_normalize_text text).

(** The [try] body ran to its [return]. *)
Definition normalize_succeeds (text : string) : bool :=
  match snd (_normalize_text text) with
  | [] => true
  | _ => false
  end.

End Normalizer.

(** Modelled from the spec: the [num2words] package is not part of the
    repository.  English cardinals as the package prints them ([21] is
    [twenty-one], the spec's example), for every number below its limit
    of ten to the 306; from there on it raises [OverflowError]. *)
Module Num2Words.

Definition low_numwords : list string :=
  ["zero"; "one"; "two"; "three"; "four"; "five"; "six"; "seven"; "eight";
   "nine"; "ten"; "eleven"; "twelve"; "thirteen"; "fourteen"; "fifteen";
   "sixteen"; "seventeen"; "eighteen"; "nineteen"; "twenty"].

Definition tens_numwords : list string :=
  ["thirty"; "forty"; "fifty"; "sixty"; "seventy"; "eighty"; "ninety"].

Definition low (n : N) : string := nth (N.to_nat n) low_numwords "".

Definition below_100 (n : N) : string :=
  if (n <=? 20)%N then low n
  else
    let t := (if (n <? 30)%N then "twenty"
              else nth (N.to_nat (n / 10 - 3)) tens_numwords "") in
    if (n mod 10 =? 0)%N then t else t ++ "-" ++ low (n mod 10).

Definition below_1000 (n : N) : string :=
  if (n <? 100)%N then below_100 n
  else
    below_100 (n / 100) ++ " hundred" ++
    (if (n mod 100 =? 0)%N then "" else " and " ++ below_100 (n mod 100)).

Definition lows : list string :=
  ["non"; "oct"; "sept"; "sext"; "quint"; "quadr"; "tr"; "b"; "m"].
Definition units : list string :=
  [""; "un"; "duo"; "tre"; "quattuor"; "quin"; "sex"; "sept"; "octo";
   "novem"].
Definition tens : list string :=
  ["dec"; "vigint"; "trigint"; "quadragint"; "quinquagint"; "sexagint";
   "septuagint"; "octogint"; "nonagint"].

(** Largest first: cent, novemnonagint, ..., dec, non, ..., b, m. *)
Definition high_numwords : list string :=
  "cent" ::
  rev (flat_map (fun t => map (fun u => u ++ t) units) tens) ++ lows.

(** The named powers of a thousand, largest first. *)
Fixpoint cards_from (exponent : N) (high : list string)
  : list (N * string) :=
  match high with
  | [] => [((10 ^ 3)%N, "thousand")]
  | w :: rest =>
      ((10 ^ exponent)%N, w ++ "illion") :: cards_from (exponent - 3) rest
  end.

Definition cards : list (N * string) := cards_from 303 high_numwords.

Definition MAXVAL : N := (10 ^ 306)%N.

Fixpoint spell (cs : list (N * string)) (n : N) : string :=
  match cs with
  | [] => below_1000 n
  | (c, name) :: rest =>
      if (c <=? n)%N then
        below_1000 (n / c) ++ " " ++ name ++
        (let r := (n mod c)%N in
         if (r =? 0)%N then ""
         else (if (r <? 100)%N then " and " else ", ") ++ spell rest r)
      else spell rest n
  end.

Definition num2words (n : N) : result string :=
  if (MAXVAL <=? n)%N then Raise "abs(value) must be less than MAXVAL."
  else Ok (spell cards n).

End Num2Words.

(** The interpreter's default limit on [int(str)]. *)
Definition default_max_str_digits : nat := 4300.

Definition normalize_en : string -> string :=
  normalize Num2Words.num2words default_max_str_digits.

(** ** What the worker thread leaves behind and what it is given *)

(** One call into [sounddevice]. *)
Inductive DeviceOp : Type :=
| SdPlay (audio : list Q) (samplerate : nat)
| SdWait
| SdStop.

(** The observable effects of the worker, newest first in every list. *)
Record World : Type := mkWorld {
  status : list string;        (* texts given to the status bar *)
  announcements : list string; (* texts given to the announcement box *)
  dialogs : list string;       (* message boxes *)
  stdout : list string;        (* lines printed *)
  flag_reads : nat;            (* reads of the stop flag so far *)
  completions : nat;           (* calls of [create_chat_completion] *)
  chunks_pulled : nat;         (* chunks pulled from a stream *)
  device : list DeviceOp;      (* calls into the sound device *)
  naps : nat                   (* calls of [time.sleep(1.0)] *)
}.

Definition empty_world : World := mkWorld [] [] [] [] 0 0 0 [] 0.

Definition print (line : string) (w : World) : World :=
  mkWorld (status w) (announcements w) (dialogs w) (line :: stdout w)
          (flag_reads w) (completions w) (chunks_pulled w) (device w) (naps w).

Definition push_status (message : string) (w : World) : World :=
  mkWorld (message :: status w) (announcements w) (dialogs w) (stdout w)
          (flag_reads w) (completions w) (chunks_pulled w) (device w) (naps w).

Definition push_announcement (text : string) (w : World) : World :=
  mkWorld (status w) (text :: announcements w) (dialogs w) (stdout w)
          (flag_reads w) (completions w) (chunks_pulled w) (device w) (naps w).

Definition push_dialog (text : string) (w : World) : World :=
  mkWorld (status w) (announcements w) (text :: dialogs w) (stdout w)
          (flag_reads w) (completions w) (chunks_pulled w) (device w) (naps w).

Definition tick_flag (w : World) : World :=
  mkWorld (status w) (announcements w) (dialogs w) (stdout w)
          (S (flag_reads w)) (completions w) (chunks_pulled w) (device w)
          (naps w).

Definition tick_completion (w : World) : World :=
  mkWorld (status w) (announcements w) (dialogs w) (stdout w)
          (flag_reads w) (S (completions w)) (chunks_pulled w) (device w)
          (naps w).

Definition tick_chunk (w : World) : World :=
  mkWorld (status w) (announcements w) (dialogs w) (stdout w)
          (flag_reads w) (completions w) (S (chunks_pulled w)) (device w)
          (naps w).

Definition push_device (op : DeviceOp) (w : World) : World :=
  mkWorld (status w) (announcements w) (dialogs w) (stdout w)
          (flag_reads w) (completions w) (chunks_pulled w) (op :: device w)
          (naps w).

Definition sleep (w : World) : World :=
  mkWorld (status w) (announcements w) (dialogs w) (stdout w)
          (flag_reads w) (completions w) (chunks_pulled w) (device w)
          (S (naps w)).

(** One item of the completion stream: [chunk['choices'][0]['delta']] with
    or without a ['content'] entry, or a chunk on which that lookup raises. *)
Inductive Chunk : Type :=
| Delta (content : option string)
| Malformed (e : string).

(** The iterator returned by [create_chat_completion(stream=True)]: finite,
    read once, ended by exhaustion or by an exception of the backend. *)
Inductive Stream : Type :=
| Exhausted
| Broken (e : string)
| Yield (chunk : Chunk) (rest : Stream).

Fixpoint stream_of (chunks : list Chunk) (ending : Stream) : Stream :=
  match chunks with
  | [] => ending
  | c :: cs => Yield c (stream_of cs ending)
  end.

(** A message of the chat: role and content. *)
Definition Message : Type := string * string.

(** A loaded [llama_cpp.Llama]. *)
Record Llama : Type := mkLlama {
  create_chat_completion :
    list Message -> nat (* max_tokens *) -> Q (* temperature *) ->
    result Stream
}.

(** A Silero model as [load_pickle] returns it. *)
Record TtsModel : Type := mkTtsModel {
  apply_tts : string -> string (* speaker *) -> nat (* sample_rate *) ->
              result (list Q);
  to_device : result unit      (* [model.to(device)] *)
}.

(** Everything outside the three modules: packages, interpreter, disk,
    network, sound device and the controller thread. *)
Record Host : Type := mkHost {
  host_num2words : N -> result string;
  host_int_max_str_digits : nat;
  (* llm_generator.py *)
  llm_mkdir : result unit;             (* MODEL_DIR.mkdir *)
  llm_glob : result unit;              (* the listing of MODEL_DIR.glob *)
  gguf_files : list string;            (* the gguf files it lists *)
  llm_urlretrieve : list string * result unit;
      (* the texts of the report hook, oldest first, and the outcome *)
  new_llama : result Llama;            (* import and constructor *)
  (* tts_engine.py *)
  tts_mkdir : result unit;             (* model_dir.mkdir *)
  tts_file_exists : bool;
  tts_urlretrieve : result unit;
  load_pickle : result TtsModel;       (* PackageImporter and load_pickle *)
  sd_play : nat -> result unit;        (* by the number of device calls *)
  sd_wait : nat -> result unit;
  (* main.py: the value of [should_stop] at the worker's k-th read of it *)
  should_stop : nat -> bool
}.

(** ** llm_generator.py *)

Definition nl : string := String (ascii_of_nat 10) EmptyString.
Definition dq : string := String (ascii_of_nat 34) EmptyString.

Definition MODEL_FILENAME : string := "Qwen2.5-7B-Instruct-Q4_K_M.gguf".

Definition SYSTEM_PROMPT : string :=
  "You are a professional railway station announcer." ++ nl ++
  "Your task is to generate CLEAR, POLITE, and SHORT announcements for passengers in ENGLISH." ++ nl ++
  nl ++
  "Rules:" ++ nl ++
  "1. Speak ONLY in ENGLISH." ++ nl ++
  "2. Use a formal, announcer style (" ++ dq ++ "Attention please" ++ dq ++
  ", " ++ dq ++ "We inform you" ++ dq ++ ")." ++ nl ++
  "3. If a train is delayed, always apologize for the inconvenience." ++ nl ++
  "4. Include key info: Train number, Destination, Departure time, Platform." ++ nl ++
  "5. Keep it concise (max 2-3 sentences)." ++ nl ++
  "6. NO markdown, emojis, or special characters." ++ nl ++
  nl ++
  "Examples:" ++ nl ++
  "- " ++ dq ++ "Attention please. The Intercity train number 1234 to London will depart from platform 3. It is delayed by approximately 10 minutes. We apologize for the delay." ++ dq ++ nl ++
  "- " ++ dq ++ "The train to Berlin is now arriving at platform 2. Please stand back from the platform edge." ++ dq ++ nl.

(** A record of [generate_train_departures]; a [Dict] with these keys. *)
Record TrainData : Type := mkTrain {
  train_number : string;
  train_type : string;
  operator : string;
  origin : string;
  destination : string;
  scheduled_time : string;
  delay_minutes : Z;
  platform : Z;
  track : option Z;
  is_delayed : bool
}.

(** The progress callback of both engines is a reporting sink: all it acts
    on is the list of texts given to the status bar ([lambda x: None] leaves
    it alone, [_set_status] adds to it). *)
Definition Callback : Type := string -> list string -> list string.

Definition call_back (callback : Callback) (message : string) (w : World)
  : World :=
  mkWorld (callback message (status w)) (announcements w) (dialogs w)
          (stdout w) (flag_reads w) (completions w) (chunks_pulled w)
          (device w) (naps w).

Record AnnouncementGenerator : Type := mkGenerator {
  llm : option Llama;
  progress_callback : Callback
}.

Module Generator.

Definition with_llm (self : AnnouncementGenerator) (m : Llama)
  : AnnouncementGenerator :=
  mkGenerator (Some m) (progress_callback self).

Definition _report_progress (self : AnnouncementGenerator)
           (message : string) (w : World) : World :=
  print ("[LLM] " ++ message) (call_back (progress_callback self) message w).

Definition is_model_downloaded (host : Host) : bool :=
  existsb (String.eqb MODEL_FILENAME) (gguf_files host).

(** The cleanup loop of [download_model]. *)
Fixpoint remove_old_models (self : AnnouncementGenerator)
         (names : list string) (w : World) : World :=
  match names with
  | [] => w
  | name :: rest =>
      if negb (String.eqb name MODEL_FILENAME)
      then remove_old_models self rest
             (_report_progress self ("Removing old model: " ++ name) w)
      else remove_old_models self rest w
  end.

(** [download_model]: making and listing the directory stand outside every
    [try], so an exception there leaves the call. *)
Definition download_model (host : Host) (self : AnnouncementGenerator)
           (w : World) : result bool * World :=
  match llm_mkdir host with
  | Raise e => (Raise e, w)
  | Ok _ =>
      match llm_glob host with
      | Raise e => (Raise e, w)
      | Ok _ =>
          let w := remove_old_models self (gguf_files host) w in
          if is_model_downloaded host then (Ok true, w)
          else
            let w :=
              _report_progress self
                "Downloading model (~4.7 GB)... Please wait." w in
            let w :=
              fold_left (fun w line => _report_progress self line w)
                        (fst (llm_urlretrieve host)) w in
            match snd (llm_urlretrieve host) with
            | Ok _ =>
                (Ok true,
                 _report_progress self "Model downloaded successfully!" w)
            | Raise e =>
                (Ok false, _report_progress self ("Download error: " ++ e) w)
            end
      end
  end.

(** The end of [load_model]: the report and the [try] around the
    constructor. *)
Definition construct (host : Host) (self : AnnouncementGenerator)
           (w : World) : result bool * AnnouncementGenerator * World :=
  let w := _report_progress self "Loading LLM model..." w in
  match new_llama host with
  | Ok m => (Ok true, with_llm self m, _report_progress self "LLM Loaded!" w)
  | Raise e =>
      (Ok false, self, _report_progress self ("Load error: " ++ e) w)
  end.

Definition load_model (host : Host) (self : AnnouncementGenerator)
           (w : World) : result bool * AnnouncementGenerator * World :=
  match llm self with
  | Some _ => (Ok true, self, w)
  | None =>
      if is_model_downloaded host then construct host self w
      else
        let '(downloaded, w) := download_model host self w in
        match downloaded with
        | Raise e => (Raise e, self, w)
        | Ok ok => if ok then construct host self w else (Ok false, self, w)
        end
  end.

Definition info (train_data : TrainData) : string :=
  "Train Number: " ++ train_number train_data ++ nl ++
  "Operator: " ++ operator train_data ++ nl ++
  "Destination: " ++ destination train_data ++ nl ++
  "Origin: " ++ origin train_data ++ nl ++ "Time: " ++
  scheduled_time train_data ++ nl ++
  "Platform: " ++ str_of_Z (platform train_data) ++ nl ++
  (if (delay_minutes train_data >? 0)%Z
   then "STATUS: DELAYED by " ++ str_of_Z (delay_minutes train_data)
        ++ " minutes"
   else "STATUS: ON TIME").

Definition user_prompt (train_data : TrainData) : string :=
  "Data:" ++ nl ++ info train_data ++ nl ++ nl ++
  "Generate station announcement in English:".

Definition Interrupted : string := "[Interrupted]".

(** The [for chunk in stream] loop with its [return]s.  A chunk is pulled
    first; the stop callback is asked in the loop body. *)
Fixpoint consume (self : AnnouncementGenerator)
         (stop_check_callback : option (nat -> bool))
         (stream : Stream) (full_text : string) (w : World)
  : result string * World :=
  match stream with
  | Exhausted => (Ok (strip full_text), w)
  | Broken e => (Raise e, w)
  | Yield chunk rest =>
      let w := tick_chunk w in
      let '(stop, w) :=
        match stop_check_callback with
        | None => (false, w)
        | Some check => (check (flag_reads w), tick_flag w)
        end in
      if stop then
        (Ok Interrupted, _report_progress self "Generation interrupted." w)
      else
        match chunk with
        | Malformed e => (Raise e, w)
        | Delta None => consume self stop_check_callback rest full_text w
        | Delta (Some content) =>
            consume self stop_check_callback rest (full_text ++ content) w
        end
  end.

(** The body of the [try] of [generate_announcement]. *)
Definition stream_announcement (self : AnnouncementGenerator) (m : Llama)
           (train_data : TrainData)
           (stop_check_callback : option (nat -> bool)) (w : World)
  : result string * World :=
  let w := _report_progress self "Thinking..." w in
  let w := tick_completion w in
  match create_chat_completion m
          [("system", SYSTEM_PROMPT); ("user", user_prompt train_data)]
          150 (3 # 10)%Q with
  | Raise e => (Raise e, w)
  | Ok stream => consume self stop_check_callback stream "" w
  end.

Definition fallback (train_data : TrainData) : string :=
  "Attention. Train " ++ train_number train_data ++ " to " ++
  destination train_data ++ " is delayed.".

(** [try: ... except Exception as e: ...] of [generate_announcement];
    [self.llm] is [None] only if a load that reported success left it so,
    and then the attribute lookup raises inside the [try]. *)
Definition announce_or_fall_back (self : AnnouncementGenerator)
           (train_data : TrainData)
           (stop_check_callback : option (nat -> bool)) (w : World)
  : string * World :=
  let '(r, w) :=
    match llm self with
    | Some m => stream_announcement self m train_data stop_check_callback w
    | None =>
        (Raise "'NoneType' object has no attribute 'create_chat_completion'",
         _report_progress self "Thinking..." w)
    end in
  match r with
  | Ok text => (text, w)
  | Raise e =>
      (fallback train_data,
       _report_progress self ("Generation error: " ++ e) w)
  end.

(** [self.llm or self.load_model()]: the model is loaded on first use. *)
Definition ensure_loaded (host : Host) (self : AnnouncementGenerator)
           (w : World) : result bool * AnnouncementGenerator * World :=
  match llm self with
  | Some _ => (Ok true, self, w)
  | None => load_model host self w
  end.

(** [generate_announcement]: the guard stands before the [try], so an
    exception of the load leaves the call. *)
Definition generate_announcement (host : Host)
           (self : AnnouncementGenerator) (train_data : TrainData)
           (stop_check_callback : option (nat -> bool)) (w : World)
  : result string * AnnouncementGenerator * World :=
  let '(loaded, self, w) := ensure_loaded host self w in
  match loaded with
  | Raise e => (Raise e, self, w)
  | Ok loaded =>
      if loaded then
        let '(text, w) :=
          announce_or_fall_back self train_data stop_check_callback w in
        (Ok text, self, w)
      else (Ok "System unavailable.", self, w)
  end.

End Generator.

(** ** tts_engine.py: the speech engine *)

Record SileroTTS : Type := mkTTS {
  model : option TtsModel;
  sample_rate : nat;
  speaker : string;
  _playback_active : bool;
  tts_progress_callback : Callback
}.

Module TTS.

(** [SileroTTS(progress_callback)] *)
Definition init (callback : Callback) : SileroTTS :=
  mkTTS None 48000 "en_117" false callback.

Definition with_model (self : SileroTTS) (m : TtsModel) : SileroTTS :=
  mkTTS (Some m) (sample_rate self) (speaker self) (_playback_active self)
        (tts_progress_callback self).

Definition set_playback_active (self : SileroTTS) (b : bool) : SileroTTS :=
  mkTTS (model self) (sample_rate self) (speaker self) b
        (tts_progress_callback self).

Definition _report_progress (self : SileroTTS) (message : string)
           (w : World) : World :=
  print ("[TTS] " ++ message)
        (call_back (tts_progress_callback self) message w).

(** [download_model]: making the directory stands outside the [try], so
    an exception there leaves the call.  The handler's removal of a partial
    file acts on the disk only. *)
Definition download_model (host : Host) (self : SileroTTS) (w : World)
  : result bool * World :=
  match tts_mkdir host with
  | Raise e => (Raise e, w)
  | Ok _ =>
      if tts_file_exists host then (Ok true, w)
      else
        let w :=
          _report_progress self "Downloading Silero TTS v3_en.pt (~100MB)..."
                           w in
        match tts_urlretrieve host with
        | Ok _ => (Ok true, _report_progress self "Model downloaded." w)
        | Raise e =>
            (Ok false, _report_progress self ("Download error: " ++ e) w)
        end
  end.

(** [load_model]: [self.model] is assigned before [self.model.to] is
    called, so a failure of the latter returns [False] with the model
    kept. *)
Definition load_model (host : Host) (self : SileroTTS) (w : World)
  : result bool * SileroTTS * World :=
  match model self with
  | Some _ => (Ok true, self, w)
  | None =>
      let '(downloaded, w) := download_model host self w in
      match downloaded with
      | Raise e => (Raise e, self, w)
      | Ok ok =>
          if ok then
            let w := _report_progress self "Loading TTS model..." w in
            match load_pickle host with
            | Raise e =>
                (Ok false, self,
                 _report_progress self
                   ("Load error (torch.package): " ++ e) w)
            | Ok m =>
                let self := with_model self m in
                match to_device m with
                | Raise e =>
                    (Ok false, self,
                     _report_progress self
                       ("Load error (torch.package): " ++ e) w)
                | Ok _ => (Ok true, self, _report_progress self "TTS Ready!" w)
                end
            end
          else (Ok false, self, w)
      end
  end.

Definition _normalize_text (host : Host) (text : string)
  : string * list string :=
  _normalize_text (host_num2words host) (host_int_max_str_digits host) text.

(** [int(self.sample_rate * 0.5)] *)
Definition silence_samples (self : SileroTTS) : nat := sample_rate self / 2.

(** The body of the [try] of [speak], from the call of the model on. *)
Definition synthesize_and_play (host : Host) (self : SileroTTS)
           (m : TtsModel) (normalized_text : string) (blocking : bool)
           (w : World) : result unit * SileroTTS * World :=
  match apply_tts m normalized_text (speaker self) (sample_rate self) with
  | Raise e => (Raise e, self, w)
  | Ok audio =>
      let audio_np := (audio ++ repeat 0%Q (silence_samples self))%list in
      let self := set_playback_active self true in
      let played := sd_play host (List.length (device w)) in
      let w := push_device (SdPlay audio_np (sample_rate self)) w in
      match played with
      | Raise e => (Raise e, self, w)
      | Ok _ =>
          if blocking then
            let waited := sd_wait host (List.length (device w)) in
            let w := push_device SdWait w in
            match waited with
            | Raise e => (Raise e, self, w)
            | Ok _ => (Ok tt, set_playback_active self false, w)
            end
          else (Ok tt, self, w)
      end
  end.

(** [self.model or self.load_model()] *)
Definition ensure_loaded (host : Host) (self : SileroTTS) (w : World)
  : result bool * SileroTTS * World :=
  match model self with
  | Some _ => (Ok true, self, w)
  | None => load_model host self w
  end.

(** The [try] of [speak] with its handler. *)
Definition say (host : Host) (self : SileroTTS) (text : string)
           (blocking : bool) (w : World) : SileroTTS * World :=
  let '(normalized_text, printed) := _normalize_text host text in
  let w := fold_left (fun w line => print line w) printed w in
  let w :=
    _report_progress self
      ("Reading: '" ++ substring 0 50 normalized_text ++ "...'") w in
  let '(r, self, w) :=
    match model self with
    | Some m => synthesize_and_play host self m normalized_text blocking w
    | None =>
        (Raise "'NoneType' object has no attribute 'apply_tts'", self, w)
    end in
  match r with
  | Ok _ => (self, w)
  | Raise e =>
      (set_playback_active self false,
       _report_progress self ("TTS Error: " ++ e) w)
  end.

(** [speak]: the guard stands before the [try], so an exception of the
    load leaves the call. *)
Definition speak (host : Host) (self : SileroTTS) (text : string)
           (blocking : bool) (w : World)
  : result unit * SileroTTS * World :=
  let '(loaded, self, w) := ensure_loaded host self w in
  match loaded with
  | Raise e => (Raise e, self, w)
  | Ok loaded =>
      if loaded then
        let '(self, w) := say host self text blocking w in (Ok tt, self, w)
      else (Ok tt, self, _report_progress self "No model." w)
  end.

(** [stop]; [sd.stop()] itself is taken not to raise. *)
Definition stop (self : SileroTTS) (w : World) : SileroTTS * World :=
  if _playback_active self
  then (set_playback_active self false, push_device SdStop w)
  else (self, w).

End TTS.

(** ** main.py: the announcement loop *)

Record App : Type := mkApp {
  trains : list TrainData;
  llm_generator : option AnnouncementGenerator;
  tts_engine : option SileroTTS;
  is_speaking : bool
}.

Module Main.

Definition with_generator (self : App) (g : AnnouncementGenerator) : App :=
  mkApp (trains self) (Some g) (tts_engine self) (is_speaking self).

Definition with_tts (self : App) (t : SileroTTS) : App :=
  mkApp (trains self) (llm_generator self) (Some t) (is_speaking self).

Definition set_speaking (self : App) (b : bool) : App :=
  mkApp (trains self) (llm_generator self) (tts_engine self) b.

Definition _set_status (message : string) (w : World) : World :=
  push_status message w.

(** [self._set_status] handed over as a progress callback. *)
Definition status_callback : Callback := fun message shown => message :: shown.

(** The sound device took an audio to play. *)
Definition is_play (op : DeviceOp) : bool :=
  match op with
  | SdPlay _ _ => true
  | _ => false
  end.

(** The number of announcements handed to the sound device. *)
Definition playbacks (w : World) : nat :=
  List.length (filter is_play (device w)).

Definition _set_announcement (text : string) (w : World) : World :=
  push_announcement text w.

(** One read of [self.should_stop] by the worker. *)
Definition read_should_stop (host : Host) (w : World) : bool * World :=
  (should_stop host (flag_reads w), tick_flag w).

(** [self._check_stop], as the generator calls it. *)
Definition _check_stop (host : Host) : nat -> bool := should_stop host.

Definition progress_text (verb : string) (i total : nat) : string :=
  verb ++ str_of_nat i ++ "/" ++ str_of_nat total ++ "...".

(** [for i, train in enumerate(trains_to_announce, 1)] from index [i] on.
    [Ok] is the end of the loop, by exhaustion or by [break]. *)
Fixpoint announce_from (host : Host) (i total : nat)
         (batch : list TrainData) (self : App) (w : World)
  : result unit * App * World :=
  match batch with
  | [] => (Ok tt, self, w)
  | train :: rest =>
      let '(stop, w) := read_should_stop host w in
      if stop then (Ok tt, self, w) else
      let w :=
        _set_status (progress_text "🤖 Generating announcement " i total) w
      in
      match llm_generator self with
      | None =>
          (Raise "'NoneType' object has no attribute 'generate_announcement'",
           self, w)
      | Some gen =>
          let '(generated, gen, w) :=
            Generator.generate_announcement host gen train
              (Some (_check_stop host)) w in
          let self := with_generator self gen in
          match generated with
          | Raise e => (Raise e, self, w)
          | Ok text =>
              let '(stop, w) := read_should_stop host w in
              if stop then (Ok tt, self, w) else
              let w := _set_announcement text w in
              let w := _set_status (progress_text "🔊 Speaking " i total) w in
              match tts_engine self with
              | None =>
                  (Raise "'NoneType' object has no attribute 'speak'",
                   self, w)
              | Some tts =>
                  let '(spoken, tts, w) := TTS.speak host tts text true w in
                  let self := with_tts self tts in
                  match spoken with
                  | Raise e => (Raise e, self, w)
                  | Ok _ =>
                      let '(stop, w) := read_should_stop host w in
                      if stop then (Ok tt, self, w) else
                      announce_from host (S i) total rest self (sleep w)
                  end
              end
          end
      end
  end.

Definition STOPPED : string := "🛑 Stopped by user".
Definition COMPLETED : string := "✅ All announcements completed".

(** [speak_thread], run to its end. *)
Definition speak_thread (host : Host) (self : App) (w : World)
  : App * World :=
  let trains_to_announce := firstn 3 (trains self) in
  let '(r, self, w) :=
    announce_from host 1 (List.length trains_to_announce)
                  trains_to_announce self w in
  let w :=
    match r with
    | Ok _ =>
        let '(stop, w) := read_should_stop host w in
        if stop then _set_status STOPPED w else _set_status COMPLETED w
    | Raise e => _set_status ("❌ Error: " ++ e) w
    end in
  (set_speaking self false, w).

(** [_on_speak_click], with the thread it starts run to its end. *)
Definition _on_speak_click (host : Host) (self : App) (w : World)
  : App * World :=
  match trains self with
  | [] => (self, push_dialog "Please refresh departures first!" w)
  | _ =>
      if is_speaking self then (self, w)
      else speak_thread host (set_speaking self true) w
  end.

(** The status the run ends with. *)
Definition final_status (w : World) : string := hd "" (status w).

End Main.

(** ** train_data.py *)

(** [random]: an oracle of raw draws, read one after the other. *)
Record Random : Type := mkRandom {
  raw : nat -> N;
  drawn : nat
}.

(** A naive [datetime]: the day and the time of day. *)
Record datetime : Type := mkDatetime {
  day : Z;
  hour : Z;
  minute : Z;
  second : Z;
  microsecond : Z
}.

Module TrainGen.

Definition STATIONS : list string :=
  ["New York Penn Station"; "Boston South Station"; "Chicago Union Station";
   "Washington Union Station"; "Philadelphia 30th Street";
   "Los Angeles Union Station"; "San Francisco"; "Seattle King Street";
   "Miami Central"; "Dallas Union Station"; "Atlanta Peachtree";
   "Denver Union Station"; "New Orleans Union Passenger Terminal";
   "San Diego Santa Fe Depot"; "Portland Union Station"; "Houston";
   "Salt Lake City"; "Las Vegas"].

Definition OPERATORS : list string :=
  ["Amtrak"; "Metrolink"; "Caltrain"; "MARC"; "SEPTA"; "NJ Transit";
   "Metro-North"; "LIRR"].

Definition TRAIN_TYPES : list (string * string) :=
  [("Acela", "Amtrak"); ("Regional", "Amtrak"); ("Silver Star", "Amtrak");
   ("Sunset Ltd", "Amtrak"); ("Commuter", "Metrolink");
   ("Express", "Caltrain"); ("Local", "NJ Transit"); ("LIRR", "LIRR")].

Definition draw (r : Random) : N * Random :=
  (raw r (drawn r), mkRandom (raw r) (S (drawn r))).

(** [random.randint(a, b)] *)
Definition randint (a b : Z) (r : Random) : Z * Random :=
  let '(x, r) := draw r in ((a + Z.of_N x mod (b - a + 1))%Z, r).

(** [random.random()]: the float [k / 2**53], given by [k]. *)
Definition random (r : Random) : N * Random :=
  let '(x, r) := draw r in ((x mod 2 ^ 53)%N, r).

(** The doubles [0.6] and [0.85], as numerators over [2**53]. *)
Definition double_0_6 : N := 5404319552844595.
Definition double_0_85 : N := 7656119366529843.

(** [random.choice(seq)] on a sequence that is not empty. *)
Definition choice {A : Type} (default : A) (seq : list A) (r : Random)
  : A * Random :=
  let '(x, r) := draw r in
  (nth (N.to_nat (x mod N.of_nat (List.length seq))) seq default, r).

(** [pool[j] = x] *)
Fixpoint list_set {A : Type} (j : nat) (x : A) (pool : list A) : list A :=
  match pool, j with
  | [], _ => []
  | _ :: rest, O => x :: rest
  | y :: rest, S k => y :: list_set k x rest
  end.

(** [random.sample(population, 2)] on a population of at most 21 elements,
    where CPython draws from a copy of the list: the element at a place
    drawn among all, the last element moved into that place, then the
    element at a place drawn among all but the last. *)
Definition sample2 {A : Type} (default : A) (population : list A)
           (r : Random) : (A * A) * Random :=
  let n := List.length population in
  let pool := population in
  let '(x, r) := draw r in
  let j := N.to_nat (x mod N.of_nat n) in
  let first := nth j pool default in
  let pool := list_set j (nth (n - 1) pool default) pool in
  let '(y, r) := draw r in
  let j := N.to_nat (y mod N.of_nat (n - 1)) in
  ((first, nth j pool default), r).

Definition generate_train_number (train_type : string) (r : Random)
  : string * Random :=
  let '(number, r) := randint 10 9999 r in
  if 4 <? String.length train_type
  then ("#" ++ str_of_Z number, r)
  else (train_type ++ " " ++ str_of_Z number, r).

Definition generate_route (r : Random) : (string * string) * Random :=
  sample2 "" STATIONS r.

Definition generate_delay (r : Random) : Z * Random :=
  let '(u, r) := random r in
  if (u <? double_0_6)%N then (0%Z, r)
  else
    let '(v, r) := random r in
    if (v <? double_0_85)%N then randint 1 15 r else randint 16 60 r.

(** [dt + timedelta(minutes=m)] *)
Definition add_minutes (dt : datetime) (m : Z) : datetime :=
  let total := (hour dt * 60 + minute dt + m)%Z in
  mkDatetime (day dt + total / 1440)%Z ((total mod 1440) / 60)%Z
             (total mod 60)%Z (second dt) (microsecond dt).

(** [dt.replace(minute=m, second=0, microsecond=0)] *)
Definition replace_minute (dt : datetime) (m : Z) : datetime :=
  mkDatetime (day dt) (hour dt) m 0 0.

Definition generate_departure_time (now : datetime)
           (base_time : option datetime) (r : Random) : datetime * Random :=
  let base_time :=
    match base_time with
    | Some t => t
    | None => now
    end in
  let '(minutes_ahead, r) := randint 5 120 r in
  let departure := add_minutes base_time minutes_ahead in
  (replace_minute departure ((minute departure / 5) * 5)%Z, r).

(** Two decimal digits, as [%H] and [%M] print an hour and a minute. *)
Definition two_digits (n : Z) : string :=
  String (ascii_of_N (48 + Z.to_N (n / 10)))
         (String (ascii_of_N (48 + Z.to_N (n mod 10))) "").

(** [dt.strftime("%H:%M")] *)
Definition strftime_HM (dt : datetime) : string :=
  two_digits (hour dt) ++ ":" ++ two_digits (minute dt).

(** One pass of the loop of [generate_train_departures]. *)
Definition generate_departure (base_time : datetime) (r : Random)
  : TrainData * Random :=
  let '((train_type, operator), r) := choice ("", "") TRAIN_TYPES r in
  let '((start, finish), r) := generate_route r in
  let '(departure_time, r) :=
    generate_departure_time base_time (Some base_time) r in
  let '(delay, r) := generate_delay r in
  let '(platform, r) := randint 1 20 r in
  let '(some_track, r) := randint 1 4 r in
  let '(track, r) := choice None [None; Some some_track] r in
  let '(number, r) := generate_train_number train_type r in
  (mkTrain number train_type operator start finish
           (strftime_HM departure_time) delay platform track (0 <? delay)%Z,
   r).

Fixpoint generate_departures (count : nat) (base_time : datetime)
         (r : Random) : list TrainData * Random :=
  match count with
  | O => ([], r)
  | S n =>
      let '(train_data, r) := generate_departure base_time r in
      let '(departures, r) := generate_departures n base_time r in
      (train_data :: departures, r)
  end.

(** The place of [x] in a list sorted by [key]: after the elements whose
    key is not greater. *)
Fixpoint insert_by {A : Type} (key : A -> string) (x : A) (sorted : list A)
  : list A :=
  match sorted with
  | [] => [x]
  | y :: rest =>
      if String.ltb (key x) (key y) then x :: sorted
      else y :: insert_by key x rest
  end.

(** [l.sort(key=key)]: the stable sort, elements taken from left to right. *)
Definition sort_by {A : Type} (key : A -> string) (l : list A) : list A :=
  fold_left (fun sorted x => insert_by key x sorted) l [].

Definition generate_train_departures (now : datetime) (count : nat)
           (r : Random) : list TrainData * Random :=
  let '(departures, r) := generate_departures count now r in
  (sort_by scheduled_time departures, r).

Definition format_delay_text (delay_minutes : Z) : string :=
  if (delay_minutes =? 0)%Z then "On Time"
  else if (delay_minutes =? 1)%Z then "+1 min"
  else "+" ++ str_of_Z delay_minutes ++ " mins".

End TrainGen.

(** ** main.py: start and the departures board *)

(** [old] is not empty: [s.replace(old, new)], left to right; [skip] counts
    the characters of the current occurrence still to be passed over. *)
Fixpoint replace_from (old new : string) (skip : nat) (s : string) : string :=
  match s with
  | EmptyString => EmptyString
  | String c t =>
      match skip with
      | S k => replace_from old new k t
      | O =>
          if prefix old s
          then new ++ replace_from old new (pred (String.length old)) t
          else String c (replace_from old new 0 t)
      end
  end.

(** [s.replace(old, new)] *)
Definition str_replace (old new s : string) : string :=
  match old with
  | EmptyString =>
      new ++ String.concat ""
               (map (fun c => String c new) (list_ascii_of_string s))
  | _ => replace_from old new 0 s
  end.

(** A row of the departures table: the five columns and the tag. *)
Record Row : Type := mkRow {
  col_train : string;
  col_route : string;
  col_time : string;
  col_delay : string;
  col_platform : string;
  row_tag : string
}.

Module Board.

(** The text of the delay column. *)
Definition delay_column (delay_minutes : Z) : string :=
  let delay_text := TrainGen.format_delay_text delay_minutes in
  let delay_text :=
    if contains "minut" delay_text
    then str_replace "minuty" "min"
           (str_replace "minuta" "min" (str_replace "minut" "min" delay_text))
    else delay_text in
  if contains "planowo" delay_text then "On Time" else delay_text.

(** [train.get("track")] as a condition: neither [None] nor [0]. *)
Definition has_track (train : TrainData) : bool :=
  match track train with
  | Some k => negb (k =? 0)%Z
  | None => false
  end.

Definition platform_column (train : TrainData) : string :=
  str_of_Z (platform train) ++
  match track train with
  | Some k => if has_track train then "/" ++ str_of_Z k else ""
  | None => ""
  end.

Definition row_of (train : TrainData) : Row :=
  mkRow (train_number train)
        (origin train ++ " → " ++ destination train)
        (scheduled_time train)
        (delay_column (delay_minutes train))
        (platform_column train)
        (if is_delayed train then "delayed" else "ontime").

(** The loop of [_on_refresh_click] over [self.trains]. *)
Fixpoint fill (trains : list TrainData) (tree : list Row)
         (delayed_count : nat) : list Row * nat :=
  match trains with
  | [] => (tree, delayed_count)
  | train :: rest =>
      fill rest (tree ++ [row_of train])%list
           (if is_delayed train then S delayed_count else delayed_count)
  end.

(** [_on_refresh_click]: the application, the table and the world after
    it; the old rows of the table are deleted first. *)
Definition _on_refresh_click (now : datetime) (r : Random) (self : App)
           (tree : list Row) (w : World)
  : App * list Row * Random * World :=
  let w := Main._set_status "🔄 Generating random train data..." w in
  let '(generated, r) := TrainGen.generate_train_departures now 8 r in
  let self :=
    mkApp generated (llm_generator self) (tts_engine self)
          (is_speaking self) in
  let '(tree, delayed_count) := fill (trains self) [] 0 in
  (self, tree, r,
   Main._set_status
     ("✅ Loaded " ++ str_of_nat (List.length (trains self)) ++ " trains ("
      ++ str_of_nat delayed_count ++ " delayed)") w).

End Board.

Module Startup.

(** [RailwayAnnouncerApp.__init__], the state it sets. *)
Definition new_app : App := mkApp [] None None false.





End Startup.

(** ** Vocabulary of the properties *)

(** What the worker consumed and did, apart from reports and sound. *)
Definition counters (w : World)
  : nat * nat * nat * nat * list string * list string :=
  (flag_reads w, chunks_pulled w, completions w, naps w, announcements w,
   dialogs w).

(** [f] reads a part of the world that no progress report touches. *)
Definition report_blind {A : Type} (f : World -> A) : Prop :=
  forall (callback : Callback) (message line : string) (w : World),
    f (print line (call_back callback message w)) = f w.

(** What the loop itself, not the generator, adds to. *)
Definition display (w : World) : nat * list string * list string :=
  (naps w, announcements w, dialogs w).

Definition no_digit (s : string) : bool :=
  forall_chars (fun x => negb (is_digit x)) s.

(** The number a string of digits stands for. *)
Definition value (digits : string) : N := int_digits 0 digits.


Definition head_digit (s : string) : bool :=
  match s with
  | String c _ => is_digit c
  | EmptyString => false
  end.

(** No time starts anywhere in [s]. *)
Fixpoint time_free (s : string) : bool :=
  match s with
  | EmptyString => true
  | String _ t =>
      match Re.time_pattern s with
      | None => time_free t
      | Some _ => false
      end
  end.

(** [shadow t k]: [k] follows [t] character by character up to a point
    where [k] goes on with text in which no time can continue. *)
Inductive shadow : string -> string -> Prop :=
| shadow_end : shadow "" ""
| shadow_same (c : ascii) (t k : string) :
    shadow t k -> shadow (String c t) (String c k)
| shadow_cut (t : string) (x : ascii) (k : string) :
    is_digit x = false ->
    Ascii.eqb x ":" = false \/ head_digit k = false ->
    shadow t (String x k).

Definition all_spelled (words : list string) : bool := forallb no_digit words.

(** What one call of the generator reads of the flag, and that a check
    answering yes ends it with the marker. *)
Definition generation_effects (check : nat -> bool) (w : World)
           (r : result string) (w' : World) : Prop :=
  display w' = display w /\ device w' = device w /\
  flag_reads w <= flag_reads w' /\
  chunks_pulled w' + flag_reads w = chunks_pulled w + flag_reads w' /\
  (forall k, flag_reads w <= k < flag_reads w' -> check k = true ->
             r = Ok Generator.Interrupted /\ S k = flag_reads w').


(** [e] is the exception of one of them. *)
Definition escaped (host : Host) (e : string) : Prop :=
  tts_mkdir host = Raise e \/ llm_mkdir host = Raise e \/
  llm_glob host = Raise e.

(** Where a run of the loop over [batch] can end: all records done, or a
    read of the stop flag that returned yes. *)
Definition loop_outcome (host : Host) (batch : list TrainData)
           (w w' : World) : Prop :=
  (naps w' = naps w + List.length batch /\
   List.length (announcements w')
   = List.length (announcements w) + List.length batch)
  \/
  (exists k, flag_reads w <= k < flag_reads w' /\
             should_stop host k = true /\ S k = flag_reads w' /\
             naps w' < naps w + List.length batch).

(** The contents of the deltas, appended as the loop appends them. *)
Definition joined (contents : list (option string)) : string :=
  fold_left (fun full_text content =>
               match content with
               | Some text => full_text ++ text
               | None => full_text
               end) contents "".

(** The stop callback, if there is one, says no at the next [n] reads. *)
Definition says_no (stop_check_callback : option (nat -> bool)) (w : World)
           (n : nat) : Prop :=
  match stop_check_callback with
  | None => True
  | Some check => forall i, i < n -> check (flag_reads w + i) = false
  end.

(** One read of the flag per chunk pulled; none without a callback. *)
Definition reads_per_pull (stop_check_callback : option (nat -> bool))
           (w w' : World) : Prop :=
  match stop_check_callback with
  | None => flag_reads w' = flag_reads w
  | Some _ =>
      chunks_pulled w' + flag_reads w = chunks_pulled w + flag_reads w'
  end.

(** The fields of a time of day are in their ranges. *)
Definition valid_time (dt : datetime) : Prop :=
  (0 <= hour dt < 24 /\ 0 <= minute dt < 60 /\ 0 <= second dt < 60 /\
   0 <= microsecond dt < 1000000)%Z.

(** Whole minutes since the start of day 0. *)
Definition minutes_since (dt : datetime) : Z :=
  ((day dt * 24 + hour dt) * 60 + minute dt)%Z.

(** What every record of [generate_train_departures] satisfies. *)
Definition well_formed_departure (t : TrainData) : Prop :=
  In (train_type t, operator t) TrainGen.TRAIN_TYPES /\
  In (origin t) TrainGen.STATIONS /\ In (destination t) TrainGen.STATIONS /\
  origin t <> destination t /\
  (0 <= delay_minutes t <= 60)%Z /\
  is_delayed t = (0 <? delay_minutes t)%Z /\
  (1 <= platform t <= 20)%Z /\
  (track t = None \/ exists k, track t = Some k /\ (1 <= k <= 4)%Z) /\
  (exists number,
      (10 <= number <= 9999)%Z /\
      train_number t
      = if 4 <? String.length (train_type t)
        then "#" ++ str_of_Z number
        else train_type t ++ " " ++ str_of_Z number) /\
  (exists h m,
      (0 <= h < 24)%Z /\ (0 <= m < 60)%Z /\ (m mod 5 = 0)%Z /\
      scheduled_time t
      = TrainGen.two_digits h ++ ":" ++ TrainGen.two_digits m).

(** Ordered as [str] compares the scheduled times. *)
Definition by_time (a b : TrainData) : Prop :=
  String.leb (scheduled_time a) (scheduled_time b) = true.

(** The two characters of [two_digits n], for a number below a hundred. *)
Definition two_digits_ok (n : nat) : bool :=
  match TrainGen.two_digits (Z.of_nat n) with
  | String a (String b EmptyString) =>
      is_digit a && is_digit b &&
      (value (TrainGen.two_digits (Z.of_nat n)) =? N.of_nat n)%N
  | _ => false
  end.


(** The characters of [str(n)] for an [int]. *)
Definition sign_or_digit (c : ascii) : bool := is_digit c || Ascii.eqb c "-".

(** ** Doubles for the collaborators *)

(** [lambda x: None] *)
Definition quiet : Callback := fun _ shown => shown.

(** A backend that answers every request with the same stream or error. *)
Definition llama_of (answer : result Stream) : Llama :=
  mkLlama (fun _ _ _ => answer).

Definition tone : TtsModel :=
  mkTtsModel (fun _ _ _ => Ok [(1 # 2)%Q; (-1 # 2)%Q]) (Ok tt).

(** A host with both model files on disk and a working sound device. *)
Definition host_with (backend : result Llama) (voice : result TtsModel)
           (flag : nat -> bool) : Host :=
  mkHost Num2Words.num2words default_max_str_digits
         (Ok tt) (Ok tt) [MODEL_FILENAME] ([], Ok tt) backend
         (Ok tt) true (Ok tt) voice (fun _ => Ok tt) (fun _ => Ok tt) flag.

Definition never : nat -> bool := fun _ => false.
Definition always : nat -> bool := fun _ => true.
(** The flag is set between the worker's [k]-th read and the next. *)
Definition set_after (k : nat) : nat -> bool := fun i => k <=? i.

(** An on-time train. *)
Definition train_2426 : TrainData :=
  mkTrain "#2426" "Regional" "Amtrak" "Chicago Union Station" "Houston"
          "21:05" 0 3 None false.

Definition three_chunks : Stream :=
  Yield (Delta None)
    (Yield (Delta (Some "Attention please. "))
       (Yield (Delta (Some "Train 2426 departs 21:05 "))
          Exhausted)).

(** Four departures, of which the loop announces the first three. *)
Definition departures : list TrainData :=
  [train_2426;
   mkTrain "#77" "Acela" "Amtrak" "Boston South Station"
           "New York Penn Station" "21:10" 12 7 (Some 2%Z) true;
   mkTrain "LIRR 512" "LIRR" "LIRR" "Houston" "Las Vegas" "21:15" 0 1 None
           false;
   mkTrain "#9" "Local" "NJ Transit" "Miami Central" "San Francisco" "21:20"
           45 20 None true].

(** The application once both engines are constructed. *)
Definition app_ready (backend : option Llama) : App :=
  mkApp departures
        (Some (mkGenerator backend Main.status_callback))
        (Some (TTS.init Main.status_callback))
        false.




(** A voice that unpickles but cannot be moved to the device. *)
Definition unmoved : TtsModel :=
  mkTtsModel (fun _ _ _ => Ok [(1 # 2)%Q; (-1 # 2)%Q])
             (Raise "DefaultCPUAllocator: not enough memory").

(** A sound device that refuses every playback. *)
Definition host_without_sound (backend : result Llama)
           (flag : nat -> bool) : Host :=
  mkHost Num2Words.num2words default_max_str_digits
         (Ok tt) (Ok tt) [MODEL_FILENAME] ([], Ok tt) backend
         (Ok tt) true (Ok tt) (Ok tone)
         (fun _ => Raise "Error opening OutputStream") (fun _ => Ok tt) flag.

(** * Properties *)

(** ** Characters and strings *)

Lemma has_digit_no_digit (s : string) :
  has_digit s = false <-> no_digit s = true.
Proof.
  unfold has_digit, no_digit. split; intros H.
  - now apply negb_false_iff in H.
  - now rewrite H.
Qed.

Lemma forall_chars_app (p : ascii -> bool) (s t : string) :
  forall_chars p (s ++ t) = forall_chars p s && forall_chars p t.
Proof.
  induction s as [|c s IH]; simpl.
  - reflexivity.
  - now rewrite IH, andb_assoc.
Qed.

Lemma no_digit_app (s t : string) :
  no_digit (s ++ t) = no_digit s && no_digit t.
Proof. apply forall_chars_app. Qed.

Lemma no_digit_cons (c : ascii) (s : string) :
  no_digit (String c s) = negb (is_digit c) && no_digit s.
Proof. reflexivity. Qed.

Lemma substring_nothing (s : string) : substring 0 0 s = "".
Proof. destruct s; reflexivity. Qed.

Lemma app_assoc_str (s t u : string) : (s ++ t) ++ u = s ++ t ++ u.
Proof. induction s as [|c s IH]; simpl; [|rewrite IH]; reflexivity. Qed.

(** ** The scan of [re.sub] *)

Module ReFacts.
Import Re.

Section Scan.
Variable pattern : string -> option Match.
Variable repl : Match -> result string.

(** Passing over the rest of a match. *)
Lemma sub_from_skip (pre rest : string) :
  sub_from pattern repl (String.length pre) (pre ++ rest)
  = sub_from pattern repl 0 rest.
Proof.
  induction pre as [|c pre IH]; simpl.
  - destruct rest; reflexivity.
  - exact IH.
Qed.


Lemma sub_match (m : Match) (pre rest : string) :
  pre <> "" ->
  pattern (pre ++ rest) = Some m ->
  span m = String.length pre ->
  sub pattern repl (pre ++ rest)
  = (r <- repl m ;; out <- sub pattern repl rest ;; Ok (r ++ out)).
Proof.
  intros Hne Hm Hspan. unfold sub.
  destruct pre as [|c pre]; [contradiction|].
  change ((String c pre) ++ rest) with (String c (pre ++ rest)) in *.
  cbn [sub_from]. rewrite Hm, Hspan. cbn [String.length pred].
  now rewrite sub_from_skip.
Qed.
End Scan.

Lemma time_pattern_head (s : string) :
  head_digit s = false -> time_pattern s = None.
Proof.
  unfold time_pattern, at_time2, at_time1.
  destruct s as [|a s]; [reflexivity|]. simpl. intros ->.
  destruct s as [|b [|c [|d t]]]; reflexivity.
Qed.

Lemma digits_pattern_head (s : string) :
  head_digit s = false -> digits_pattern s = None.
Proof.
  unfold digits_pattern. destruct s as [|a t]; simpl; [easy|].
  now intros ->.
Qed.


Lemma time_free_no_digit (s : string) :
  no_digit s = true -> time_free s = true.
Proof.
  induction s as [|c s IH]; [reflexivity|].
  intros H. apply andb_true_iff in H as [Hc Hs].
  cbn [time_free]. rewrite time_pattern_head.
  - now apply IH.
  - simpl. now apply negb_true_iff.
Qed.

Lemma time_free_app (r s : string) :
  no_digit r = true -> time_free (r ++ s) = time_free s.
Proof.
  induction r as [|c r IH]; [reflexivity|].
  intros H. apply andb_true_iff in H as [Hc Hr].
  change (String c r ++ s) with (String c (r ++ s)).
  cbn [time_free]. rewrite time_pattern_head.
  - now apply IH.
  - simpl. now apply negb_true_iff.
Qed.

Lemma sub_time_free (repl : Match -> result string) (s : string) :
  time_free s = true -> sub time_pattern repl s = Ok s.
Proof.
  unfold sub. induction s as [|c s IH]; [reflexivity|].
  cbn [time_free sub_from].
  destruct (time_pattern (String c s)); [discriminate|].
  intros H. now rewrite IH.
Qed.

Lemma sub_digits_no_digit (repl : Match -> result string) (s : string) :
  no_digit s = true -> sub digits_pattern repl s = Ok s.
Proof.
  unfold sub. induction s as [|c s IH]; [reflexivity|].
  intros H. apply andb_true_iff in H as [Hc Hs].
  cbn [sub_from]. rewrite digits_pattern_head.
  - now rewrite IH.
  - simpl. now apply negb_true_iff.
Qed.

Lemma shadow_at_time1 (t k : string) :
  shadow t k -> at_time1 k = true -> at_time1 t = true.
Proof.
  intros Hsh Hk.
  destruct k as [|a [|b [|c [|d k]]]]; try discriminate Hk.
  cbn [at_time1] in Hk.
  apply andb_true_iff in Hk as [Hk Hd].
  apply andb_true_iff in Hk as [Hk Hc].
  apply andb_true_iff in Hk as [Ha Hb].
  inversion Hsh as [|? t1 ? Hsh1|? ? ? Hx Hor]; subst; [|congruence].
  inversion Hsh1 as [|? t2 ? Hsh2|? ? ? Hx Hor]; subst.
  2:{ destruct Hor as [Hor|Hor]; simpl in Hor; congruence. }
  inversion Hsh2 as [|? t3 ? Hsh3|? ? ? Hx Hor]; subst; [|congruence].
  inversion Hsh3 as [|? t4 ? Hsh4|? ? ? Hx Hor]; subst; [|congruence].
  cbn [at_time1]. now rewrite Ha, Hb, Hc, Hd.
Qed.

Lemma shadow_at_time2 (t k : string) :
  shadow t k -> at_time2 k = true -> at_time2 t = true.
Proof.
  intros Hsh Hk. destruct k as [|a k]; [discriminate|].
  cbn [at_time2] in Hk. apply andb_true_iff in Hk as [Ha Hk].
  inversion Hsh as [|? t1 ? Hsh1|? ? ? Hx Hor]; subst; [|congruence].
  cbn [at_time2]. rewrite Ha. simpl. eapply shadow_at_time1; eassumption.
Qed.

Lemma shadow_time_pattern (t k : string) :
  shadow t k -> time_pattern t = None -> time_pattern k = None.
Proof.
  intros Hsh. unfold time_pattern.
  destruct (at_time2 k) eqn:H2.
  - now rewrite (shadow_at_time2 _ _ Hsh H2).
  - destruct (at_time1 k) eqn:H1; [|reflexivity].
    rewrite (shadow_at_time1 _ _ Hsh H1).
    destruct (at_time2 t); discriminate.
Qed.

End ReFacts.

(** ** The normaliser *)

Section NormalizerFacts.
Import Re ReFacts.

Variable num2words : N -> result string.
Variable limit : nat.

Local Abbreviation to_int := (py_int limit).
Local Abbreviation time_words := (replace_time num2words limit).
Local Abbreviation number_words := (replace_number num2words limit).
Local Abbreviation times := (sub_times num2words limit).
Local Abbreviation numbers := (sub_numbers num2words limit).
Local Abbreviation norm := (normalize num2words limit).
Local Abbreviation succeeds := (normalize_succeeds num2words limit).

(** Short strings are below every limit the interpreter accepts. *)
Lemma py_int_short (s : string) :
  String.length s <= 640 -> to_int s = Ok (int_digits 0 s).
Proof.
  intros H. unfold to_int, int_limit_exceeded.
  destruct limit as [|l]; [reflexivity|].
  destruct (Nat.ltb_spec (Nat.max 640 (S l)) (String.length s)); [lia|].
  reflexivity.
Qed.

Lemma replace_hyphens_no_digit (s : string) :
  no_digit s = true -> no_digit (replace_hyphens s) = true.
Proof.
  unfold no_digit, replace_hyphens.
  induction s as [|c s IH]; [reflexivity|].
  intros H. apply andb_true_iff in H as [Hc Hs].
  simpl. rewrite (IH Hs), andb_true_r.
  destruct (Ascii.eqb c "-"); [reflexivity|exact Hc].
Qed.

Lemma replace_hyphens_idem (s : string) :
  replace_hyphens (replace_hyphens s) = replace_hyphens s.
Proof.
  unfold replace_hyphens.
  induction s as [|c s IH]; [reflexivity|].
  simpl. rewrite IH. f_equal.
  destruct (Ascii.eqb c "-") eqn:E; [reflexivity|now rewrite E].
Qed.


Lemma normalize_no_digit (s : string) :
  no_digit s = true -> norm s = replace_hyphens s.
Proof.
  intros H. unfold norm, _normalize_text.
  unfold sub_times, sub_numbers.
  rewrite sub_time_free by now apply time_free_no_digit.
  now rewrite sub_digits_no_digit.
Qed.

Section Spelled.

(** What [num2words] returns is spelled out: no digit is left in it. *)
Hypothesis num2words_spells :
  forall n s, num2words n = Ok s -> has_digit s = false.

Lemma replace_number_no_digit (m : Match) (r : string) :
  number_words m = Ok r -> no_digit r = true.
Proof.
  unfold replace_number.
  destruct (to_int (group m 0)) as [n|]; simpl; [|discriminate].
  intros H. apply has_digit_no_digit. eauto.
Qed.

(** The text put in place of a time: no digit, and a first character
    after which no time can go on. *)
Lemma replace_time_shape (m : Match) (r : string) :
  time_words m = Ok r ->
  no_digit r = true /\
  exists x k, r = String x k /\
              (Ascii.eqb x ":" = false \/
               forall rest, head_digit (k ++ rest) = false).
Proof.
  unfold replace_time.
  destruct (to_int (group m 1)) as [h|]; simpl; [|discriminate].
  destruct (to_int (group m 2)) as [mi|]; simpl; [|discriminate].
  destruct (num2words h) as [wh|] eqn:Eh; simpl; [|discriminate].
  destruct (num2words mi) as [wm|] eqn:Em; simpl; [|discriminate].
  intros [= <-].
  apply num2words_spells in Eh. apply has_digit_no_digit in Eh.
  apply num2words_spells in Em. apply has_digit_no_digit in Em.
  split.
  - rewrite no_digit_app, Eh. simpl. exact Em.
  - destruct wh as [|x wh].
    + exists " "%char, wm. split; [reflexivity|]. now left.
    + exists x, (wh ++ " " ++ wm). split; [reflexivity|]. right.
      intros rest. apply andb_true_iff in Eh as [_ Eh].
      destruct wh as [|y wh]; [reflexivity|].
      apply andb_true_iff in Eh as [Ey _]. simpl.
      now apply negb_true_iff.
Qed.

(** After the first substitution no time is left, whatever was skipped. *)
Lemma sub_times_from_time_free (s : string) :
  forall skip out,
    sub_from time_pattern time_words skip s = Ok out ->
    time_free out = true /\ (skip = 0 -> shadow s out).
Proof.
  induction s as [|c s IH]; intros skip out H.
  - simpl in H. injection H as <-. split; [reflexivity|constructor].
  - cbn [sub_from] in H. destruct skip as [|skip].
    + destruct (time_pattern (String c s)) as [m|] eqn:Em.
      * destruct (time_words m) as [r|] eqn:Er; simpl in H;
          [|discriminate].
        destruct (sub_from time_pattern time_words (pred (span m)) s)
          as [rest|] eqn:Erest; simpl in H; [|discriminate].
        injection H as <-.
        destruct (IH _ _ Erest) as [Hfree _].
        destruct (replace_time_shape _ _ Er) as [Hr (x & k & -> & Hx)].
        split.
        -- now rewrite time_free_app.
        -- intros _. simpl. apply shadow_cut.
           ++ apply andb_true_iff in Hr as [Hr _].
              now apply negb_true_iff.
           ++ destruct Hx as [Hx|Hx]; [now left|right; apply Hx].
      * destruct (sub_from time_pattern time_words 0 s)
          as [rest|] eqn:Erest; simpl in H; [|discriminate].
        injection H as <-.
        destruct (IH _ _ Erest) as [Hfree Hsh].
        specialize (Hsh eq_refl).
        assert (Hcs : shadow (String c s) (String c rest))
          by now constructor.
        split; [|intros _; exact Hcs].
        cbn [time_free].
        now rewrite (shadow_time_pattern _ _ Hcs Em).
    + destruct (IH _ _ H) as [Hfree _]. split; [exact Hfree|discriminate].
Qed.

Lemma sub_times_stable (text out : string) :
  times text = Ok out -> times out = Ok out.
Proof.
  intros H. apply sub_time_free.
  now apply (sub_times_from_time_free text 0 out).
Qed.

Lemma sub_numbers_from_no_digit (s : string) :
  forall skip out,
    sub_from digits_pattern number_words skip s = Ok out ->
    no_digit out = true.
Proof.
  induction s as [|c s IH]; intros skip out H.
  - simpl in H. now injection H as <-.
  - cbn [sub_from] in H. destruct skip as [|skip]; [|eauto].
    destruct (digits_pattern (String c s)) as [m|] eqn:Em.
    + destruct (number_words m) as [r|] eqn:Er; simpl in H;
        [|discriminate].
      destruct (sub_from digits_pattern number_words (pred (span m)) s)
        as [rest|] eqn:Erest; simpl in H; [|discriminate].
      injection H as <-.
      rewrite no_digit_app, (replace_number_no_digit _ _ Er).
      simpl. eauto.
    + destruct (sub_from digits_pattern number_words 0 s)
        as [rest|] eqn:Erest; simpl in H; [|discriminate].
      injection H as <-.
      change (no_digit (String c rest))
        with (negb (is_digit c) && no_digit rest).
      rewrite (IH _ _ Erest), andb_true_r.
      unfold digits_pattern in Em. simpl in Em.
      destruct (is_digit c); [discriminate|reflexivity].
Qed.

Lemma sub_numbers_no_digit (text out : string) :
  numbers text = Ok out -> no_digit out = true.
Proof. apply sub_numbers_from_no_digit. Qed.

Lemma normalize_succeeds_no_digit (text : string) :
  succeeds text = true -> no_digit (norm text) = true.
Proof.
  unfold normalize_succeeds, normalize, _normalize_text.
  destruct (times text) as [t1|]; simpl; [|discriminate].
  destruct (numbers t1) as [t2|] eqn:E2; simpl; [|discriminate].
  intros _. apply replace_hyphens_no_digit.
  exact (sub_numbers_no_digit _ _ E2).
Qed.

Lemma normalize_fixed (text : string) :
  norm (norm text) = norm text.
Proof.
  unfold normalize at 2 3. unfold _normalize_text.
  destruct (times text) as [t1|] eqn:E1; cbn [fst].
  - destruct (numbers t1) as [t2|] eqn:E2; cbn [fst].
    + rewrite normalize_no_digit.
      * apply replace_hyphens_idem.
      * apply replace_hyphens_no_digit.
        exact (sub_numbers_no_digit _ _ E2).
    + unfold norm, _normalize_text.
      now rewrite (sub_times_stable _ _ E1), E2.
  - unfold norm, _normalize_text. now rewrite E1.
Qed.

End Spelled.

End NormalizerFacts.

(** ** The three rewrites of the normaliser, one at a time *)

Section Rewrites.
Import Re ReFacts.

Variable num2words : N -> result string.
Variable limit : nat.

Local Abbreviation times := (sub_times num2words limit).
Local Abbreviation numbers := (sub_numbers num2words limit).





Lemma times_two_digit_hour (h1 h2 m1 m2 : ascii) (rest wh wm : string) :
  is_digit h1 = true -> is_digit h2 = true ->
  is_digit m1 = true -> is_digit m2 = true ->
  num2words (value (String h1 (String h2 ""))) = Ok wh ->
  num2words (value (String m1 (String m2 ""))) = Ok wm ->
  times (String h1 (String h2 (String ":" (String m1 (String m2 rest)))))
  = (out <- times rest ;; Ok (wh ++ " " ++ wm ++ out)).
Proof.
  intros H1 H2 H3 H4 Hh Hm.
  pose (pre := String h1 (String h2 (String ":" (String m1 (String m2 ""))))).
  change (String h1 (String h2 (String ":" (String m1 (String m2 rest)))))
    with (pre ++ rest).
  unfold sub_times.
  assert (Hne : pre <> "") by discriminate.
  assert (Hpat : time_pattern (pre ++ rest)
                 = Some [pre; String h1 (String h2 "");
                         String m1 (String m2 "")]).
  { unfold pre, time_pattern. simpl.
    now rewrite H1, H2, H3, H4, !substring_nothing. }
  rewrite (sub_match _ _ _ pre rest Hne Hpat eq_refl).
  generalize (Re.sub time_pattern (replace_time num2words limit) rest).
  intros tail. unfold replace_time. cbn [group nth].
  rewrite !py_int_short by (simpl; lia). cbn [bind].
  unfold value in Hh, Hm. rewrite Hh. cbn [bind]. rewrite Hm. cbn [bind].
  destruct tail; cbn [bind]; [|reflexivity].
  now rewrite !app_assoc_str.
Qed.




End Rewrites.

(** ** The English cardinals *)

Module Num2WordsFacts.
Import Num2Words.

Lemma nth_spelled (words : list string) (k : nat) :
  all_spelled words = true -> no_digit (nth k words "") = true.
Proof.
  revert k. induction words as [|w ws IH]; intros k H.
  - destruct k; reflexivity.
  - apply andb_true_iff in H as [Hw Hws].
    destruct k as [|k]; simpl; [exact Hw|now apply IH].
Qed.

Lemma low_spelled (n : N) : no_digit (low n) = true.
Proof. apply nth_spelled. reflexivity. Qed.

Lemma below_100_spelled (n : N) : no_digit (below_100 n) = true.
Proof.
  unfold below_100. destruct (n <=? 20)%N; [apply low_spelled|].
  assert (Ht : no_digit (if (n <? 30)%N then "twenty"
                         else nth (N.to_nat (n / 10 - 3)) tens_numwords "")
               = true).
  { destruct (n <? 30)%N; [reflexivity|]. apply nth_spelled. reflexivity. }
  destruct (n mod 10 =? 0)%N; [exact Ht|].
  rewrite !no_digit_app, Ht, low_spelled. reflexivity.
Qed.

Lemma below_1000_spelled (n : N) : no_digit (below_1000 n) = true.
Proof.
  unfold below_1000. destruct (n <? 100)%N; [apply below_100_spelled|].
  rewrite !no_digit_app, below_100_spelled.
  destruct (n mod 100 =? 0)%N; [reflexivity|].
  rewrite no_digit_app, below_100_spelled. reflexivity.
Qed.

Lemma spell_spelled (cs : list (N * string)) :
  all_spelled (map snd cs) = true ->
  forall n, no_digit (spell cs n) = true.
Proof.
  induction cs as [|[c name] cs IH]; intros H n; simpl.
  - apply below_1000_spelled.
  - unfold all_spelled in H. cbn [map snd forallb] in H.
    apply andb_true_iff in H as [Hname Hcs].
    destruct (c <=? n)%N; [|now apply IH].
    rewrite no_digit_app, below_1000_spelled, no_digit_cons, no_digit_app.
    rewrite Hname. cbn [andb]. change (negb (is_digit " ")) with true.
    cbn [andb].
    destruct (n mod c =? 0)%N; [reflexivity|].
    rewrite no_digit_app, (IH Hcs).
    destruct (n mod c <? 100)%N; reflexivity.
Qed.

Lemma cards_spelled : all_spelled (map snd cards) = true.
Proof. vm_compute. reflexivity. Qed.

Lemma num2words_spells (n : N) (s : string) :
  num2words n = Ok s -> has_digit s = false.
Proof.
  unfold num2words. destruct (MAXVAL <=? n)%N; [discriminate|].
  pose proof (spell_spelled cards cards_spelled n) as Hw. revert Hw.
  generalize (spell cards n). intros w Hw [= <-].
  now apply has_digit_no_digit.
Qed.

End Num2WordsFacts.

(** ** Claims about the normaliser *)






(** C8.  A second pass of [_normalize_text] changes nothing, also when the
    first pass ended in the exception handler. *)
Theorem normalize_idempotent
  (num2words : N -> result string) (limit : nat)
  (spells : forall n s, num2words n = Ok s -> has_digit s = false)
  (text : string) :
  normalize num2words limit (normalize num2words limit text)
  = normalize num2words limit text.
Proof. now apply normalize_fixed. Qed.

Lemma normalize_idempotent_witness :
  normalize_en (normalize_en "Train 2426 departs 21:05")
  = normalize_en "Train 2426 departs 21:05".
Proof.
  exact (normalize_idempotent Num2Words.num2words default_max_str_digits
           Num2WordsFacts.num2words_spells "Train 2426 departs 21:05").
Defined.

(** A number that [int] or the package refuses ends the first pass in the
    handler, after the times were rewritten; the text returned has the
    number in it. *)
Example normalize_in_the_handler :
  let huge := "1" ++ String.concat "" (repeat "0000000000" 440) in
  normalize_en ("21:05 train " ++ huge) = "twenty-one five train " ++ huge
  /\ normalize_succeeds Num2Words.num2words default_max_str_digits
       ("21:05 train " ++ huge) = false
  /\ has_digit (normalize_en ("21:05 train " ++ huge)) = true.
Proof. vm_compute. repeat split. Qed.

(** ** The generator *)

(** Unfolds the effects on the world, leaving arithmetic alone. *)
Ltac world :=
  cbn [flag_reads chunks_pulled completions naps announcements dialogs
       device status stdout print call_back tick_flag tick_chunk
       tick_completion push_status push_announcement push_dialog
       push_device sleep display counters
       Generator._report_progress TTS._report_progress
       Main._set_status Main._set_announcement] in *.

Lemma counters_blind : report_blind counters.
Proof. intros callback message line w. reflexivity. Qed.

Lemma device_blind : report_blind device.
Proof. intros callback message line w. reflexivity. Qed.

Module GeneratorFacts.
Import Generator.

Section Reports.
(** [f] is a part of the world that no report touches. *)
Context {A : Type} (f : World -> A).
Hypothesis blind : report_blind f.

Lemma report_keeps (self : AnnouncementGenerator) (message : string)
      (w : World) :
  f (_report_progress self message w) = f w.
Proof. apply blind. Qed.

Lemma reports_keep (self : AnnouncementGenerator) (lines : list string) :
  forall w,
    f (fold_left (fun w line => _report_progress self line w) lines w) = f w.
Proof.
  induction lines as [|l ls IH]; intros w; simpl; [reflexivity|].
  now rewrite IH, report_keeps.
Qed.

Lemma remove_old_models_keeps (self : AnnouncementGenerator)
      (names : list string) :
  forall w, f (remove_old_models self names w) = f w.
Proof.
  induction names as [|n ns IH]; intros w; simpl; [reflexivity|].
  destruct (negb (n =? MODEL_FILENAME)%string); rewrite IH;
    [apply report_keeps|reflexivity].
Qed.

Lemma download_model_keeps (host : Host) (self : AnnouncementGenerator)
      (w : World) :
  f (snd (download_model host self w)) = f w.
Proof.
  unfold download_model.
  destruct (llm_mkdir host); [|reflexivity].
  destruct (llm_glob host); [|reflexivity].
  destruct (is_model_downloaded host); cbn [snd].
  - apply remove_old_models_keeps.
  - destruct (snd (llm_urlretrieve host)); cbn [snd];
      rewrite report_keeps, reports_keep, report_keeps;
      apply remove_old_models_keeps.
Qed.

Lemma construct_keeps (host : Host) (self : AnnouncementGenerator)
      (w : World) :
  f (snd (construct host self w)) = f w.
Proof.
  unfold construct. destruct (new_llama host); cbn [snd];
    now rewrite !report_keeps.
Qed.

Lemma load_model_keeps (host : Host) (self : AnnouncementGenerator)
      (w : World) :
  f (snd (load_model host self w)) = f w.
Proof.
  unfold load_model. destruct (llm self); [reflexivity|].
  destruct (is_model_downloaded host); [apply construct_keeps|].
  pose proof (download_model_keeps host self w) as Hd.
  destruct (download_model host self w) as [[ok|e] w1]; cbn [snd] in Hd;
    [|exact Hd].
  destruct ok; [|exact Hd].
  now rewrite construct_keeps.
Qed.

End Reports.

(** A load that fails, by its value or by an exception, leaves the
    generator as it was. *)
Lemma load_model_failed (host : Host) (self : AnnouncementGenerator)
      (w : World) :
  fst (fst (load_model host self w)) <> Ok true ->
  snd (fst (load_model host self w)) = self.
Proof.
  unfold load_model. destruct (llm self) eqn:E; [reflexivity|].
  assert (Hc : forall w1, fst (fst (construct host self w1)) <> Ok true ->
                          snd (fst (construct host self w1)) = self).
  { intros w1. unfold construct.
    destruct (new_llama host); cbn [fst snd]; [congruence|reflexivity]. }
  destruct (is_model_downloaded host); [apply Hc|].
  destruct (download_model host self w) as [[ok|e] w1]; [|reflexivity].
  destruct ok; [apply Hc|reflexivity].
Qed.

(** What a load that returns [True] leaves is a generator with its
    backend. *)
Lemma load_model_loaded (host : Host) (self : AnnouncementGenerator)
      (w : World) :
  fst (fst (load_model host self w)) = Ok true ->
  llm (snd (fst (load_model host self w))) <> None.
Proof.
  unfold load_model. destruct (llm self) eqn:E; cbn [fst snd].
  - intros _. now rewrite E.
  - assert (Hc : forall w1,
               fst (fst (construct host self w1)) = Ok true ->
               llm (snd (fst (construct host self w1))) <> None).
    { intros w1. unfold construct.
      destruct (new_llama host); cbn [fst snd]; discriminate. }
    destruct (is_model_downloaded host); [apply Hc|].
    destruct (download_model host self w) as [[ok|e] w1]; [|discriminate].
    destruct ok; [apply Hc|discriminate].
Qed.

(** An exception leaves [load_model] only from the directory, and only
    when the model file is not there. *)
Lemma load_model_raises (host : Host) (self : AnnouncementGenerator)
      (w : World) (e : string) :
  fst (fst (load_model host self w)) = Raise e ->
  llm self = None /\ is_model_downloaded host = false /\
  (llm_mkdir host = Raise e \/ llm_glob host = Raise e).
Proof.
  unfold load_model. destruct (llm self); [discriminate|].
  assert (Hc : forall w1, fst (fst (construct host self w1)) <> Raise e).
  { intros w1. unfold construct. destruct (new_llama host); discriminate. }
  destruct (is_model_downloaded host) eqn:Ed; [intros H; now apply Hc in H|].
  unfold download_model. rewrite Ed.
  destruct (llm_mkdir host) as [u|e1]; cbn [fst];
    [|intros [= ->]; repeat split; now left].
  destruct (llm_glob host) as [u'|e2]; cbn [fst];
    [|intros [= ->]; repeat split; now right].
  destruct (snd (llm_urlretrieve host)); cbn [fst snd];
    [intros H; now apply Hc in H|discriminate].
Qed.

Lemma ensure_loaded_keeps {A : Type} (f : World -> A) (host : Host)
      (self : AnnouncementGenerator) (w : World) :
  report_blind f -> f (snd (ensure_loaded host self w)) = f w.
Proof.
  intros blind. unfold ensure_loaded.
  destruct (llm self); [reflexivity|now apply load_model_keeps].
Qed.

Lemma ensure_loaded_ready (host : Host) (self : AnnouncementGenerator)
      (m : Llama) (w : World) :
  llm self = Some m -> ensure_loaded host self w = (Ok true, self, w).
Proof. unfold ensure_loaded. now intros ->. Qed.

Lemma ensure_loaded_failed (host : Host) (self : AnnouncementGenerator)
      (w : World) :
  fst (fst (ensure_loaded host self w)) <> Ok true ->
  snd (fst (ensure_loaded host self w)) = self /\ llm self = None.
Proof.
  unfold ensure_loaded. destruct (llm self) eqn:E;
    [intros H; now destruct H|].
  intros H. split; [now apply load_model_failed|reflexivity].
Qed.

Lemma ensure_loaded_loaded (host : Host) (self : AnnouncementGenerator)
      (w : World) :
  fst (fst (ensure_loaded host self w)) = Ok true ->
  llm (snd (fst (ensure_loaded host self w))) <> None.
Proof.
  unfold ensure_loaded. destruct (llm self) eqn:E; cbn [fst snd].
  - intros _. now rewrite E.
  - intros H. pose proof (load_model_loaded host self w) as Hl.
    unfold load_model in *. rewrite E in *. now apply Hl.
Qed.

Lemma ensure_loaded_raises (host : Host) (self : AnnouncementGenerator)
      (w : World) (e : string) :
  fst (fst (ensure_loaded host self w)) = Raise e ->
  llm self = None /\ is_model_downloaded host = false /\
  (llm_mkdir host = Raise e \/ llm_glob host = Raise e).
Proof.
  unfold ensure_loaded. destruct (llm self) eqn:E; [discriminate|].
  intros H. pose proof (load_model_raises host self w e) as Hl.
  unfold load_model in *. rewrite E in *. now apply Hl.
Qed.

(** The loop over the stream: what it reads of the flag and what it pulls. *)
Lemma consume_effects (self : AnnouncementGenerator) (check : nat -> bool)
      (stream : Stream) :
  forall full_text w r w',
    consume self (Some check) stream full_text w = (r, w') ->
    display w' = display w /\ completions w' = completions w /\
    device w' = device w /\
    flag_reads w <= flag_reads w' /\
    chunks_pulled w' + flag_reads w = chunks_pulled w + flag_reads w' /\
    chunks_pulled w <= chunks_pulled w' /\
    (forall k, flag_reads w <= k < flag_reads w' -> check k = true ->
               r = Ok Interrupted /\ S k = flag_reads w').
Proof.
  induction stream as [| e | chunk rest IH]; intros full_text w r w' H.
  - injection H as <- <-.
    repeat apply conj; try reflexivity; lia.
  - injection H as <- <-.
    repeat apply conj; try reflexivity; lia.
  - cbn [consume] in H.
    change (flag_reads (tick_chunk w)) with (flag_reads w) in H.
    destruct (check (flag_reads w)) eqn:Ec.
    + injection H as <- <-.
      repeat apply conj; world; try reflexivity; try lia.
      intros k Hk _. split; [reflexivity|lia].
    + assert (Hstep :
        forall full r w',
          consume self (Some check) rest full (tick_flag (tick_chunk w))
          = (r, w') ->
          display w' = display w /\ completions w' = completions w /\
          device w' = device w /\
          flag_reads w <= flag_reads w' /\
          chunks_pulled w' + flag_reads w = chunks_pulled w + flag_reads w' /\
          chunks_pulled w <= chunks_pulled w' /\
          (forall k, flag_reads w <= k < flag_reads w' -> check k = true ->
                     r = Ok Interrupted /\ S k = flag_reads w')).
      { intros full r0 w0 H0. apply IH in H0.
        world. destruct H0 as (Hd & Hc & Hdev & Hle & Hdiff & Hle2 & Hk).
        repeat apply conj; try assumption; try lia.
        intros k Hrange Hcheck.
        destruct (Nat.eq_dec k (flag_reads w)) as [->|Hne]; [congruence|].
        apply Hk; [lia|exact Hcheck]. }
      destruct chunk as [[content|]|e].
      * now apply Hstep in H.
      * now apply Hstep in H.
      * injection H as <- <-.
        repeat apply conj; world; try reflexivity; try lia.
        intros k Hk Hcheck. assert (k = flag_reads w) by lia. congruence.
Qed.

(** Chunks with well-formed deltas pass while the check says no. *)
Lemma consume_prefix (self : AnnouncementGenerator) (check : nat -> bool)
      (pre : list (option string)) (tail : Stream) :
  forall full_text w,
    (forall i, i < List.length pre -> check (flag_reads w + i) = false) ->
    exists full w1,
      consume self (Some check) (stream_of (map Delta pre) tail) full_text w
      = consume self (Some check) tail full w1
      /\ flag_reads w1 = flag_reads w + List.length pre
      /\ chunks_pulled w1 = chunks_pulled w + List.length pre
      /\ completions w1 = completions w.
Proof.
  induction pre as [|content pre IH]; intros full_text w Hno.
  - exists full_text, w. cbn. repeat split; lia.
  - cbn [map stream_of consume List.length].
    change (flag_reads (tick_chunk w)) with (flag_reads w).
    assert (Hnow : check (flag_reads w) = false).
    { rewrite <- (Nat.add_0_r (flag_reads w)). apply Hno. cbn. lia. }
    rewrite Hnow.
    assert (Hno' : forall i, i < List.length pre ->
                   check (flag_reads (tick_flag (tick_chunk w)) + i) = false).
    { intros i Hi. cbn. replace (S (flag_reads w + i))
        with (flag_reads w + S i) by lia.
      apply Hno. cbn. lia. }
    destruct content as [content|].
    + destruct (IH (full_text ++ content) _ Hno')
        as (full & w1 & Heq & Hf & Hc & Hm).
      exists full, w1. cbn in *. repeat split; try assumption; lia.
    + destruct (IH full_text _ Hno') as (full & w1 & Heq & Hf & Hc & Hm).
      exists full, w1. cbn in *. repeat split; try assumption; lia.
Qed.

Lemma announce_or_fall_back_effects (self : AnnouncementGenerator)
      (train_data : TrainData) (check : nat -> bool) (w : World)
      (text : string) (w' : World) :
  announce_or_fall_back self train_data (Some check) w = (text, w') ->
  generation_effects check w (Ok text) w'.
Proof.
  unfold announce_or_fall_back, generation_effects.
  destruct (llm self) as [m|].
  - unfold stream_announcement.
    destruct (create_chat_completion m _ _ _) as [stream|e].
    + destruct (consume self (Some check) stream "" _) as [r w1] eqn:Ec.
      apply consume_effects in Ec. world.
      destruct Ec as (Hd & Hcompl & Hdev & Hle & Hsum & Hle2 & Hk).
      destruct r as [t|e]; intros [= <- <-]; world;
        repeat apply conj; try assumption.
      intros k Hrange Hcheck.
      destruct (Hk k Hrange Hcheck) as [[=] _].
    + intros [= <- <-]. world.
      repeat apply conj; try reflexivity; lia.
  - intros [= <- <-]. world. repeat apply conj; try reflexivity; lia.
Qed.

Lemma generate_announcement_effects (host : Host)
      (self : AnnouncementGenerator) (train_data : TrainData)
      (check : nat -> bool) (w : World)
      (r : result string) (self' : AnnouncementGenerator) (w' : World) :
  generate_announcement host self train_data (Some check) w
  = (r, self', w') ->
  generation_effects check w r w'.
Proof.
  unfold generate_announcement.
  pose proof (ensure_loaded_keeps counters host self w counters_blind) as Hc.
  pose proof (ensure_loaded_keeps device host self w device_blind) as Hdev.
  destruct (ensure_loaded host self w) as [[loaded self1] w1].
  cbn [snd] in Hc, Hdev.
  unfold counters in Hc. injection Hc as Hf Hp Hm Hn Ha Hdl.
  assert (Hidle : forall r0, generation_effects check w r0 w1).
  { intros r0. unfold generation_effects, display.
    rewrite Hf, Hp, Hn, Ha, Hdl, Hdev.
    repeat apply conj; try reflexivity; lia. }
  destruct loaded as [[|]|e].
  - destruct (announce_or_fall_back self1 train_data (Some check) w1)
      as [t w2] eqn:Ea.
    apply announce_or_fall_back_effects in Ea.
    intros [= <- <- <-]. unfold generation_effects, display in *.
    rewrite Hf, Hp, Hn, Ha, Hdl, Hdev in Ea. exact Ea.
  - intros [= <- <- <-]. apply Hidle.
  - intros [= <- <- <-]. apply Hidle.
Qed.

(** An exception leaves [generate_announcement] only from its load step,
    before anything was asked of the backend. *)
Lemma generate_announcement_raises (host : Host)
      (self : AnnouncementGenerator) (train_data : TrainData)
      (stop_check_callback : option (nat -> bool)) (w : World) (e : string) :
  fst (fst (generate_announcement host self train_data
              stop_check_callback w)) = Raise e ->
  llm self = None /\ is_model_downloaded host = false /\
  (llm_mkdir host = Raise e \/ llm_glob host = Raise e) /\
  snd (fst (generate_announcement host self train_data
              stop_check_callback w)) = self /\
  counters (snd (generate_announcement host self train_data
                   stop_check_callback w)) = counters w /\
  device (snd (generate_announcement host self train_data
                 stop_check_callback w)) = device w.
Proof.
  unfold generate_announcement.
  pose proof (ensure_loaded_keeps counters host self w counters_blind) as Hc.
  pose proof (ensure_loaded_keeps device host self w device_blind) as Hdev.
  pose proof (ensure_loaded_raises host self w e) as Hr.
  pose proof (ensure_loaded_failed host self w) as Hf.
  destruct (ensure_loaded host self w) as [[loaded self1] w1].
  cbn [fst snd] in *.
  destruct loaded as [[|]|e1]; cbn [fst snd].
  - destruct (announce_or_fall_back self1 train_data stop_check_callback w1).
    discriminate.
  - discriminate.
  - intros [= ->]. destruct (Hr eq_refl) as (H1 & H2 & H3).
    destruct Hf as [Hs _]; [discriminate|].
    repeat apply conj; assumption.
Qed.

End GeneratorFacts.

(** ** Claims about the generator *)

Lemma contains_unfold (sub s : string) :
  contains sub s
  = prefix sub s || match s with
                    | EmptyString => false
                    | String _ t => contains sub t
                    end.
Proof. destruct s; reflexivity. Qed.

Lemma contains_here (sub rest : string) : contains sub (sub ++ rest) = true.
Proof.
  assert (H : prefix sub (sub ++ rest) = true).
  { induction sub as [|c sub IH]; simpl.
    - destruct rest; reflexivity.
    - destruct (ascii_dec c c) as [_|Hne]; [exact IH|contradiction]. }
  now rewrite contains_unfold, H.
Qed.

Lemma contains_later (sub before s : string) :
  contains sub s = true -> contains sub (before ++ s) = true.
Proof.
  intros H. induction before as [|c before IH]; [exact H|].
  simpl. rewrite IH. apply orb_true_r.
Qed.

(** C1.  Whenever the stop callback answers yes during a call of
    [generate_announcement], that was the last thing the loop asked, and
    the call returns the marker [[Interrupted]], not the text gathered so
    far.  In particular, after any number of chunks that passed with the
    callback saying no, a yes on the next chunk ends the call with the
    marker, and no further chunk is pulled. *)
Theorem cancellation_discards_partial_text
  (host : Host) (self : AnnouncementGenerator) (train_data : TrainData)
  (check : nat -> bool) (w : World) :
  (forall r self' w',
      Generator.generate_announcement host self train_data (Some check) w
      = (r, self', w') ->
      forall k, flag_reads w <= k < flag_reads w' -> check k = true ->
                r = Ok Generator.Interrupted /\ S k = flag_reads w') /\
  (forall m pre chunk rest,
      llm self = Some m ->
      create_chat_completion m
        [("system", SYSTEM_PROMPT);
         ("user", Generator.user_prompt train_data)] 150 (3 # 10)%Q
      = Ok (stream_of (map Delta pre) (Yield chunk rest)) ->
      (forall i, i < List.length pre -> check (flag_reads w + i) = false) ->
      check (flag_reads w + List.length pre) = true ->
      exists w',
        Generator.generate_announcement host self train_data (Some check) w
        = (Ok Generator.Interrupted, self, w') /\
        chunks_pulled w' = chunks_pulled w + List.length pre + 1 /\
        flag_reads w' = flag_reads w + List.length pre + 1).
Proof.
  split.
  - intros r self' w' H.
    apply GeneratorFacts.generate_announcement_effects in H.
    apply H.
  - intros m pre chunk rest Hllm Hstream Hno Hyes.
    unfold Generator.generate_announcement.
    rewrite (GeneratorFacts.ensure_loaded_ready host self m w Hllm).
    unfold Generator.announce_or_fall_back. rewrite Hllm.
    unfold Generator.stream_announcement. rewrite Hstream.
    set (w0 := tick_completion (Generator._report_progress self "Thinking..." w)).
    destruct (GeneratorFacts.consume_prefix self check pre (Yield chunk rest)
                "" w0 Hno) as (full & w1 & Heq & Hf & Hp & Hm).
    rewrite Heq. cbn [Generator.consume].
    change (flag_reads (tick_chunk w1)) with (flag_reads w1).
    rewrite Hf. change (flag_reads w0) with (flag_reads w). rewrite Hyes.
    eexists. split; [reflexivity|]. world. rewrite Hf, Hp.
    subst w0. world. lia.
Qed.

Lemma cancellation_discards_partial_text_witness :
  exists w',
    Generator.generate_announcement
      (host_with (Ok (llama_of (Ok three_chunks))) (Ok tone) never)
      (mkGenerator (Some (llama_of (Ok three_chunks))) quiet)
      train_2426 (Some (set_after 2)) empty_world
    = (Ok "[Interrupted]",
       mkGenerator (Some (llama_of (Ok three_chunks))) quiet, w')
    /\ chunks_pulled w' = 3 /\ flag_reads w' = 3.
Proof.
  destruct (cancellation_discards_partial_text
              (host_with (Ok (llama_of (Ok three_chunks))) (Ok tone) never)
              (mkGenerator (Some (llama_of (Ok three_chunks))) quiet)
              train_2426 (set_after 2) empty_world) as [_ H].
  apply (H (llama_of (Ok three_chunks))
           [None; Some "Attention please. "]
           (Delta (Some "Train 2426 departs 21:05 ")) Exhausted).
  - reflexivity.
  - reflexivity.
  - intros i Hi. cbn in Hi.
    destruct i as [|[|i]]; [reflexivity|reflexivity|lia].
  - reflexivity.
Defined.

(** C4, as the code has it.  With the stop callback already answering yes,
    a loaded generator still asks the backend for a completion and pulls one
    chunk; if the stream yields one, the call returns the marker after that
    single chunk and leaves the rest of the stream alone. *)
Theorem generate_checks_after_first_chunk
  (host : Host) (self self1 : AnnouncementGenerator) (m : Llama)
  (train_data : TrainData) (check : nat -> bool) (chunk : Chunk)
  (rest : Stream) (w w0 : World) :
  Generator.ensure_loaded host self w = (Ok true, self1, w0) ->
  llm self1 = Some m ->
  create_chat_completion m
    [("system", SYSTEM_PROMPT); ("user", Generator.user_prompt train_data)]
    150 (3 # 10)%Q
  = Ok (Yield chunk rest) ->
  check (flag_reads w) = true ->
  exists w',
    Generator.generate_announcement host self train_data (Some check) w
    = (Ok Generator.Interrupted, self1, w') /\
    completions w' = S (completions w) /\
    chunks_pulled w' = S (chunks_pulled w) /\
    flag_reads w' = S (flag_reads w).
Proof.
  intros Hload Hllm Hstream Hyes.
  pose proof (GeneratorFacts.ensure_loaded_keeps counters host self w
                counters_blind) as Hc.
  rewrite Hload in Hc. cbn [snd] in Hc. unfold counters in Hc.
  injection Hc as Hf Hp Hm _ _ _.
  unfold Generator.generate_announcement. rewrite Hload.
  unfold Generator.announce_or_fall_back. rewrite Hllm.
  unfold Generator.stream_announcement. rewrite Hstream.
  cbn [Generator.consume]. world. rewrite Hf, Hyes.
  eexists. split; [reflexivity|]. world. rewrite Hf, Hp, Hm. repeat split.
Qed.

Lemma generate_checks_after_first_chunk_witness :
  exists w',
    Generator.generate_announcement
      (host_with (Ok (llama_of (Ok three_chunks))) (Ok tone) always)
      (mkGenerator None quiet)
      train_2426 (Some always) empty_world
    = (Ok "[Interrupted]",
       mkGenerator (Some (llama_of (Ok three_chunks))) quiet, w')
    /\ completions w' = 1 /\ chunks_pulled w' = 1 /\ flag_reads w' = 1.
Proof.
  apply (generate_checks_after_first_chunk
           (host_with (Ok (llama_of (Ok three_chunks))) (Ok tone) always)
           (mkGenerator None quiet)
           (mkGenerator (Some (llama_of (Ok three_chunks))) quiet)
           (llama_of (Ok three_chunks)) train_2426 always
           (Delta None)
           (Yield (Delta (Some "Attention please. "))
              (Yield (Delta (Some "Train 2426 departs 21:05 ")) Exhausted))
           empty_world
           (snd (Generator.ensure_loaded
                   (host_with (Ok (llama_of (Ok three_chunks))) (Ok tone)
                              always)
                   (mkGenerator None quiet) empty_world)));
    reflexivity.
Defined.

(** C4 as stated fails: with the callback answering yes from the start, the
    backend was asked and one chunk was pulled; and on a stream without
    chunks the callback is never asked and the call returns the empty text. *)
Lemma generate_pulls_before_checking :
  (let '(text, _, w') :=
     Generator.generate_announcement
       (host_with (Ok (llama_of (Ok three_chunks))) (Ok tone) always)
       (mkGenerator (Some (llama_of (Ok three_chunks))) quiet)
       train_2426 (Some always) empty_world in
   text = Ok "[Interrupted]" /\ completions w' = 1 /\ chunks_pulled w' = 1 /\
   ~ (completions w' = 0 /\ chunks_pulled w' = 0)) /\
  (let '(text, _, w') :=
     Generator.generate_announcement
       (host_with (Ok (llama_of (Ok Exhausted))) (Ok tone) always)
       (mkGenerator (Some (llama_of (Ok Exhausted))) quiet)
       train_2426 (Some always) empty_world in
   text = Ok "" /\ text <> Ok "[Interrupted]" /\ flag_reads w' = 0).
Proof.
  split; cbn.
  - repeat split. intros [H _]. discriminate H.
  - repeat split. discriminate.
Qed.

(** C2, as the code has it.  When the load of the backend says no,
    [generate_announcement] returns the fixed sentence [System unavailable.]
    for every record, without raising and without touching the backend; the
    sentence that names the train and its destination is the one of the
    exception handler. *)
Theorem unavailable_backend_fixed_sentence
  (host : Host) (self : AnnouncementGenerator) (train_data : TrainData)
  (stop_check_callback : option (nat -> bool)) (w : World) :
  fst (fst (Generator.ensure_loaded host self w)) = Ok false ->
  (exists w',
      Generator.generate_announcement host self train_data
        stop_check_callback w
      = (Ok "System unavailable.", self, w') /\
      counters w' = counters w /\ device w' = device w) /\
  contains (train_number train_data) (Generator.fallback train_data) = true /\
  contains (destination train_data) (Generator.fallback train_data) = true.
Proof.
  intros Hload. split.
  - unfold Generator.generate_announcement.
    destruct (GeneratorFacts.ensure_loaded_failed host self w)
      as [Hself _]; [rewrite Hload; discriminate|].
    pose proof (GeneratorFacts.ensure_loaded_keeps counters host self w
                  counters_blind) as Hc.
    pose proof (GeneratorFacts.ensure_loaded_keeps device host self w
                  device_blind) as Hd.
    destruct (Generator.ensure_loaded host self w) as [[loaded self1] w1].
    cbn [fst snd] in *. subst loaded self1.
    exists w1. repeat split; assumption.
  - unfold Generator.fallback. split.
    + apply (contains_later _ "Attention. Train "), contains_here.
    + replace ("Attention. Train " ++ train_number train_data ++ " to " ++
               destination train_data ++ " is delayed.")
        with (("Attention. Train " ++ train_number train_data ++ " to ") ++
              destination train_data ++ " is delayed.")
        by now rewrite !app_assoc_str.
      apply contains_later, contains_here.
Qed.

Lemma unavailable_backend_fixed_sentence_witness :
  exists w',
    Generator.generate_announcement
      (host_with (Raise "No module named 'llama_cpp'") (Ok tone) never)
      (mkGenerator None quiet) train_2426 (Some never) empty_world
    = (Ok "System unavailable.", mkGenerator None quiet, w')
    /\ counters w' = counters empty_world /\ device w' = device empty_world.
Proof.
  apply (unavailable_backend_fixed_sentence
           (host_with (Raise "No module named 'llama_cpp'") (Ok tone) never)
           (mkGenerator None quiet) train_2426 (Some never) empty_world);
    reflexivity.
Defined.

(** C2 as stated fails: the sentence returned when the backend cannot be
    loaded names neither the train nor its destination. *)
Lemma unavailable_sentence_names_no_train :
  let '(text, _, _) :=
    Generator.generate_announcement
      (host_with (Raise "No module named 'llama_cpp'") (Ok tone) never)
      (mkGenerator None quiet) train_2426 (Some never) empty_world in
  text = Ok "System unavailable." /\
  contains (train_number train_2426) "System unavailable." = false /\
  contains (destination train_2426) "System unavailable." = false.
Proof. cbn. repeat split. Qed.

(** C10.  When the streaming call raises, at the request or while the
    stream is read, [generate_announcement] returns
    [Attention. Train <train_number> to <destination> is delayed.],
    whatever the record's delay is. *)
Theorem stream_failure_announces_delay
  (host : Host) (self self1 : AnnouncementGenerator) (m : Llama)
  (train_data : TrainData) (stop_check_callback : option (nat -> bool))
  (w w0 w1 : World) (e : string) :
  Generator.ensure_loaded host self w = (Ok true, self1, w0) ->
  llm self1 = Some m ->
  Generator.stream_announcement self1 m train_data stop_check_callback w0
  = (Raise e, w1) ->
  Generator.generate_announcement host self train_data stop_check_callback w
  = (Ok ("Attention. Train " ++ train_number train_data ++ " to " ++
         destination train_data ++ " is delayed."),
     self1,
     Generator._report_progress self1 ("Generation error: " ++ e) w1).
Proof.
  intros Hload Hllm Hraise.
  unfold Generator.generate_announcement. rewrite Hload.
  unfold Generator.announce_or_fall_back. rewrite Hllm, Hraise.
  reflexivity.
Qed.

Lemma stream_failure_announces_delay_witness :
  delay_minutes train_2426 = 0%Z /\
  fst (fst (Generator.generate_announcement
              (host_with (Ok (llama_of (Raise "llama_decode returned 1")))
                         (Ok tone) never)
              (mkGenerator (Some (llama_of (Raise "llama_decode returned 1")))
                           quiet)
              train_2426 (Some never) empty_world))
  = Ok "Attention. Train #2426 to Houston is delayed.".
Proof.
  split; [reflexivity|].
  rewrite (stream_failure_announces_delay
             (host_with (Ok (llama_of (Raise "llama_decode returned 1")))
                        (Ok tone) never)
             (mkGenerator (Some (llama_of (Raise "llama_decode returned 1")))
                          quiet)
             (mkGenerator (Some (llama_of (Raise "llama_decode returned 1")))
                          quiet)
             (llama_of (Raise "llama_decode returned 1"))
             train_2426 (Some never) empty_world empty_world
             (tick_completion
                (Generator._report_progress
                   (mkGenerator
                      (Some (llama_of (Raise "llama_decode returned 1")))
                      quiet)
                   "Thinking..." empty_world))
             "llama_decode returned 1" eq_refl eq_refl eq_refl).
  reflexivity.
Defined.

(** ** The speech engine *)

Module TTSFacts.
Import TTS.

Section Reports.
(** [f] is a part of the world that no report touches. *)
Context {A : Type} (f : World -> A).
Hypothesis blind : report_blind f.

Lemma voice_download_keeps (host : Host) (self : SileroTTS) (w : World) :
  f (snd (download_model host self w)) = f w.
Proof.
  unfold download_model. destruct (tts_mkdir host); [|reflexivity].
  destruct (tts_file_exists host); [reflexivity|].
  destruct (tts_urlretrieve host); cbn [snd]; unfold _report_progress;
    now rewrite !blind.
Qed.

Lemma voice_load_keeps (host : Host) (self : SileroTTS) (w : World) :
  f (snd (load_model host self w)) = f w.
Proof.
  unfold load_model. destruct (model self); [reflexivity|].
  pose proof (voice_download_keeps host self w) as Hd.
  destruct (download_model host self w) as [[ok|e] w1]; cbn [snd] in Hd;
    [|exact Hd].
  destruct ok; [|exact Hd].
  destruct (load_pickle host) as [m|e]; cbn [snd];
    [|unfold _report_progress; now rewrite !blind].
  destruct (to_device m); cbn [snd]; unfold _report_progress;
    now rewrite !blind.
Qed.

Lemma voice_ensure_keeps (host : Host) (self : SileroTTS) (w : World) :
  f (snd (ensure_loaded host self w)) = f w.
Proof.
  unfold ensure_loaded.
  destruct (model self); [reflexivity|apply voice_load_keeps].
Qed.

End Reports.

Lemma download_model_counters (host : Host) (self : SileroTTS) (w : World) :
  counters (snd (download_model host self w)) = counters w.
Proof. apply voice_download_keeps, counters_blind. Qed.

Lemma load_model_counters (host : Host) (self : SileroTTS) (w : World) :
  counters (snd (load_model host self w)) = counters w.
Proof. apply voice_load_keeps, counters_blind. Qed.

(** Whatever a load does, the engine keeps its settings and its playback
    flag; at most the model is added. *)
Lemma voice_load_engine (host : Host) (self : SileroTTS) (w : World) :
  snd (fst (load_model host self w)) = self \/
  exists m, load_pickle host = Ok m /\
            snd (fst (load_model host self w)) = with_model self m.
Proof.
  unfold load_model. destruct (model self); [now left|].
  destruct (download_model host self w) as [[ok|e] w1]; [|now left].
  destruct ok; [|now left].
  destruct (load_pickle host) as [m|e]; [|now left].
  right. exists m. split; [reflexivity|].
  destruct (to_device m); reflexivity.
Qed.

Lemma voice_ensure_engine (host : Host) (self : SileroTTS) (w : World) :
  snd (fst (ensure_loaded host self w)) = self \/
  exists m, load_pickle host = Ok m /\
            snd (fst (ensure_loaded host self w)) = with_model self m.
Proof.
  unfold ensure_loaded.
  destruct (model self); [now left|apply voice_load_engine].
Qed.

(** A load that returns [True] leaves an engine with its model. *)
Lemma voice_ensure_loaded (host : Host) (self : SileroTTS) (w : World) :
  fst (fst (ensure_loaded host self w)) = Ok true ->
  model (snd (fst (ensure_loaded host self w))) <> None.
Proof.
  unfold ensure_loaded. destruct (model self) eqn:E; cbn [fst snd].
  - intros _. now rewrite E.
  - unfold load_model. rewrite E.
    destruct (download_model host self w) as [[ok|e] w1]; [|discriminate].
    destruct ok; [|discriminate].
    destruct (load_pickle host) as [m|e]; [|discriminate].
    destruct (to_device m); cbn [fst snd]; discriminate.
Qed.

(** An exception leaves the load only from the making of the directory,
    and the engine is then as it was. *)
Lemma voice_ensure_raises (host : Host) (self : SileroTTS) (w : World)
      (e : string) :
  fst (fst (ensure_loaded host self w)) = Raise e ->
  model self = None /\ tts_mkdir host = Raise e /\
  snd (fst (ensure_loaded host self w)) = self.
Proof.
  unfold ensure_loaded. destruct (model self) eqn:E; [discriminate|].
  unfold load_model, download_model. rewrite E.
  destruct (tts_mkdir host) as [u|e1]; cbn [fst snd];
    [|intros [= ->]; repeat split].
  assert (Hl : forall w1,
             fst (fst (let w2 := _report_progress self "Loading TTS model..."
                                                  w1 in
                       match load_pickle host with
                       | Ok m =>
                           let self0 := with_model self m in
                           match to_device m with
                           | Ok _ =>
                               (Ok true, self0,
                                _report_progress self0 "TTS Ready!" w2)
                           | Raise e0 =>
                               (Ok false, self0,
                                _report_progress self0
                                  ("Load error (torch.package): " ++ e0) w2)
                           end
                       | Raise e0 =>
                           (Ok false, self,
                            _report_progress self
                              ("Load error (torch.package): " ++ e0) w2)
                       end)) <> Raise e).
  { intros w1. cbv zeta. destruct (load_pickle host) as [m|e0];
      [destruct (to_device m)|]; discriminate. }
  destruct (tts_file_exists host); [intros H; now apply Hl in H|].
  destruct (tts_urlretrieve host); cbn [fst snd];
    [intros H; now apply Hl in H|discriminate].
Qed.

Lemma prints_counters (lines : list string) :
  forall w,
    counters (fold_left (fun w line => print line w) lines w) = counters w.
Proof.
  induction lines as [|l ls IH]; intros w; simpl; [reflexivity|].
  now rewrite IH.
Qed.

Lemma synthesize_and_play_counters (host : Host) (self : SileroTTS)
      (m : TtsModel) (text : string) (blocking : bool) (w : World) :
  counters (snd (synthesize_and_play host self m text blocking w))
  = counters w.
Proof.
  unfold synthesize_and_play.
  destruct (apply_tts m text (speaker self) (sample_rate self));
    [|reflexivity].
  destruct (sd_play host _); [|reflexivity].
  destruct blocking; [|reflexivity].
  destruct (sd_wait host _); reflexivity.
Qed.

Lemma say_counters (host : Host) (self : SileroTTS) (text : string)
      (blocking : bool) (w : World) :
  counters (snd (say host self text blocking w)) = counters w.
Proof.
  unfold say.
  destruct (_normalize_text host text) as [normalized printed].
  cbv zeta.
  set (w2 := _report_progress self _ (fold_left _ printed w)).
  assert (H2 : counters w2 = counters w).
  { subst w2. rewrite <- (prints_counters printed w). reflexivity. }
  destruct (model self) as [m|].
  - pose proof (synthesize_and_play_counters host self m normalized
                  blocking w2) as Hs.
    destruct (synthesize_and_play host self m normalized blocking w2)
      as [[r self2] w3].
    cbn [snd] in Hs. destruct r; cbn [snd]; [congruence|].
    rewrite <- H2, <- Hs. reflexivity.
  - cbn [snd]. rewrite <- H2. reflexivity.
Qed.

(** Whatever happens to the model, the synthesis or the sound device,
    [speak] has touched nothing but reports and the device. *)
Lemma speak_counters (host : Host) (self : SileroTTS) (text : string)
      (blocking : bool) (w : World) :
  counters (snd (speak host self text blocking w)) = counters w.
Proof.
  unfold speak.
  pose proof (voice_ensure_keeps counters counters_blind host self w) as Hl.
  destruct (ensure_loaded host self w) as [[loaded self1] w1].
  cbn [snd] in Hl. destruct loaded as [[|]|e]; cbn [snd]; try exact Hl.
  pose proof (say_counters host self1 text blocking w1) as Hs.
  destruct (say host self1 text blocking w1) as [self2 w2].
  cbn [snd] in *. congruence.
Qed.

(** An exception leaves [speak] only from its load step, with engine and
    sound device as they were. *)
Lemma speak_raises (host : Host) (self : SileroTTS) (text : string)
      (blocking : bool) (w : World) (e : string) :
  fst (fst (speak host self text blocking w)) = Raise e ->
  model self = None /\ tts_mkdir host = Raise e /\
  snd (fst (speak host self text blocking w)) = self /\
  device (snd (speak host self text blocking w)) = device w.
Proof.
  unfold speak.
  pose proof (voice_ensure_keeps device device_blind host self w) as Hd.
  pose proof (voice_ensure_raises host self w e) as Hr.
  destruct (ensure_loaded host self w) as [[loaded self1] w1].
  cbn [fst snd] in *. destruct loaded as [[|]|e1]; cbn [fst snd].
  - destruct (say host self1 text blocking w1). discriminate.
  - discriminate.
  - intros [= ->]. destruct (Hr eq_refl) as (H1 & H2 & H3).
    repeat apply conj; assumption.
Qed.


Lemma prints_device (lines : list string) :
  forall w,
    device (fold_left (fun w line => print line w) lines w) = device w.
Proof.
  induction lines as [|l ls IH]; intros w; simpl; [reflexivity|].
  now rewrite IH.
Qed.

(** A model that cannot be loaded or a synthesis that raises: the sound
    device is not called and the playback flag is left down. *)
Lemma speak_without_audio (host : Host) (self : SileroTTS) (text : string)
      (blocking : bool) (w : World) :
  fst (fst (ensure_loaded host self w)) <> Ok true \/
  (exists m e,
      model self = Some m /\
      apply_tts m (fst (_normalize_text host text)) (speaker self)
                (sample_rate self) = Raise e) ->
  device (snd (speak host self text blocking w)) = device w /\
  (_playback_active self = false ->
   _playback_active (snd (fst (speak host self text blocking w))) = false).
Proof.
  unfold speak. intros [Hload|(m & e & Hm & Hraise)].
  - pose proof (voice_ensure_keeps device device_blind host self w) as Hdev.
    assert (Hself : _playback_active (snd (fst (ensure_loaded host self w)))
                    = _playback_active self).
    { destruct (voice_ensure_engine host self w) as [->|(m & _ & ->)];
        reflexivity. }
    destruct (ensure_loaded host self w) as [[loaded self1] w1].
    cbn [fst snd] in *.
    destruct loaded as [[|]|e]; [now destruct Hload| |]; cbn [fst snd];
      (split; [exact Hdev|congruence]).
  - unfold ensure_loaded. rewrite Hm. unfold say.
    destruct (_normalize_text host text) as [normalized printed].
    cbn [fst] in Hraise. cbv zeta. rewrite Hm.
    unfold synthesize_and_play. rewrite Hraise. cbn [fst snd].
    split; [|reflexivity].
    change (device (_report_progress self ("TTS Error: " ++ e)
                      (_report_progress self
                         ("Reading: '" ++ substring 0 50 normalized ++ "...'")
                         (fold_left (fun w line => print line w) printed w))))
      with (device (fold_left (fun w line => print line w) printed w)).
    apply prints_device.
Qed.

End TTSFacts.

(** C9.  [stop] on an engine whose playback flag is down changes neither
    the engine nor the world (the sound device is not called), so a [speak]
    after it goes as without it; and a second [stop] in a row changes
    nothing, from any state. *)
Theorem stop_when_idle_is_noop :
  (forall self w,
      _playback_active self = false -> TTS.stop self w = (self, w)) /\
  (forall host self text blocking w,
      _playback_active self = false ->
      TTS.speak host (fst (TTS.stop self w)) text blocking
                (snd (TTS.stop self w))
      = TTS.speak host self text blocking w) /\
  (forall self w,
      _playback_active (fst (TTS.stop self w)) = false /\
      TTS.stop (fst (TTS.stop self w)) (snd (TTS.stop self w))
      = TTS.stop self w).
Proof.
  assert (Hidle : forall self w,
             _playback_active self = false -> TTS.stop self w = (self, w)).
  { intros self w H. unfold TTS.stop. now rewrite H. }
  repeat apply conj.
  - exact Hidle.
  - intros host self text blocking w H. now rewrite (Hidle self w H).
  - intros self w. unfold TTS.stop.
    destruct (_playback_active self) eqn:E; cbn [fst snd].
    + split; reflexivity.
    + split; [exact E|now rewrite E].
Qed.

Lemma stop_when_idle_is_noop_witness :
  TTS.stop (TTS.init quiet) empty_world = (TTS.init quiet, empty_world) /\
  device (snd (TTS.stop (TTS.init quiet) empty_world)) = [] /\
  TTS.stop (TTS.set_playback_active (TTS.init quiet) true) empty_world
  = (TTS.init quiet, push_device SdStop empty_world).
Proof.
  destruct stop_when_idle_is_noop as (Hidle & _ & _).
  split; [apply Hidle; reflexivity|].
  split; reflexivity.
Defined.

(** ** The announcement loop *)

Module MainFacts.
Import Main.

(** Where the loop ends with both engines in place: at the end of the
    batch or at a read of the stop flag that returned yes; or in an
    exception of a load step, the last read of the flag having returned
    no. *)
Lemma announce_from_outcome (host : Host) (batch : list TrainData) :
  forall i total self w r self' w',
    llm_generator self <> None -> tts_engine self <> None ->
    announce_from host i total batch self w = (r, self', w') ->
    llm_generator self' <> None /\ tts_engine self' <> None /\
    trains self' = trains self /\
    dialogs w' = dialogs w /\ flag_reads w <= flag_reads w' /\
    match r with
    | Ok _ => loop_outcome host batch w w'
    | Raise e =>
        escaped host e /\
        flag_reads w < flag_reads w' /\
        should_stop host (pred (flag_reads w')) = false /\
        naps w' < naps w + List.length batch
    end.
Proof.
  induction batch as [|train rest IH];
    intros i total self w r self' w' Hgen Htts H.
  - injection H as <- <- <-. repeat apply conj; try easy.
    left. cbn. split; lia.
  - cbn [announce_from] in H. unfold read_should_stop in H.
    destruct (should_stop host (flag_reads w)) eqn:E0.
    { injection H as <- <- <-.
      repeat apply conj; world; try easy; try lia; try congruence.
      right. exists (flag_reads w). world. cbn [List.length].
      repeat apply conj; try easy; lia. }
    destruct (llm_generator self) as [gen|] eqn:Eg; [|contradiction].
    match type of H with
    | context [Generator.generate_announcement host gen train ?cb ?w1] =>
        pose proof (GeneratorFacts.generate_announcement_raises
                      host gen train cb w1) as Hraise;
        destruct (Generator.generate_announcement host gen train cb w1)
          as [[generated gen'] w2] eqn:Egen
    end.
    apply GeneratorFacts.generate_announcement_effects in Egen.
    destruct Egen as (Hd & _ & Hle & _ & _).
    unfold display, _set_status in Hd. world.
    injection Hd as Hn2 Ha2 Hd2.
    cbn [fst snd] in Hraise.
    destruct generated as [text|e].
    2:{ destruct (Hraise e eq_refl) as (_ & _ & Hsrc & _ & Hc & _).
        unfold counters in Hc. world. injection Hc as Hf2 _ _ _ _ _.
        injection H as <- <- <-.
        repeat apply conj; world; try easy; try lia; try congruence.
        - unfold escaped. tauto.
        - rewrite Hf2. cbn [pred]. exact E0.
        - cbn [List.length]. lia. }
    destruct (should_stop host (flag_reads w2)) eqn:E1.
    { injection H as <- <- <-.
      repeat apply conj; world; try easy; try lia; try congruence.
      right. exists (flag_reads w2). world. cbn [List.length].
      repeat apply conj; try easy; lia. }
    cbn [tts_engine with_generator] in H.
    destruct (tts_engine self) as [tts|] eqn:Et; [|contradiction].
    match type of H with
    | context [TTS.speak host tts text true ?w3] =>
        pose proof (TTSFacts.speak_counters host tts text true w3) as Hs;
        pose proof (TTSFacts.speak_raises host tts text true w3) as Hsr;
        destruct (TTS.speak host tts text true w3) as [[spoken tts'] w4]
    end.
    cbn [fst snd] in Hs, Hsr.
    unfold counters, _set_status, _set_announcement in Hs.
    world. injection Hs as Hf4 Hp4 Hc4 Hn4 Ha4 Hd4.
    destruct spoken as [u|e].
    2:{ destruct (Hsr e eq_refl) as (_ & Hsrc & _).
        injection H as <- <- <-.
        repeat apply conj; world; try easy; try lia; try congruence.
        - unfold escaped. tauto.
        - rewrite Hf4. cbn [pred]. exact E1.
        - cbn [List.length]. lia. }
    rewrite Hf4 in H.
    destruct (should_stop host (S (flag_reads w2))) eqn:E2.
    { injection H as <- <- <-.
      repeat apply conj; world; try easy; try lia; try congruence.
      right. exists (S (flag_reads w2)). world. cbn [List.length].
      rewrite Hf4. repeat apply conj; try easy; lia. }
    apply IH in H; [|discriminate|discriminate].
    destruct H as (Hg' & Ht' & Htr & Hdl & Hfl & Hout). world.
    repeat apply conj; try easy; try lia; try congruence.
    destruct r as [u'|e].
    + destruct Hout as [[Hnaps Hann]|(k & Hk & Hstop & Hlast & Hnaps)].
      * left. world. cbn [List.length].
        rewrite Hnaps, Hann, Hn4, Ha4, Hn2, Ha2.
        cbn [List.length]. split; lia.
      * right. exists k. world. cbn [List.length].
        repeat apply conj; try easy; lia.
    + destruct Hout as (Hsrc & Hlt & Hlast & Hnaps).
      world. cbn [List.length]. repeat apply conj; try easy; lia.
Qed.

End MainFacts.

(** ** Claims about the announcement loop *)



Lemma error_status_not_stopped (e : string) :
  "❌ Error: " ++ e <> Main.STOPPED /\ "❌ Error: " ++ e <> Main.COMPLETED.
Proof. split; discriminate. Qed.

(** The run of [speak_thread] with both engines in place: the loop, then
    either one more read of the flag and the status chosen by it, or the
    handler with the exception of a load step. *)
Lemma speak_thread_outcome (host : Host) (self : App) (w : World) :
  llm_generator self <> None -> tts_engine self <> None ->
  exists r self1 w1,
    Main.announce_from host 1 (List.length (firstn 3 (trains self)))
                       (firstn 3 (trains self)) self w
    = (r, self1, w1) /\
    flag_reads w <= flag_reads w1 /\
    match r with
    | Ok _ =>
        loop_outcome host (firstn 3 (trains self)) w w1 /\
        Main.speak_thread host self w
        = (Main.set_speaking self1 false,
           push_status (if should_stop host (flag_reads w1)
                        then Main.STOPPED else Main.COMPLETED)
                       (tick_flag w1))
    | Raise e =>
        escaped host e /\ flag_reads w < flag_reads w1 /\
        should_stop host (pred (flag_reads w1)) = false /\
        naps w1 < naps w + List.length (firstn 3 (trains self)) /\
        Main.speak_thread host self w
        = (Main.set_speaking self1 false,
           push_status ("❌ Error: " ++ e) w1)
    end.
Proof.
  intros Hgen Htts. unfold Main.speak_thread.
  destruct (Main.announce_from host 1 _ _ self w) as [[r self1] w1] eqn:E.
  destruct (MainFacts.announce_from_outcome _ _ _ _ _ _ _ _ _ Hgen Htts E)
    as (_ & _ & _ & _ & Hle & Hout).
  exists r, self1, w1. split; [reflexivity|]. split; [exact Hle|].
  destruct r as [u|e].
  - split; [exact Hout|]. unfold Main.read_should_stop.
    destruct (should_stop host (flag_reads w1)); reflexivity.
  - destruct Hout as (H1 & H2 & H3 & H4). repeat apply conj; easy.
Qed.





(** ** What the loop plays *)

Module PlaybackFacts.
Import TTS Main.






End PlaybackFacts.





(** Before the engines are constructed the loop ends in its exception
    handler, having read the stop flag once, as not set. *)
Example speak_before_engines_exist :
  let w' :=
    snd (Main._on_speak_click (host_with (Ok (llama_of (Ok three_chunks)))
                                         (Ok tone) never)
                              (mkApp departures None None false)
                              empty_world) in
  Main.final_status w'
  = "❌ Error: 'NoneType' object has no attribute 'generate_announcement'"
  /\ naps w' = 0 /\ flag_reads w' = 1.
Proof. vm_compute. repeat split. Qed.

(** * Further properties of the code *)

(** ** tts_engine.py: [_normalize_text] *)

Lemma normalize_digit_free_text
  (num2words : N -> result string) (limit : nat) (text : string) :
  has_digit text = false ->
  normalize_succeeds num2words limit text = true /\
  normalize num2words limit text = replace_hyphens text /\
  String.length (normalize num2words limit text) = String.length text.
Proof.
  intros H. apply has_digit_no_digit in H.
  assert (Hn : _normalize_text num2words limit text
               = (replace_hyphens text, [])).
  { unfold _normalize_text, sub_times, sub_numbers.
    rewrite ReFacts.sub_time_free by now apply ReFacts.time_free_no_digit.
    now rewrite ReFacts.sub_digits_no_digit. }
  unfold normalize_succeeds, normalize. rewrite Hn. cbn [fst snd].
  repeat split. unfold replace_hyphens.
  clear. induction text as [|c t IH]; simpl; [reflexivity|now rewrite IH].
Qed.


(** X1.  On a text without digits [_normalize_text] never reaches
    [num2words] or [int]: it returns normally, whatever they would do, and
    the result is the text with every hyphen turned into a space, of the
    same length. *)
Theorem normalize_text_without_digits
  (num2words : N -> result string) (limit : nat) (text : string) :
  has_digit text = false ->
  normalize_succeeds num2words limit text = true /\
  normalize num2words limit text = replace_hyphens text /\
  String.length (normalize num2words limit text) = String.length text.
Proof. apply normalize_digit_free_text. Qed.

Lemma normalize_text_without_digits_witness :
  normalize (fun _ => Raise "unused") 1 "Track A - mind the gap"
  = "Track A   mind the gap".
Proof.
  destruct (normalize_text_without_digits (fun _ => Raise "unused") 1
              "Track A - mind the gap" eq_refl) as (_ & -> & _).
  reflexivity.
Defined.

(** X2.  If the rewrite of times did not raise, no time is left anywhere
    in the text [_normalize_text] returns, also when the rewrite of numbers
    raised afterwards; if the rewrite of times raised, the input comes back
    unchanged. *)
Theorem normalize_leaves_no_time
  (num2words : N -> result string) (limit : nat)
  (spells : forall n s, num2words n = Ok s -> has_digit s = false)
  (text : string) :
  (forall text1,
      sub_times num2words limit text = Ok text1 ->
      time_free (normalize num2words limit text) = true) /\
  (forall e,
      sub_times num2words limit text = Raise e ->
      normalize num2words limit text = text).
Proof.
  split.
  - intros text1 H1. unfold normalize, _normalize_text. rewrite H1.
    destruct (sub_numbers num2words limit text1) as [text2|e] eqn:H2;
      cbn [fst].
    + apply ReFacts.time_free_no_digit, replace_hyphens_no_digit.
      exact (sub_numbers_no_digit num2words limit spells _ _ H2).
    + exact (proj1 (sub_times_from_time_free num2words limit spells
                      text 0 text1 H1)).
  - intros e H1. unfold normalize, _normalize_text. now rewrite H1.
Qed.

Lemma normalize_leaves_no_time_witness :
  time_free (normalize_en "12:34:56 and 9:05") = true /\
  normalize_en "12:34:56 and 9:05"
  = "twelve thirty four:fifty six and nine five".
Proof.
  split.
  - apply (proj1 (normalize_leaves_no_time Num2Words.num2words
                    default_max_str_digits Num2WordsFacts.num2words_spells
                    "12:34:56 and 9:05")
             "twelve thirty-four:56 and nine five").
    vm_compute. reflexivity.
  - vm_compute. reflexivity.
Defined.

(** ** llm_generator.py *)

Module GeneratorMore.
Import Generator.

Lemma consume_deltas (self : AnnouncementGenerator)
      (stop_check_callback : option (nat -> bool))
      (contents : list (option string)) (tail : Stream) :
  forall full_text w,
    says_no stop_check_callback w (List.length contents) ->
    exists w1,
      consume self stop_check_callback
              (stream_of (map Delta contents) tail) full_text w
      = consume self stop_check_callback tail
                (fold_left (fun full_text content =>
                              match content with
                              | Some text => full_text ++ text
                              | None => full_text
                              end) contents full_text) w1
      /\ chunks_pulled w1 = chunks_pulled w + List.length contents
      /\ completions w1 = completions w.
Proof.
  induction contents as [|content contents IH]; intros full_text w Hno.
  - exists w. cbn. repeat split; lia.
  - cbn [map stream_of consume List.length fold_left].
    destruct stop_check_callback as [check|].
    + cbn [says_no List.length] in Hno. world.
      assert (Hnow : check (flag_reads w) = false).
      { rewrite <- (Nat.add_0_r (flag_reads w)). apply Hno. lia. }
      rewrite Hnow.
      assert (Hno' : says_no (Some check) (tick_flag (tick_chunk w))
                             (List.length contents)).
      { intros i Hi. world.
        replace (S (flag_reads w) + i) with (flag_reads w + S i) by lia.
        apply Hno. lia. }
      destruct content as [text|].
      * destruct (IH (full_text ++ text) _ Hno') as (w1 & -> & Hp & Hc).
        exists w1. world. repeat split; try assumption; lia.
      * destruct (IH full_text _ Hno') as (w1 & -> & Hp & Hc).
        exists w1. world. repeat split; try assumption; lia.
    + destruct content as [text|].
      * destruct (IH (full_text ++ text) (tick_chunk w) I)
          as (w1 & -> & Hp & Hc).
        exists w1. world. repeat split; try assumption; lia.
      * destruct (IH full_text (tick_chunk w) I) as (w1 & -> & Hp & Hc).
        exists w1. world. repeat split; try assumption; lia.
Qed.

Lemma consume_budget (self : AnnouncementGenerator)
      (stop_check_callback : option (nat -> bool)) (stream : Stream) :
  forall full_text w r w',
    consume self stop_check_callback stream full_text w = (r, w') ->
    counters w' = (flag_reads w', chunks_pulled w', completions w, naps w,
                   announcements w, dialogs w) /\
    device w' = device w /\
    chunks_pulled w <= chunks_pulled w' /\
    reads_per_pull stop_check_callback w w'.
Proof.
  induction stream as [| e | chunk rest IH]; intros full_text w r w' H.
  - injection H as <- <-.
    repeat apply conj; try reflexivity; try lia.
    destruct stop_check_callback; cbn; lia.
  - injection H as <- <-.
    repeat apply conj; try reflexivity; try lia.
    destruct stop_check_callback; cbn; lia.
  - cbn [consume] in H.
    assert (Hstep :
      forall w0 full r w',
        counters w0 = (flag_reads w0, chunks_pulled w0, completions w,
                       naps w, announcements w, dialogs w) ->
        device w0 = device w -> chunks_pulled w <= chunks_pulled w0 ->
        reads_per_pull stop_check_callback w w0 ->
        consume self stop_check_callback rest full w0 = (r, w') ->
        counters w' = (flag_reads w', chunks_pulled w', completions w,
                       naps w, announcements w, dialogs w) /\
        device w' = device w /\
        chunks_pulled w <= chunks_pulled w' /\
        reads_per_pull stop_check_callback w w').
    { intros w0 full r0 w0' Hc0 Hd0 Hle0 Hr0 H0.
      apply IH in H0. destruct H0 as (Hc & Hd & Hle & Hr).
      unfold counters in *. injection Hc0 as Hm0 Hn0 Ha0 Hdl0.
      injection Hc as Hm Hn Ha Hdl.
      repeat apply conj; try congruence; try lia.
      destruct stop_check_callback; cbn in *; lia. }
    destruct stop_check_callback as [check|].
    + change (flag_reads (tick_chunk w)) with (flag_reads w) in H.
      destruct (check (flag_reads w)).
      * injection H as <- <-. world.
        repeat apply conj; try reflexivity; try lia. cbn. world. lia.
      * destruct chunk as [[content|]|e].
        -- refine (Hstep (tick_flag (tick_chunk w)) _ r w'
                         eq_refl eq_refl _ _ H); cbn; world; lia.
        -- refine (Hstep (tick_flag (tick_chunk w)) _ r w'
                         eq_refl eq_refl _ _ H); cbn; world; lia.
        -- injection H as <- <-. world.
           repeat apply conj; try reflexivity; try lia. cbn. world. lia.
    + destruct chunk as [[content|]|e].
      * refine (Hstep (tick_chunk w) _ r w' eq_refl eq_refl _ _ H);
          cbn; world; lia.
      * refine (Hstep (tick_chunk w) _ r w' eq_refl eq_refl _ _ H);
          cbn; world; lia.
      * injection H as <- <-. world.
        repeat apply conj; try reflexivity; try lia.
Qed.

End GeneratorMore.

(** X3.  With the backend loaded, a stream of well-formed chunks that ends
    normally, and a stop callback that is absent or keeps saying no,
    [generate_announcement] returns the contents of the chunks appended in
    their order and stripped; every chunk is pulled and the backend is
    asked once. *)
Theorem generated_text_is_stripped_concatenation
  (host : Host) (self : AnnouncementGenerator) (m : Llama)
  (train_data : TrainData) (stop_check_callback : option (nat -> bool))
  (contents : list (option string)) (w : World) :
  llm self = Some m ->
  create_chat_completion m
    [("system", SYSTEM_PROMPT); ("user", Generator.user_prompt train_data)]
    150 (3 # 10)%Q
  = Ok (stream_of (map Delta contents) Exhausted) ->
  says_no stop_check_callback w (List.length contents) ->
  exists w',
    Generator.generate_announcement host self train_data
      stop_check_callback w
    = (Ok (strip (joined contents)), self, w') /\
    chunks_pulled w' = chunks_pulled w + List.length contents /\
    completions w' = S (completions w).
Proof.
  intros Hllm Hstream Hno.
  unfold Generator.generate_announcement.
  rewrite (GeneratorFacts.ensure_loaded_ready host self m w Hllm).
  unfold Generator.announce_or_fall_back. rewrite Hllm.
  unfold Generator.stream_announcement. rewrite Hstream.
  set (w0 := tick_completion
               (Generator._report_progress self "Thinking..." w)).
  assert (Hno0 : says_no stop_check_callback w0 (List.length contents)).
  { destruct stop_check_callback; [|exact I]. exact Hno. }
  destruct (GeneratorMore.consume_deltas self stop_check_callback contents
              Exhausted "" w0 Hno0) as (w1 & -> & Hp & Hc).
  cbn [Generator.consume]. exists w1. split; [reflexivity|].
  rewrite Hp, Hc. subst w0. world. split; reflexivity.
Qed.

Lemma generated_text_is_stripped_concatenation_witness :
  fst (fst (Generator.generate_announcement
              (host_with (Ok (llama_of (Ok three_chunks))) (Ok tone) never)
              (mkGenerator (Some (llama_of (Ok three_chunks))) quiet)
              train_2426 None empty_world))
  = Ok "Attention please. Train 2426 departs 21:05".
Proof.
  destruct (generated_text_is_stripped_concatenation
              (host_with (Ok (llama_of (Ok three_chunks))) (Ok tone) never)
              (mkGenerator (Some (llama_of (Ok three_chunks))) quiet)
              (llama_of (Ok three_chunks)) train_2426 None
              [None; Some "Attention please. ";
               Some "Train 2426 departs 21:05 "]
              empty_world eq_refl eq_refl I) as (w' & -> & _).
  reflexivity.
Defined.

(** X4.  The backend is loaded at most once: when [generate_announcement]
    finds or loads it, the generator it leaves has it, and from then on the
    load step returns at once on any host, with no report and no look at
    disk or network.  A load that fails is not remembered: the generator is
    left without backend, as it was. *)
Theorem backend_loaded_once
  (host : Host) (self : AnnouncementGenerator) (train_data : TrainData)
  (stop_check_callback : option (nat -> bool)) (w : World) :
  (fst (fst (Generator.ensure_loaded host self w)) = Ok true ->
   llm (snd (fst (Generator.generate_announcement
                    host self train_data stop_check_callback w))) <> None /\
   forall host' w2,
     Generator.ensure_loaded
       host'
       (snd (fst (Generator.generate_announcement
                    host self train_data stop_check_callback w))) w2
     = (Ok true,
        snd (fst (Generator.generate_announcement
                    host self train_data stop_check_callback w)), w2)) /\
  (fst (fst (Generator.ensure_loaded host self w)) <> Ok true ->
   snd (fst (Generator.generate_announcement
               host self train_data stop_check_callback w)) = self /\
   llm self = None).
Proof.
  assert (Hself :
    snd (fst (Generator.generate_announcement
                host self train_data stop_check_callback w))
    = snd (fst (Generator.ensure_loaded host self w))).
  { unfold Generator.generate_announcement.
    destruct (Generator.ensure_loaded host self w) as [[loaded self1] w1].
    destruct loaded as [[|]|e]; try reflexivity.
    destruct (Generator.announce_or_fall_back self1 train_data
                stop_check_callback w1); reflexivity. }
  rewrite Hself. split.
  - intros Hok.
    pose proof (GeneratorFacts.ensure_loaded_loaded host self w Hok)
      as Hllm.
    split; [exact Hllm|]. intros host' w2.
    revert Hllm.
    generalize (snd (fst (Generator.ensure_loaded host self w))).
    intros self1 Hllm. unfold Generator.ensure_loaded.
    destruct (llm self1); [reflexivity|contradiction].
  - intros Hfail. now apply GeneratorFacts.ensure_loaded_failed.
Qed.

Lemma backend_loaded_once_witness :
  llm (snd (fst (Generator.generate_announcement
                   (host_with (Ok (llama_of (Ok three_chunks))) (Ok tone)
                              never)
                   (mkGenerator None quiet) train_2426 None empty_world)))
  <> None /\
  snd (fst (Generator.generate_announcement
              (host_with (Raise "out of memory") (Ok tone) never)
              (mkGenerator None quiet) train_2426 None empty_world))
  = mkGenerator None quiet.
Proof.
  split.
  - apply (backend_loaded_once
             (host_with (Ok (llama_of (Ok three_chunks))) (Ok tone) never)
             (mkGenerator None quiet) train_2426 None empty_world).
    reflexivity.
  - apply (backend_loaded_once
             (host_with (Raise "out of memory") (Ok tone) never)
             (mkGenerator None quiet) train_2426 None empty_world).
    intros H. vm_compute in H. discriminate H.
Defined.

Lemma generate_announcement_budget
  (host : Host) (self : AnnouncementGenerator) (train_data : TrainData)
  (stop_check_callback : option (nat -> bool)) (w : World) :
  let w' := snd (Generator.generate_announcement
                   host self train_data stop_check_callback w) in
  completions w <= completions w' <= S (completions w) /\
  chunks_pulled w <= chunks_pulled w' /\
  (completions w' = completions w -> chunks_pulled w' = chunks_pulled w) /\
  reads_per_pull stop_check_callback w w' /\
  display w' = display w /\ device w' = device w.
Proof.
  unfold Generator.generate_announcement.
  pose proof (GeneratorFacts.ensure_loaded_keeps counters host self w
                counters_blind) as Hc.
  pose proof (GeneratorFacts.ensure_loaded_keeps device host self w
                device_blind) as Hd.
  destruct (Generator.ensure_loaded host self w) as [[loaded self1] w1].
  cbn [snd] in Hc, Hd. unfold counters in Hc.
  injection Hc as Hf Hp Hm Hn Ha Hdl.
  assert (Hidle :
    forall w2, counters w2 = counters w1 -> device w2 = device w1 ->
      completions w <= completions w2 <= S (completions w) /\
      chunks_pulled w <= chunks_pulled w2 /\
      (completions w2 = completions w -> chunks_pulled w2 = chunks_pulled w) /\
      reads_per_pull stop_check_callback w w2 /\
      display w2 = display w /\ device w2 = device w).
  { intros w2 Hc2 Hd2. unfold counters in Hc2.
    injection Hc2 as Hf2 Hp2 Hm2 Hn2 Ha2 Hdl2. unfold display.
    repeat apply conj; try congruence; try lia.
    destruct stop_check_callback; cbn; lia. }
  destruct loaded as [[|]|e]; cbn [snd]; try (now apply Hidle).
  unfold Generator.announce_or_fall_back.
  destruct (llm self1) as [m|]; [|now apply Hidle].
  unfold Generator.stream_announcement.
  destruct (create_chat_completion m _ _ _) as [stream|e].
  - destruct (Generator.consume self1 stop_check_callback stream "" _)
      as [r w2] eqn:Ec.
    apply GeneratorMore.consume_budget in Ec.
    destruct Ec as (Hc2 & Hd2 & Hle2 & Hr2).
    unfold counters in Hc2. world.
    injection Hc2 as Hm2 Hn2 Ha2 Hdl2.
    assert (Hgoal :
      completions w <= completions w2 <= S (completions w) /\
      chunks_pulled w <= chunks_pulled w2 /\
      (completions w2 = completions w -> chunks_pulled w2 = chunks_pulled w)
      /\ reads_per_pull stop_check_callback w w2 /\
      display w2 = display w /\ device w2 = device w).
    { unfold display. repeat apply conj; try congruence; try lia.
      destruct stop_check_callback; cbn in *; world; lia. }
    destruct r; cbn [snd]; exact Hgoal.
  - cbn [snd]. world. unfold display. world.
    repeat apply conj; try congruence; try lia.
    destruct stop_check_callback; cbn; world; lia.
Qed.


(** X5.  One call of [generate_announcement] asks the backend for at most
    one completion, reads the stop flag exactly once per chunk it pulls
    (never without a callback), and leaves the announcement box, the pauses,
    the message boxes and the sound device alone. *)
Theorem generation_budget
  (host : Host) (self : AnnouncementGenerator) (train_data : TrainData)
  (stop_check_callback : option (nat -> bool)) (w : World) :
  let w' := snd (Generator.generate_announcement
                   host self train_data stop_check_callback w) in
  completions w <= completions w' <= S (completions w) /\
  chunks_pulled w <= chunks_pulled w' /\
  (completions w' = completions w -> chunks_pulled w' = chunks_pulled w) /\
  reads_per_pull stop_check_callback w w' /\
  display w' = display w /\ device w' = device w.
Proof. apply generate_announcement_budget. Qed.

Lemma contains_here2 (a b rest : string) :
  contains (a ++ b) (a ++ b ++ rest) = true.
Proof. rewrite <- app_assoc_str. apply contains_here. Qed.

Lemma contains_here3 (a b c rest : string) :
  contains (a ++ b ++ c) (a ++ b ++ c ++ rest) = true.
Proof.
  replace (a ++ b ++ c ++ rest) with ((a ++ b ++ c) ++ rest)
    by now rewrite !app_assoc_str.
  apply contains_here.
Qed.

(** Finds the place of the text looked for in a chain of appends. *)
Ltac find_in_appends :=
  rewrite ?app_assoc_str;
  repeat first [apply contains_here3 | apply contains_here2
               | apply contains_here | apply contains_later].

(** X6.  The prompt built for a record carries its train number, operator,
    destination, origin, scheduled time and platform, and a status line
    that says delayed, with the minutes, exactly for a delay above zero;
    train type, track and the delayed flag do not enter it. *)
Theorem prompt_carries_the_record (train_data : TrainData) :
  let prompt := Generator.user_prompt train_data in
  (contains (train_number train_data) prompt = true /\
   contains (operator train_data) prompt = true /\
   contains (destination train_data) prompt = true /\
   contains (origin train_data) prompt = true /\
   contains (scheduled_time train_data) prompt = true /\
   contains ("Platform: " ++ str_of_Z (platform train_data)) prompt = true) /\
  ((0 < delay_minutes train_data)%Z ->
   contains ("STATUS: DELAYED by " ++ str_of_Z (delay_minutes train_data)
             ++ " minutes") prompt = true) /\
  ((delay_minutes train_data <= 0)%Z ->
   contains "STATUS: ON TIME" prompt = true) /\
  (forall train_type' track' is_delayed',
      Generator.user_prompt
        (mkTrain (train_number train_data) train_type' (operator train_data)
                 (origin train_data) (destination train_data)
                 (scheduled_time train_data) (delay_minutes train_data)
                 (platform train_data) track' is_delayed')
      = prompt).
Proof.
  cbv zeta. unfold Generator.user_prompt, Generator.info.
  repeat apply conj; try (now find_in_appends).
  - intros Hd. apply Z.gtb_lt in Hd. rewrite Hd. now find_in_appends.
  - intros Hd. destruct (delay_minutes train_data >? 0)%Z eqn:E.
    + apply Z.gtb_lt in E. lia.
    + now find_in_appends.
  - intros train_type' track' is_delayed'. reflexivity.
Qed.

Lemma prompt_carries_the_record_witness :
  contains "STATUS: ON TIME" (Generator.user_prompt train_2426) = true /\
  contains "STATUS: DELAYED by 12 minutes"
           (Generator.user_prompt
              (mkTrain "#77" "Acela" "Amtrak" "Boston South Station"
                       "New York Penn Station" "21:10" 12 7 (Some 2%Z) true))
  = true.
Proof.
  split.
  - apply (prompt_carries_the_record train_2426). cbn. lia.
  - apply (prompt_carries_the_record
             (mkTrain "#77" "Acela" "Amtrak" "Boston South Station"
                      "New York Penn Station" "21:10" 12 7 (Some 2%Z) true)).
    cbn. lia.
Defined.

(** ** tts_engine.py: [speak], [stop] and the loading of the voice *)

Module TTSMore.
Import TTS.

(** [speak] on an engine that has its model, up to the call of the model. *)
Lemma speak_with_model (host : Host) (self : SileroTTS) (m : TtsModel)
      (text : string) (blocking : bool) (w : World) :
  model self = Some m ->
  exists w0,
    device w0 = device w /\
    speak host self text blocking w
    = (let '(r, self1, w1) :=
         synthesize_and_play host self m (fst (_normalize_text host text))
                             blocking w0 in
       match r with
       | Ok _ => (Ok tt, self1, w1)
       | Raise e =>
           (Ok tt, set_playback_active self1 false,
            _report_progress self1 ("TTS Error: " ++ e) w1)
       end).
Proof.
  intros Hm. unfold speak, ensure_loaded. rewrite Hm. unfold say.
  destruct (_normalize_text host text) as [normalized printed].
  cbv zeta. rewrite Hm. cbn [fst].
  exists (_report_progress self
            ("Reading: '" ++ substring 0 50 normalized ++ "...'")
            (fold_left (fun w line => print line w) printed w)).
  split.
  - change (device (_report_progress self
                      ("Reading: '" ++ substring 0 50 normalized ++ "...'")
                      (fold_left (fun w line => print line w) printed w)))
      with (device (fold_left (fun w line => print line w) printed w)).
    apply TTSFacts.prints_device.
  - destruct (synthesize_and_play host self m normalized blocking _)
      as [[r self1] w1].
    destruct r; reflexivity.
Qed.

Lemma ensure_loaded_keeps_flag (host : Host) (self : SileroTTS) (w : World) :
  _playback_active (snd (fst (ensure_loaded host self w)))
  = _playback_active self.
Proof.
  destruct (TTSFacts.voice_ensure_engine host self w) as [->|(m & _ & ->)];
    reflexivity.
Qed.

(** A load that says no: the engine had no model; it is as it was, or it
    has the model that could not be moved to the device. *)
Lemma ensure_loaded_unloaded (host : Host) (self : SileroTTS) (w : World) :
  fst (fst (ensure_loaded host self w)) = Ok false ->
  model self = None /\
  (snd (fst (ensure_loaded host self w)) = self \/
   exists m e,
     load_pickle host = Ok m /\ to_device m = Raise e /\
     snd (fst (ensure_loaded host self w)) = with_model self m) /\
  (fst (download_model host self w) = Ok false ->
   snd (fst (ensure_loaded host self w)) = self) /\
  (forall e, load_pickle host = Raise e ->
             snd (fst (ensure_loaded host self w)) = self).
Proof.
  unfold ensure_loaded. destruct (model self) eqn:E; [discriminate|].
  unfold load_model. rewrite E.
  destruct (download_model host self w) as [[ok|e] w1]; [|discriminate].
  destruct ok; cbn [fst snd]; [|intros _; repeat split; now left].
  destruct (load_pickle host) as [m|e]; cbn [fst snd].
  - destruct (to_device m) as [u|e] eqn:Eto; cbn [fst snd]; [discriminate|].
    intros _. repeat split; try discriminate.
    right. now exists m, e.
  - intros _. repeat split; now left.
Qed.

(** A model that was unpickled but could not be moved to the device. *)
Lemma ensure_loaded_unmoved (host : Host) (self : SileroTTS) (w : World)
      (m : TtsModel) (e : string) :
  model self = None -> fst (download_model host self w) = Ok true ->
  load_pickle host = Ok m -> to_device m = Raise e ->
  fst (fst (ensure_loaded host self w)) = Ok false /\
  snd (fst (ensure_loaded host self w)) = with_model self m.
Proof.
  intros Hm Hd Hp Hto. unfold ensure_loaded, load_model. rewrite Hm.
  destruct (download_model host self w) as [r w1]. cbn [fst] in Hd.
  subst r. rewrite Hp, Hto. split; reflexivity.
Qed.

(** The engine [speak] leaves is the one of the load step, up to the
    playback flag. *)
Lemma speak_engine (host : Host) (self : SileroTTS) (text : string)
      (blocking : bool) (w : World) :
  exists flag,
    snd (fst (speak host self text blocking w))
    = set_playback_active (snd (fst (ensure_loaded host self w))) flag /\
    (fst (fst (ensure_loaded host self w)) <> Ok true ->
     flag = _playback_active self) /\
    (fst (fst (ensure_loaded host self w)) = Ok true -> blocking = true ->
     flag = false).
Proof.
  unfold speak.
  pose proof (ensure_loaded_keeps_flag host self w) as Hflag.
  destruct (ensure_loaded host self w) as [[loaded self1] w1].
  cbn [fst snd] in *. destruct loaded as [[|]|e].
  - unfold say.
    destruct (_normalize_text host text) as [normalized printed]. cbv zeta.
    destruct (model self1) as [m|].
    + unfold synthesize_and_play.
      destruct (apply_tts m normalized _ _); cbn [fst snd].
      * destruct (sd_play host _); cbn [fst snd].
        -- destruct blocking.
           ++ destruct (sd_wait host _); cbn [fst snd];
                exists false; destruct self1; repeat split; easy.
           ++ exists true. destruct self1; repeat split; easy.
        -- exists false. destruct self1; repeat split; easy.
      * exists false. destruct self1; repeat split; easy.
    + exists false. destruct self1; repeat split; easy.
  - exists (_playback_active self1). cbn [fst snd].
    destruct self1; cbn in *. repeat split; easy.
  - exists (_playback_active self1). cbn [fst snd].
    destruct self1; cbn in *. repeat split; easy.
Qed.

(** What [speak] does when the load step says no. *)
Lemma speak_no_model (host : Host) (self : SileroTTS) (text : string)
      (blocking : bool) (w : World) :
  fst (fst (ensure_loaded host self w)) = Ok false ->
  fst (fst (speak host self text blocking w)) = Ok tt /\
  snd (fst (speak host self text blocking w))
  = snd (fst (ensure_loaded host self w)) /\
  hd "" (stdout (snd (speak host self text blocking w)))
  = "[TTS] No model.".
Proof.
  unfold speak.
  destruct (ensure_loaded host self w) as [[loaded self1] w1].
  cbn [fst snd]. intros ->. repeat split.
Qed.

End TTSMore.

(** X7.  A blocking [speak] on an engine with its model, when synthesis and
    sound device work: the device is given the audio followed by half a
    second of silence, at the engine's sample rate, then waited for, and
    the playback flag is down again afterwards. *)
Theorem blocking_playback_pads_silence
  (host : Host) (self : SileroTTS) (m : TtsModel) (text : string)
  (audio : list Q) (w : World) :
  model self = Some m ->
  apply_tts m (fst (TTS._normalize_text host text)) (speaker self)
            (sample_rate self) = Ok audio ->
  sd_play host (List.length (device w)) = Ok tt ->
  sd_wait host (S (List.length (device w))) = Ok tt ->
  device (snd (TTS.speak host self text true w))
  = SdWait
      :: SdPlay (audio ++ repeat 0%Q (sample_rate self / 2))%list
                (sample_rate self)
      :: device w /\
  _playback_active (snd (fst (TTS.speak host self text true w))) = false /\
  (sample_rate self = 48000 ->
   exists padded,
     device (snd (TTS.speak host self text true w))
     = SdWait :: SdPlay padded 48000 :: device w /\
     List.length padded = List.length audio + 24000).
Proof.
  intros Hm Haudio Hplay Hwait.
  destruct (TTSMore.speak_with_model host self m text true w Hm)
    as (w0 & Hd0 & ->).
  unfold TTS.synthesize_and_play. rewrite Haudio, Hd0, Hplay.
  cbn [device push_device List.length]. rewrite Hd0.
  cbn [List.length]. rewrite Hwait. cbn [fst snd device push_device].
  rewrite Hd0. repeat split.
  intros Hrate.
  exists (audio ++ repeat 0%Q (sample_rate self / 2))%list. split.
  - unfold TTS.silence_samples.
    cbn [sample_rate TTS.set_playback_active]. now rewrite Hrate.
  - rewrite length_app, repeat_length, Hrate. reflexivity.
Qed.

Lemma blocking_playback_pads_silence_witness :
  Main.playbacks
    (snd (TTS.speak (host_with (Ok (llama_of (Ok three_chunks))) (Ok tone)
                               never)
                    (TTS.with_model (TTS.init quiet) tone)
                    "Train 2426 departs 21:05" true empty_world)) = 1 /\
  _playback_active
    (snd (fst (TTS.speak (host_with (Ok (llama_of (Ok three_chunks)))
                                    (Ok tone) never)
                         (TTS.with_model (TTS.init quiet) tone)
                         "Train 2426 departs 21:05" true empty_world)))
  = false.
Proof.
  destruct (blocking_playback_pads_silence
              (host_with (Ok (llama_of (Ok three_chunks))) (Ok tone) never)
              (TTS.with_model (TTS.init quiet) tone) tone
              "Train 2426 departs 21:05" [(1 # 2)%Q; (-1 # 2)%Q]
              empty_world eq_refl eq_refl eq_refl eq_refl)
    as (Hdev & Hflag & _).
  split; [|exact Hflag]. unfold Main.playbacks. rewrite Hdev. reflexivity.
Defined.

(** X8.  A blocking [speak] never leaves the playback flag up: if the
    model is there or loads, the flag is down afterwards whatever the
    synthesis and the device did; if the model cannot be loaded, the flag
    is as it was.  So after a blocking [speak] from an idle engine [stop]
    has nothing to do. *)
Theorem blocking_speak_ends_idle
  (host : Host) (self : SileroTTS) (text : string) (w : World) :
  (fst (fst (TTS.ensure_loaded host self w)) = Ok true ->
   _playback_active (snd (fst (TTS.speak host self text true w))) = false) /\
  (_playback_active self = false ->
   _playback_active (snd (fst (TTS.speak host self text true w))) = false /\
   TTS.stop (snd (fst (TTS.speak host self text true w)))
            (snd (TTS.speak host self text true w))
   = (snd (fst (TTS.speak host self text true w)),
      snd (TTS.speak host self text true w))).
Proof.
  destruct (TTSMore.speak_engine host self text true w)
    as (flag & Heng & Hfail & Hok).
  assert (Hidle : _playback_active self = false ->
                  _playback_active
                    (snd (fst (TTS.speak host self text true w))) = false).
  { intros Hself. rewrite Heng. cbn.
    destruct (fst (fst (TTS.ensure_loaded host self w))) as [[|]|e] eqn:E.
    - now apply Hok.
    - rewrite Hfail by discriminate. exact Hself.
    - rewrite Hfail by discriminate. exact Hself. }
  split.
  - intros Hloaded. rewrite Heng. cbn. now apply Hok.
  - intros Hself. split; [now apply Hidle|].
    unfold TTS.stop. now rewrite (Hidle Hself).
Qed.

Lemma blocking_speak_ends_idle_witness :
  _playback_active
    (snd (fst (TTS.speak (host_without_sound (Ok (llama_of (Ok three_chunks)))
                                             never)
                         (TTS.init quiet) "Platform 3" true empty_world)))
  = false.
Proof.
  destruct (blocking_speak_ends_idle
              (host_without_sound (Ok (llama_of (Ok three_chunks))) never)
              (TTS.init quiet) "Platform 3" empty_world) as [_ H].
  apply H. reflexivity.
Defined.

(** X9.  A [speak] that does not block, when synthesis and device work,
    hands the padded audio to the device and returns with the playback flag
    up; the [stop] that follows calls the device's stop once and puts the
    flag down. *)
Theorem stop_after_nonblocking_speak
  (host : Host) (self : SileroTTS) (m : TtsModel) (text : string)
  (audio : list Q) (w : World) :
  model self = Some m ->
  apply_tts m (fst (TTS._normalize_text host text)) (speaker self)
            (sample_rate self) = Ok audio ->
  sd_play host (List.length (device w)) = Ok tt ->
  let '(r, self1, w1) := TTS.speak host self text false w in
  let '(self2, w2) := TTS.stop self1 w1 in
  r = Ok tt /\
  _playback_active self1 = true /\
  device w1
  = SdPlay (audio ++ repeat 0%Q (sample_rate self / 2))%list
           (sample_rate self) :: device w /\
  _playback_active self2 = false /\
  device w2 = SdStop :: device w1.
Proof.
  intros Hm Haudio Hplay.
  destruct (TTSMore.speak_with_model host self m text false w Hm)
    as (w0 & Hd0 & ->).
  unfold TTS.synthesize_and_play. rewrite Haudio, Hd0, Hplay.
  unfold TTS.stop. cbn. rewrite Hd0. repeat split.
Qed.

Lemma stop_after_nonblocking_speak_witness :
  device
    (snd (TTS.stop
            (snd (fst (TTS.speak (host_with (Ok (llama_of (Ok three_chunks)))
                                            (Ok tone) never)
                                 (TTS.with_model (TTS.init quiet) tone)
                                 "Mind the gap" false empty_world)))
            (snd (TTS.speak (host_with (Ok (llama_of (Ok three_chunks)))
                                       (Ok tone) never)
                            (TTS.with_model (TTS.init quiet) tone)
                            "Mind the gap" false empty_world))))
  = [SdStop;
     SdPlay ([(1 # 2)%Q; (-1 # 2)%Q] ++ repeat 0%Q 24000)%list 48000].
Proof.
  pose proof (stop_after_nonblocking_speak
                (host_with (Ok (llama_of (Ok three_chunks))) (Ok tone) never)
                (TTS.with_model (TTS.init quiet) tone) tone
                "Mind the gap" [(1 # 2)%Q; (-1 # 2)%Q]
                empty_world eq_refl eq_refl eq_refl) as H.
  destruct (TTS.speak _ _ _ _ _) as [[r self1] w1].
  cbn [fst snd]. destruct (TTS.stop self1 w1) as [self2 w2].
  destruct H as (_ & _ & H1 & _ & H2). cbn [snd]. rewrite H2, H1. reflexivity.
Defined.

(** X10.  The voice is loaded at most once.  When [speak] finds or loads
    the model, the engine it leaves has it, and from then on the load step
    returns at once on any host, with no report.  When the load says no,
    [speak] reports [No model.], returns, and leaves the device alone; a
    download or an unpickling that failed is not remembered, the engine is
    as it was.  But a model that was unpickled and could not be moved to
    the device stays in the engine, which is assigned before the move: the
    load says no once, and from then on every load step finds that model
    and returns at once. *)
Theorem voice_loaded_once
  (host : Host) (self : SileroTTS) (text : string) (blocking : bool)
  (w : World) :
  let self' := snd (fst (TTS.speak host self text blocking w)) in
  let w' := snd (TTS.speak host self text blocking w) in
  (fst (fst (TTS.ensure_loaded host self w)) = Ok true ->
   model self' <> None /\
   forall host' w2, TTS.ensure_loaded host' self' w2 = (Ok true, self', w2)) /\
  (fst (fst (TTS.ensure_loaded host self w)) = Ok false ->
   model self = None /\
   fst (fst (TTS.speak host self text blocking w)) = Ok tt /\
   device w' = device w /\
   hd "" (stdout w') = "[TTS] No model." /\
   (fst (TTS.download_model host self w) = Ok false -> self' = self) /\
   (forall e, load_pickle host = Raise e -> self' = self) /\
   (self' = self \/
    exists m e,
      load_pickle host = Ok m /\ to_device m = Raise e /\
      self' = TTS.with_model self m)) /\
  (forall m e,
      model self = None ->
      fst (TTS.download_model host self w) = Ok true ->
      load_pickle host = Ok m -> to_device m = Raise e ->
      fst (fst (TTS.ensure_loaded host self w)) = Ok false /\
      self' = TTS.with_model self m /\
      forall host' w2,
        TTS.ensure_loaded host' self' w2 = (Ok true, self', w2)).
Proof.
  cbv zeta.
  assert (Hfound : forall engine : SileroTTS,
             model engine <> None ->
             forall host' w2,
               TTS.ensure_loaded host' engine w2 = (Ok true, engine, w2)).
  { intros engine Hm host' w2. unfold TTS.ensure_loaded.
    destruct (model engine); [reflexivity|contradiction]. }
  assert (Hno : fst (fst (TTS.ensure_loaded host self w)) = Ok false ->
                snd (fst (TTS.speak host self text blocking w))
                = snd (fst (TTS.ensure_loaded host self w))).
  { intros Hfail.
    now destruct (TTSMore.speak_no_model host self text blocking w Hfail)
      as (_ & H & _). }
  repeat apply conj.
  - intros Hok.
    destruct (TTSMore.speak_engine host self text blocking w)
      as (flag & -> & _ & _).
    pose proof (TTSFacts.voice_ensure_loaded host self w Hok) as Hm.
    revert Hm. generalize (snd (fst (TTS.ensure_loaded host self w))).
    intros self1 Hm.
    assert (Hm' : model (TTS.set_playback_active self1 flag) <> None)
      by exact Hm.
    split; [exact Hm'|]. now apply Hfound.
  - intros Hfail.
    destruct (TTSMore.ensure_loaded_unloaded host self w Hfail)
      as (Hnone & Hcases & Hdown & Hpickle).
    destruct (TTSMore.speak_no_model host self text blocking w Hfail)
      as (Hr & _ & Hout).
    destruct (TTSFacts.speak_without_audio host self text blocking w)
      as [Hdev _]; [left; rewrite Hfail; discriminate|].
    rewrite (Hno Hfail).
    repeat apply conj; assumption.
  - intros m e Hnone Hdown Hpickle Hto.
    destruct (TTSMore.ensure_loaded_unmoved host self w m e
                Hnone Hdown Hpickle Hto) as [Hfail Heng].
    rewrite (Hno Hfail), Heng.
    repeat apply conj; [exact Hfail|reflexivity|].
    apply Hfound. discriminate.
Qed.

Lemma voice_loaded_once_witness :
  model (snd (fst (TTS.speak (host_with (Ok (llama_of (Ok three_chunks)))
                                        (Ok tone) never)
                             (TTS.init quiet) "Mind the gap" true
                             empty_world)))
  <> None /\
  snd (fst (TTS.speak (host_with (Ok (llama_of (Ok three_chunks)))
                                 (Raise "v3_en.pt is corrupt") never)
                      (TTS.init quiet) "Mind the gap" true empty_world))
  = TTS.init quiet /\
  snd (fst (TTS.speak (host_with (Ok (llama_of (Ok three_chunks)))
                                 (Ok unmoved) never)
                      (TTS.init quiet) "Mind the gap" true empty_world))
  = TTS.with_model (TTS.init quiet) unmoved.
Proof.
  repeat apply conj.
  - apply (voice_loaded_once
             (host_with (Ok (llama_of (Ok three_chunks))) (Ok tone) never)
             (TTS.init quiet) "Mind the gap" true empty_world).
    reflexivity.
  - destruct (voice_loaded_once
                (host_with (Ok (llama_of (Ok three_chunks)))
                           (Raise "v3_en.pt is corrupt") never)
                (TTS.init quiet) "Mind the gap" true empty_world)
      as (_ & H & _).
    destruct (H eq_refl) as (_ & _ & _ & _ & _ & Hpickle & _).
    apply (Hpickle "v3_en.pt is corrupt"). reflexivity.
  - destruct (voice_loaded_once
                (host_with (Ok (llama_of (Ok three_chunks)))
                           (Ok unmoved) never)
                (TTS.init quiet) "Mind the gap" true empty_world)
      as (_ & _ & H).
    now destruct (H unmoved "DefaultCPUAllocator: not enough memory"
                    eq_refl eq_refl eq_refl eq_refl) as (_ & H2 & _).
Defined.

Lemma normalize_text_returned (num2words : N -> result string) (limit : nat)
      (text : string) :
  normalize_succeeds num2words limit text = true ->
  _normalize_text num2words limit text = (normalize num2words limit text, []).
Proof.
  unfold normalize_succeeds, normalize.
  destruct (_normalize_text num2words limit text) as [out printed].
  cbn [fst snd]. destruct printed; [reflexivity|discriminate].
Qed.

(** X11.  When [_normalize_text] returns normally on a text, speaking the
    text and speaking its normalised form are the same call: the engine,
    the reports and the audio given to the device are equal. *)
Theorem speak_of_normalized_text
  (host : Host) (self : SileroTTS) (text : string) (blocking : bool)
  (w : World) :
  (forall n s, host_num2words host n = Ok s -> has_digit s = false) ->
  normalize_succeeds (host_num2words host) (host_int_max_str_digits host)
                     text = true ->
  TTS.speak host self
            (normalize (host_num2words host) (host_int_max_str_digits host)
                       text)
            blocking w
  = TTS.speak host self text blocking w.
Proof.
  intros spells Hok.
  set (normal := normalize (host_num2words host)
                           (host_int_max_str_digits host) text).
  assert (Hdigit : has_digit normal = false).
  { apply has_digit_no_digit. now apply normalize_succeeds_no_digit. }
  destruct (normalize_digit_free_text (host_num2words host)
              (host_int_max_str_digits host) normal Hdigit)
    as (Hok' & _ & _).
  assert (Hfix : normalize (host_num2words host)
                           (host_int_max_str_digits host) normal = normal)
    by now apply normalize_fixed.
  unfold TTS.speak, TTS.say, TTS._normalize_text.
  rewrite (normalize_text_returned _ _ text Hok).
  rewrite (normalize_text_returned _ _ normal Hok'), Hfix.
  reflexivity.
Qed.

Lemma speak_of_normalized_text_witness :
  TTS.speak (host_with (Ok (llama_of (Ok three_chunks))) (Ok tone) never)
            (TTS.init quiet)
            "Train two thousand, four hundred and twenty six departs twenty one five"
            true empty_world
  = TTS.speak (host_with (Ok (llama_of (Ok three_chunks))) (Ok tone) never)
              (TTS.init quiet) "Train 2426 departs 21:05" true empty_world.
Proof.
  exact (speak_of_normalized_text
           (host_with (Ok (llama_of (Ok three_chunks))) (Ok tone) never)
           (TTS.init quiet) "Train 2426 departs 21:05" true empty_world
           Num2WordsFacts.num2words_spells eq_refl).
Defined.

(** ** main.py: the announcement loop, the start and the board *)

Module MainMore.
Import Main.

Lemma announce_from_bounds (host : Host) (batch : list TrainData) :
  forall i total self w r self' w',
    announce_from host i total batch self w = (r, self', w') ->
    naps w' <= naps w + List.length batch /\
    List.length (announcements w')
    <= List.length (announcements w) + List.length batch /\
    completions w' <= completions w + List.length batch /\
    trains self' = trains self.
Proof.
  induction batch as [|train rest IH]; intros i total self w r self' w' H.
  - injection H as <- <- <-. cbn. repeat split; lia.
  - cbn [announce_from] in H. unfold read_should_stop in H.
    destruct (should_stop host (flag_reads w)).
    { injection H as <- <- <-. world. cbn [List.length].
      repeat split; lia. }
    destruct (llm_generator self) as [gen|].
    2:{ injection H as <- <- <-. world. cbn [List.length].
        repeat split; lia. }
    match type of H with
    | context [Generator.generate_announcement host gen train ?cb ?w1] =>
        pose proof (generate_announcement_budget host gen train cb w1) as Hb;
        destruct (Generator.generate_announcement host gen train cb w1)
          as [[generated gen'] w2]
    end.
    cbv zeta in Hb. cbn [snd] in Hb.
    destruct Hb as (Hcompl & _ & _ & _ & Hd & _).
    unfold display in Hd. world. injection Hd as Hn2 Ha2 _.
    destruct generated as [text|e].
    2:{ injection H as <- <- <-. world. cbn [List.length].
        repeat split; try lia. rewrite Ha2. lia. }
    destruct (should_stop host (flag_reads w2)).
    { injection H as <- <- <-. world. cbn [List.length].
      repeat split; try lia. rewrite Ha2. lia. }
    cbn [tts_engine with_generator] in H.
    destruct (tts_engine self) as [tts|].
    2:{ injection H as <- <- <-. world. cbn [List.length].
        repeat split; try lia. rewrite Ha2. cbn [List.length]. lia. }
    match type of H with
    | context [TTS.speak host tts text true ?w3] =>
        pose proof (TTSFacts.speak_counters host tts text true w3) as Hs;
        destruct (TTS.speak host tts text true w3) as [[spoken tts'] w4]
    end.
    cbn [snd] in Hs. unfold counters in Hs. world.
    injection Hs as Hf4 Hp4 Hc4 Hn4 Ha4 _.
    destruct spoken as [u|e].
    2:{ injection H as <- <- <-. world. cbn [List.length].
        repeat split; try lia. rewrite Ha4, Ha2. cbn [List.length]. lia. }
    destruct (should_stop host (flag_reads w4)).
    { injection H as <- <- <-. world. cbn [List.length].
      repeat split; try lia. rewrite Ha4, Ha2. cbn [List.length]. lia. }
    apply IH in H. world. destruct H as (Hn & Ha & Hc & Ht).
    cbn [List.length]. repeat split; try lia.
    + rewrite Ha4, Ha2 in Ha. cbn [List.length] in Ha. lia.
    + exact Ht.
Qed.

End MainMore.

(** X12.  When the first read of the stop flag in a run already returns
    yes, the run asks the backend for nothing, pulls no chunk, shows no
    text, calls the sound device for nothing and takes no pause, whether
    the engines exist or not; and if the flag is still set at the next
    read, the run ends as stopped. *)
Theorem stop_before_first_record (host : Host) (self : App) (w : World) :
  should_stop host (flag_reads w) = true ->
  let w' := snd (Main.speak_thread host self w) in
  completions w' = completions w /\ chunks_pulled w' = chunks_pulled w /\
  announcements w' = announcements w /\ device w' = device w /\
  naps w' = naps w /\
  (should_stop host (S (flag_reads w)) = true ->
   Main.final_status w' = Main.STOPPED).
Proof.
  intros Hstop. cbv zeta. unfold Main.speak_thread.
  destruct (firstn 3 (trains self)) as [|train rest].
  - cbn [Main.announce_from]. unfold Main.read_should_stop.
    rewrite Hstop. cbn [snd]. world.
    repeat apply conj; try reflexivity.
  - cbn [Main.announce_from]. unfold Main.read_should_stop. rewrite Hstop.
    world. cbn [snd].
    destruct (should_stop host (S (flag_reads w))); world;
      repeat apply conj; try reflexivity. discriminate.
Qed.

Lemma stop_before_first_record_witness :
  let w' :=
    snd (Main.speak_thread
           (host_with (Ok (llama_of (Ok three_chunks))) (Ok tone) always)
           (mkApp departures None None false) empty_world) in
  completions w' = 0 /\ device w' = [] /\
  Main.final_status w' = "🛑 Stopped by user".
Proof.
  destruct (stop_before_first_record
              (host_with (Ok (llama_of (Ok three_chunks))) (Ok tone) always)
              (mkApp departures None None false) empty_world eq_refl)
    as (H1 & _ & _ & H2 & _ & H3).
  split; [exact H1|]. split; [exact H2|]. apply H3. reflexivity.
Defined.

(** X13.  One run announces at most three records, however many trains are
    on the board: at most three pauses, three texts shown and three
    completion requests are added, and [self.trains] is left as it is. *)
Theorem batch_of_at_most_three (host : Host) (self : App) (w : World) :
  let self' := fst (Main.speak_thread host self w) in
  let w' := snd (Main.speak_thread host self w) in
  naps w' <= naps w + 3 /\
  List.length (announcements w') <= List.length (announcements w) + 3 /\
  completions w' <= completions w + 3 /\
  naps w' <= naps w + List.length (trains self) /\
  trains self' = trains self.
Proof.
  cbv zeta. unfold Main.speak_thread.
  destruct (Main.announce_from host 1 _ _ self w) as [[r self1] w1] eqn:E.
  apply MainMore.announce_from_bounds in E.
  destruct E as (Hn & Ha & Hc & Ht).
  assert (Hlen3 : List.length (firstn 3 (trains self)) <= 3
                  /\ List.length (firstn 3 (trains self))
                     <= List.length (trains self)).
  { rewrite length_firstn. lia. }
  assert (Hw : forall w2,
             naps w2 = naps w1 -> announcements w2 = announcements w1 ->
             completions w2 = completions w1 ->
             naps w2 <= naps w + 3 /\
             List.length (announcements w2)
             <= List.length (announcements w) + 3 /\
             completions w2 <= completions w + 3 /\
             naps w2 <= naps w + List.length (trains self)).
  { intros w2 -> -> ->. repeat split; lia. }
  destruct r as [u|e]; cbn [fst snd].
  - unfold Main.read_should_stop.
    destruct (should_stop host (flag_reads w1));
      (destruct (Hw (Main._set_status Main.STOPPED (tick_flag w1)))
        as (H1 & H2 & H3 & H4); [reflexivity..|]);
      repeat split; assumption.
  - destruct (Hw (Main._set_status ("❌ Error: " ++ e) w1))
      as (H1 & H2 & H3 & H4); [reflexivity..|].
    repeat split; assumption.
Qed.

(** X14.  With both engines in place and a stop flag that stays set once
    it is set, a run ends as stopped exactly when one of its reads of the
    flag returned yes; and a run that ends as completed has gone through
    every record of the batch. *)
Theorem stopped_iff_stop_was_read (host : Host) (self : App) (w : World) :
  llm_generator self <> None -> tts_engine self <> None ->
  (forall i j, i <= j -> should_stop host i = true ->
               should_stop host j = true) ->
  let w' := snd (Main.speak_thread host self w) in
  ((exists k, flag_reads w <= k < flag_reads w' /\
              should_stop host k = true)
   <-> Main.final_status w' = Main.STOPPED) /\
  (Main.final_status w' = Main.COMPLETED ->
   naps w' = naps w + List.length (firstn 3 (trains self))).
Proof.
  intros Hgen Htts Hmono.
  destruct (speak_thread_outcome host self w Hgen Htts)
    as (r & self1 & w1 & _ & Hle & Hr).
  cbv zeta. destruct r as [u|e].
  - destruct Hr as [Hout ->].
    cbn [snd]. unfold Main.final_status. world. cbn [hd].
    split; [split|].
    + intros (k & Hk & Hstop).
      rewrite (Hmono k (flag_reads w1)) by (lia || exact Hstop).
      reflexivity.
    + destruct (should_stop host (flag_reads w1)) eqn:E; [|discriminate].
      intros _. exists (flag_reads w1). split; [lia|exact E].
    + destruct Hout as [[Hnaps _]|(k & Hk & Hstop & _ & _)].
      * intros _. exact Hnaps.
      * rewrite (Hmono k (flag_reads w1)) by (lia || exact Hstop).
        discriminate.
  - destruct Hr as (_ & Hlt & Hlast & _ & ->).
    cbn [snd]. unfold Main.final_status. world. cbn [hd].
    destruct (error_status_not_stopped e) as [H1 H2].
    split; [split|].
    + intros (k & Hk & Hstop). exfalso.
      rewrite (Hmono k (pred (flag_reads w1))) in Hlast
        by (lia || exact Hstop).
      discriminate.
    + intros H. contradiction.
    + intros H. contradiction.
Qed.

Lemma stopped_iff_stop_was_read_witness :
  Main.final_status
    (snd (Main.speak_thread
            (host_with (Ok (llama_of (Ok three_chunks))) (Ok tone)
                       (set_after 6))
            (app_ready (Some (llama_of (Ok three_chunks)))) empty_world))
  = Main.STOPPED.
Proof.
  destruct (stopped_iff_stop_was_read
              (host_with (Ok (llama_of (Ok three_chunks))) (Ok tone)
                         (set_after 6))
              (app_ready (Some (llama_of (Ok three_chunks)))) empty_world)
    as [[H _] _].
  - discriminate.
  - discriminate.
  - intros i j Hij. unfold host_with, set_after. cbn [should_stop].
    intros Hi. apply Nat.leb_le in Hi. apply Nat.leb_le. lia.
  - apply H. exists 6. split; [|reflexivity]. vm_compute. lia.
Defined.

Module StartupFacts.
Import Startup.




End StartupFacts.



(** ** train_data.py *)

Module TrainGenFacts.
Import TrainGen.

Lemma randint_range (a b : Z) (r : Random) :
  (a <= b)%Z -> (a <= fst (randint a b r) <= b)%Z.
Proof.
  intros H. unfold randint, draw. cbn [fst].
  pose proof (Z.mod_pos_bound (Z.of_N (raw r (drawn r))) (b - a + 1)).
  lia.
Qed.

Lemma choice_in {A : Type} (default : A) (seq : list A) (r : Random) :
  seq <> [] -> In (fst (choice default seq r)) seq.
Proof.
  intros Hne. unfold choice, draw. cbn [fst]. apply nth_In.
  assert (0 < List.length seq) by (destruct seq; [contradiction|cbn; lia]).
  pose proof (N.mod_upper_bound (raw r (drawn r))
                (N.of_nat (List.length seq))). lia.
Qed.

Lemma nth_list_set {A : Type} (default x : A) (l : list A) :
  forall j k,
    k < List.length l ->
    nth k (list_set j x l) default
    = if k =? j then x else nth k l default.
Proof.
  induction l as [|y l IH]; intros j k Hk; [cbn in Hk; lia|].
  destruct j as [|j], k as [|k]; cbn [list_set nth Nat.eqb]; try reflexivity.
  apply IH. cbn in Hk. lia.
Qed.

Lemma sample2_distinct {A : Type} (default : A) (population : list A)
      (r : Random) :
  NoDup population -> 2 <= List.length population ->
  let '(a, b) := fst (sample2 default population r) in
  In a population /\ In b population /\ a <> b.
Proof.
  intros Hnd Hlen. unfold sample2, draw. cbn [fst raw drawn].
  set (n := List.length population) in *.
  set (i := N.to_nat (raw r (drawn r) mod N.of_nat n)).
  assert (Hi : i < n).
  { subst i. pose proof (N.mod_upper_bound (raw r (drawn r)) (N.of_nat n)).
    lia. }
  set (j := N.to_nat (raw r (S (drawn r)) mod N.of_nat (n - 1))).
  assert (Hj : j < n - 1).
  { subst j.
    pose proof (N.mod_upper_bound (raw r (S (drawn r))) (N.of_nat (n - 1))).
    lia. }
  rewrite nth_list_set by (fold n; lia).
  pose proof (proj1 (NoDup_nth population default) Hnd) as Hinj.
  fold n in Hinj.
  destruct (Nat.eqb_spec j i) as [Heq|Hne].
  - repeat split; try (apply nth_In; fold n; lia).
    intros H. apply Hinj in H; lia.
  - repeat split; try (apply nth_In; fold n; lia).
    intros H. apply Hinj in H; lia.
Qed.

Lemma generate_delay_range (r : Random) :
  (0 <= fst (generate_delay r) <= 60)%Z.
Proof.
  unfold generate_delay.
  destruct (random r) as [u r1].
  destruct (u <? double_0_6)%N; cbn [fst]; [lia|].
  destruct (random r1) as [v r2].
  destruct (v <? double_0_85)%N.
  - pose proof (randint_range 1 15 r2). lia.
  - pose proof (randint_range 16 60 r2). lia.
Qed.

Lemma generate_departure_time_spec (now base : datetime) (r : Random) :
  valid_time base ->
  let d := fst (generate_departure_time now (Some base) r) in
  valid_time d /\ second d = 0%Z /\ microsecond d = 0%Z /\
  (minute d mod 5 = 0)%Z /\
  (minutes_since base + 1 <= minutes_since d <= minutes_since base + 120)%Z.
Proof.
  intros (Hh & Hm & Hs & Hu). unfold generate_departure_time.
  pose proof (randint_range 5 120 r) as Hr.
  destruct (randint 5 120 r) as [ahead r1]. cbn [fst] in *.
  unfold valid_time, minutes_since, replace_minute, add_minutes.
  cbn [day hour minute second microsecond].
  set (total := (hour base * 60 + minute base + ahead)%Z).
  assert (Htotal : (5 <= total <= 1559)%Z) by (subst total; lia).
  assert (Hsum : (total = hour base * 60 + minute base + ahead)%Z)
    by reflexivity.
  clearbody total.
  repeat apply conj; try lia; Z.div_mod_to_equations; lia.
Qed.

Lemma two_digits_below_100 : forallb two_digits_ok (seq 0 100) = true.
Proof. vm_compute. reflexivity. Qed.

Lemma two_digits_spec (n : Z) :
  (0 <= n < 100)%Z ->
  exists a b,
    two_digits n = String a (String b "") /\
    is_digit a = true /\ is_digit b = true /\
    value (String a (String b "")) = Z.to_N n.
Proof.
  intros Hn.
  assert (Hin : In (Z.to_nat n) (seq 0 100)) by (apply in_seq; lia).
  pose proof (proj1 (forallb_forall _ _) two_digits_below_100 _ Hin) as H.
  unfold two_digits_ok in H. rewrite Z2Nat.id in H by lia.
  destruct (two_digits n) as [|a [|b [|c s]]]; try discriminate H.
  apply andb_true_iff in H as [H Hv].
  apply andb_true_iff in H as [Ha Hb].
  exists a, b. repeat split; try assumption.
  apply N.eqb_eq in Hv. rewrite Hv. lia.
Qed.

Lemma strftime_is_a_time (dt : datetime) :
  valid_time dt ->
  exists h1 h2 m1 m2,
    strftime_HM dt
    = String h1 (String h2 (String ":" (String m1 (String m2 "")))) /\
    is_digit h1 = true /\ is_digit h2 = true /\
    is_digit m1 = true /\ is_digit m2 = true /\
    value (String h1 (String h2 "")) = Z.to_N (hour dt) /\
    value (String m1 (String m2 "")) = Z.to_N (minute dt).
Proof.
  intros (Hh & Hm & _). unfold strftime_HM.
  destruct (two_digits_spec (hour dt)) as (h1 & h2 & -> & ? & ? & ?);
    [lia|].
  destruct (two_digits_spec (minute dt)) as (m1 & m2 & -> & ? & ? & ?);
    [lia|].
  exists h1, h2, m1, m2. repeat split; assumption.
Qed.

(** *** The stable sort by a text key *)

Section SortBy.
Context {A : Type} (key : A -> string).

Local Abbreviation key_le :=
  (fun a b : A => String.leb (key a) (key b) = true).

Lemma ltb_leb (s t : string) : String.ltb s t = true -> String.leb s t = true.
Proof.
  unfold String.ltb, String.leb. now destruct (String.compare s t).
Qed.

Lemma not_ltb_leb (s t : string) :
  String.ltb s t = false -> String.leb t s = true.
Proof.
  unfold String.ltb, String.leb. rewrite (String.compare_antisym t s).
  now destruct (String.compare s t).
Qed.

Lemma insert_by_hd (x y : A) (l : list A) :
  key_le y x -> HdRel key_le y l -> HdRel key_le y (insert_by key x l).
Proof.
  intros Hyx Hl. destruct l as [|z l]; cbn.
  - now constructor.
  - destruct (String.ltb (key x) (key z)); constructor; [exact Hyx|].
    now inversion Hl.
Qed.

Lemma insert_by_sorted (x : A) (l : list A) :
  Sorted key_le l -> Sorted key_le (insert_by key x l).
Proof.
  induction l as [|y l IH]; intros Hs; cbn.
  - repeat constructor.
  - destruct (String.ltb (key x) (key y)) eqn:E.
    + constructor; [exact Hs|]. constructor. now apply ltb_leb.
    + inversion Hs as [|? ? Hl Hhd]; subst.
      constructor; [now apply IH|].
      apply insert_by_hd; [now apply not_ltb_leb|exact Hhd].
Qed.

Lemma insert_by_perm (x : A) (l : list A) :
  Permutation (insert_by key x l) (x :: l).
Proof.
  induction l as [|y l IH]; cbn; [reflexivity|].
  destruct (String.ltb (key x) (key y)); [reflexivity|].
  rewrite IH. apply perm_swap.
Qed.

Lemma sort_from_sorted (l acc : list A) :
  Sorted key_le acc ->
  Sorted key_le (fold_left (fun sorted x => insert_by key x sorted) l acc) /\
  Permutation (fold_left (fun sorted x => insert_by key x sorted) l acc)
              (acc ++ l).
Proof.
  revert acc. induction l as [|x l IH]; intros acc Hs; cbn.
  - split; [exact Hs|]. now rewrite app_nil_r.
  - destruct (IH (insert_by key x acc) (insert_by_sorted x acc Hs))
      as [Hsorted Hperm].
    split; [exact Hsorted|]. rewrite Hperm, insert_by_perm.
    apply Permutation_middle.
Qed.

(** Elements with equal keys keep the order they came in. *)
Lemma insert_by_after_equals (x : A) (l : list A) :
  Forall (fun y => String.leb (key y) (key x) = true) l ->
  insert_by key x l = (l ++ [x])%list.
Proof.
  induction l as [|y l IH]; intros H; [reflexivity|].
  inversion H as [|? ? Hy Hl]; subst. cbn.
  assert (E : String.ltb (key x) (key y) = false).
  { unfold String.ltb, String.leb in *.
    rewrite (String.compare_antisym (key x) (key y)).
    now destruct (String.compare (key y) (key x)). }
  rewrite E. now rewrite IH.
Qed.

End SortBy.

Lemma stations_differ : NoDup STATIONS.
Proof.
  unfold STATIONS.
  repeat (constructor; [cbn; intuition discriminate|]). constructor.
Qed.

Lemma generate_departure_well_formed (base : datetime) (r : Random) :
  valid_time base ->
  well_formed_departure (fst (generate_departure base r)).
Proof.
  intros Hbase. unfold generate_departure.
  pose proof (choice_in ("", "") TRAIN_TYPES r ltac:(discriminate)) as Hty.
  destruct (choice ("", "") TRAIN_TYPES r) as [[ty op] r1]. cbn [fst] in Hty.
  unfold generate_route.
  pose proof (sample2_distinct "" STATIONS r1 stations_differ
                ltac:(cbn; lia)) as Hroute.
  destruct (sample2 "" STATIONS r1) as [[start finish] r2].
  cbn [fst] in Hroute. destruct Hroute as (Hstart & Hfinish & Hdiff).
  pose proof (generate_departure_time_spec base base r2 Hbase) as Htime.
  destruct (generate_departure_time base (Some base) r2) as [dep r3].
  cbn [fst] in Htime. cbv zeta in Htime.
  destruct Htime as ((Hh & Hm & _) & _ & _ & Hfive & _).
  pose proof (generate_delay_range r3) as Hdelay.
  destruct (generate_delay r3) as [delay r4]. cbn [fst] in Hdelay.
  pose proof (randint_range 1 20 r4 ltac:(lia)) as Hplat.
  destruct (randint 1 20 r4) as [plat r5]. cbn [fst] in Hplat.
  pose proof (randint_range 1 4 r5 ltac:(lia)) as Htrack.
  destruct (randint 1 4 r5) as [some_track r6]. cbn [fst] in Htrack.
  pose proof (choice_in None [None; Some some_track] r6 ltac:(discriminate))
    as Hchoice.
  destruct (choice None [None; Some some_track] r6) as [tr r7].
  cbn [fst] in Hchoice.
  unfold generate_train_number.
  pose proof (randint_range 10 9999 r7 ltac:(lia)) as Hnum.
  destruct (randint 10 9999 r7) as [number r8]. cbn [fst] in Hnum.
  unfold well_formed_departure.
  destruct (4 <? String.length ty) eqn:Elen; cbn [fst];
    cbn [train_number train_type operator origin destination scheduled_time
         delay_minutes platform track is_delayed];
    (repeat apply conj; try assumption; try lia;
     [ destruct Hchoice as [<-|[<-|[]]];
       [now left|right; now exists some_track]
     | exists number; split; [lia|now rewrite Elen]
     | exists (hour dep), (minute dep); repeat split; try lia ]).
Qed.

Lemma generate_departures_spec (count : nat) (base : datetime) :
  valid_time base ->
  forall r,
    List.length (fst (generate_departures count base r)) = count /\
    Forall well_formed_departure (fst (generate_departures count base r)).
Proof.
  intros Hbase. induction count as [|n IH]; intros r;
    cbn [generate_departures].
  - split; [reflexivity|constructor].
  - pose proof (generate_departure_well_formed base r Hbase) as Hwf.
    destruct (generate_departure base r) as [t r1]. cbn [fst] in Hwf.
    specialize (IH r1).
    destruct (generate_departures n base r1) as [ts r2].
    cbn [fst] in *. destruct IH as [Hlen Hall].
    split; [cbn [List.length]; now f_equal|now constructor].
Qed.

(** *** Decimal texts *)

Lemma uint_digits (d : Decimal.uint) :
  forall_chars is_digit (NilEmpty.string_of_uint d) = true.
Proof. induction d; cbn; try reflexivity; exact IHd. Qed.

Lemma nilzero_uint_digits (d : Decimal.uint) :
  forall_chars is_digit (NilZero.string_of_uint d) = true.
Proof. destruct d; try reflexivity; apply (uint_digits (_ d)). Qed.

Lemma forall_chars_weaken (p q : ascii -> bool) (s : string) :
  (forall c, p c = true -> q c = true) ->
  forall_chars p s = true -> forall_chars q s = true.
Proof.
  intros Hpq. induction s as [|c s IH]; [reflexivity|].
  cbn. intros H. apply andb_true_iff in H as [Hc Hs].
  now rewrite (Hpq c Hc), IH.
Qed.

Lemma str_of_Z_chars (z : Z) :
  forall_chars sign_or_digit (str_of_Z z) = true.
Proof.
  unfold str_of_Z, NilZero.string_of_int.
  assert (Hd : forall d, forall_chars sign_or_digit (NilZero.string_of_uint d)
                         = true).
  { intros d. apply (forall_chars_weaken is_digit); [|apply nilzero_uint_digits].
    intros c Hc. unfold sign_or_digit. now rewrite Hc. }
  destruct (Z.to_int z); [apply Hd|].
  change (forall_chars sign_or_digit (String "-" (NilZero.string_of_uint d)))
    with (sign_or_digit "-" && forall_chars sign_or_digit
                                 (NilZero.string_of_uint d)).
  now rewrite Hd.
Qed.

Lemma str_of_Z_inj (a b : Z) : str_of_Z a = str_of_Z b -> a = b.
Proof.
  unfold str_of_Z. intros H.
  assert (Hnil : forall z, Z.to_int z <> Decimal.Pos Decimal.Nil /\
                           Z.to_int z <> Decimal.Neg Decimal.Nil).
  { intros [|p|p]; cbn; split; try discriminate;
      intros [= Hp]; now apply (Unsigned.to_uint_nonnil p). }
  apply DecimalZ.to_int_inj.
  assert (Some (Z.to_int a) = Some (Z.to_int b)) as [= ->]; [|reflexivity].
  rewrite <- (NilZero.isi (Z.to_int a)) by apply Hnil.
  rewrite <- (NilZero.isi (Z.to_int b)) by apply Hnil.
  now rewrite H.
Qed.

(** A text that starts with characters other than the first of [sub] has
    [sub] in it only after them. *)
Lemma contains_after (c0 : ascii) (sub0 pre rest : string) :
  forall_chars (fun c => negb (Ascii.eqb c c0)) pre = true ->
  contains (String c0 sub0) (pre ++ rest) = contains (String c0 sub0) rest.
Proof.
  induction pre as [|c pre IH]; [reflexivity|].
  intros H. apply andb_true_iff in H as [Hc Hpre].
  change (String c pre ++ rest) with (String c (pre ++ rest)).
  rewrite contains_unfold. rewrite (IH Hpre).
  cbn [prefix]. destruct (ascii_dec c0 c) as [->|Hne].
  - rewrite Ascii.eqb_refl in Hc. discriminate.
  - reflexivity.
Qed.

Lemma append_nothing (s : string) : s ++ "" = s.
Proof. induction s as [|c s IH]; cbn; [|rewrite IH]; reflexivity. Qed.

Lemma str_of_Z_without (c0 : ascii) (z : Z) :
  sign_or_digit c0 = false ->
  forall_chars (fun c => negb (Ascii.eqb c c0)) (str_of_Z z) = true.
Proof.
  intros Hc0. apply (forall_chars_weaken sign_or_digit);
    [|apply str_of_Z_chars].
  intros c Hc. destruct (Ascii.eqb_spec c c0) as [->|]; [congruence|easy].
Qed.

(** Two texts cut at their first space agree part by part. *)
Lemma split_at_space (s1 s2 r1 r2 : string) :
  forall_chars (fun c => negb (Ascii.eqb c " ")) s1 = true ->
  forall_chars (fun c => negb (Ascii.eqb c " ")) s2 = true ->
  s1 ++ String " " r1 = s2 ++ String " " r2 -> s1 = s2 /\ r1 = r2.
Proof.
  revert s2. induction s1 as [|a s1 IH]; intros [|b s2] H1 H2 H; cbn in *.
  - now injection H.
  - injection H as <- _. apply andb_true_iff in H2 as [H2 _].
    discriminate H2.
  - injection H as -> _. apply andb_true_iff in H1 as [H1 _].
    discriminate H1.
  - injection H as -> H.
    apply andb_true_iff in H1 as [_ H1]. apply andb_true_iff in H2 as [_ H2].
    destruct (IH s2 H1 H2 H) as [-> ->]. now split.
Qed.

Lemma format_delay_text_other (d : Z) :
  d <> 0%Z -> d <> 1%Z ->
  format_delay_text d = "+" ++ str_of_Z d ++ " mins".
Proof.
  intros H0 H1. unfold format_delay_text.
  destruct (Z.eqb_spec d 0); [contradiction|].
  destruct (Z.eqb_spec d 1); [contradiction|reflexivity].
Qed.

Lemma format_delay_text_inj (a b : Z) :
  format_delay_text a = format_delay_text b -> a = b.
Proof.
  assert (Hsp : forall z,
             forall_chars (fun c => negb (Ascii.eqb c " ")) (str_of_Z z)
             = true) by (intros z; now apply str_of_Z_without).
  assert (Hone : forall z, z <> 0%Z -> z <> 1%Z ->
                           "+1 min" <> format_delay_text z).
  { intros z H0 H1 H. rewrite (format_delay_text_other z H0 H1) in H.
    injection H as H.
    destruct (split_at_space "1" (str_of_Z z) "min" "mins" eq_refl (Hsp z) H)
      as [_ Hrest].
    discriminate Hrest. }
  destruct (Z.eq_dec a 0) as [->|Ha0]; destruct (Z.eq_dec b 0) as [->|Hb0];
    try reflexivity.
  - destruct (Z.eq_dec b 1) as [->|Hb1]; [discriminate|].
    rewrite (format_delay_text_other b Hb0 Hb1). discriminate.
  - destruct (Z.eq_dec a 1) as [->|Ha1]; [discriminate|].
    rewrite (format_delay_text_other a Ha0 Ha1). discriminate.
  - destruct (Z.eq_dec a 1) as [->|Ha1]; destruct (Z.eq_dec b 1) as [->|Hb1];
      try reflexivity.
    + intros H. now destruct (Hone b Hb0 Hb1).
    + intros H. symmetry in H. now destruct (Hone a Ha0 Ha1).
    + rewrite (format_delay_text_other a Ha0 Ha1),
        (format_delay_text_other b Hb0 Hb1).
      intros [= H].
      destruct (split_at_space _ _ _ _ (Hsp a) (Hsp b) H) as [Hab _].
      now apply str_of_Z_inj.
Qed.

(** The text of a delay has neither of the two foreign words in it. *)
Lemma format_delay_text_plain (d : Z) :
  contains "minut" (format_delay_text d) = false /\
  contains "planowo" (format_delay_text d) = false.
Proof.
  destruct (Z.eq_dec d 0) as [->|H0]; [split; reflexivity|].
  destruct (Z.eq_dec d 1) as [->|H1]; [split; reflexivity|].
  rewrite (format_delay_text_other d H0 H1).
  change ("+" ++ str_of_Z d ++ " mins")
    with (String "+" (str_of_Z d ++ " mins")).
  split.
  - rewrite contains_unfold. cbn [prefix]. cbn [orb].
    destruct (ascii_dec "m" "+"); [discriminate|].
    now rewrite contains_after by now apply str_of_Z_without.
  - rewrite contains_unfold. cbn [prefix]. cbn [orb].
    destruct (ascii_dec "p" "+"); [discriminate|].
    now rewrite contains_after by now apply str_of_Z_without.
Qed.

End TrainGenFacts.

(** ** train_data.py *)

(** X16.  The texts of [format_delay_text] tell the delays apart: different
    numbers of minutes give different texts, and the text is [On Time] for
    no delay but [0]. *)
Theorem delay_texts_tell_delays_apart :
  (forall d, TrainGen.format_delay_text d = "On Time" <-> d = 0%Z) /\
  (forall a b,
      TrainGen.format_delay_text a = TrainGen.format_delay_text b -> a = b).
Proof.
  split.
  - intros d. split.
    + intros H. now apply TrainGenFacts.format_delay_text_inj.
    + now intros ->.
  - apply TrainGenFacts.format_delay_text_inj.
Qed.

(** X17.  [generate_delay] gives a whole number of minutes from 0 to 60.
    It is 0 exactly when the first [random.random()] is below [0.6], and
    then one number was drawn; otherwise three were: the comparison with
    [0.85] draws anew. *)
Theorem generate_delay_bounds (r : Random) :
  let d := fst (TrainGen.generate_delay r) in
  let r' := snd (TrainGen.generate_delay r) in
  (0 <= d <= 60)%Z /\
  (d = 0%Z <-> (fst (TrainGen.random r) < TrainGen.double_0_6)%N) /\
  raw r' = raw r /\
  drawn r' = (if (d =? 0)%Z then 1 else 3) + drawn r.
Proof.
  unfold TrainGen.generate_delay, TrainGen.random, TrainGen.randint,
    TrainGen.draw.
  cbn [fst snd raw drawn].
  destruct (N.ltb_spec (raw r (drawn r) mod 2 ^ 53) TrainGen.double_0_6)
    as [Hlt|Hge]; cbn [fst snd raw drawn].
  - repeat apply conj; try reflexivity; try lia.
  - destruct (N.ltb_spec (raw r (S (drawn r)) mod 2 ^ 53)
                TrainGen.double_0_85);
      cbn [fst snd raw drawn].
    + assert (H15 : (1 <= 1 + Z.of_N (raw r (S (S (drawn r)))) mod 15 <= 15)%Z)
        by (pose proof (Z.mod_pos_bound
                          (Z.of_N (raw r (S (S (drawn r))))) 15 eq_refl);
            lia).
      change (15 - 1 + 1)%Z with 15%Z.
      repeat apply conj; try reflexivity; try lia.
      destruct (Z.eqb_spec
                  (1 + Z.of_N (raw r (S (S (drawn r)))) mod 15) 0);
        [lia|reflexivity].
    + assert (H45 :
               (16 <= 16 + Z.of_N (raw r (S (S (drawn r)))) mod 45 <= 60)%Z)
        by (pose proof (Z.mod_pos_bound
                          (Z.of_N (raw r (S (S (drawn r))))) 45 eq_refl);
            lia).
      change (60 - 16 + 1)%Z with 45%Z.
      repeat apply conj; try reflexivity; try lia.
      destruct (Z.eqb_spec
                  (16 + Z.of_N (raw r (S (S (drawn r)))) mod 45) 0);
        [lia|reflexivity].
Qed.

(** X18.  [generate_departure_time] returns a time of day on a multiple of
    five minutes, with no seconds left, that lies at least one minute and
    at most two hours after the minute of the base time; without a base
    time the clock gives it.  At least five minutes are drawn; rounding
    down takes back up to four of them. *)
Theorem departure_time_rounded_ahead
  (now : datetime) (base_time : option datetime) (r : Random) :
  let base := match base_time with Some t => t | None => now end in
  valid_time base ->
  let d := fst (TrainGen.generate_departure_time now base_time r) in
  valid_time d /\ second d = 0%Z /\ microsecond d = 0%Z /\
  (minute d mod 5 = 0)%Z /\
  (minutes_since base + 1 <= minutes_since d <= minutes_since base + 120)%Z.
Proof.
  destruct base_time as [t|]; intros base Hbase.
  - exact (TrainGenFacts.generate_departure_time_spec now t r Hbase).
  - exact (TrainGenFacts.generate_departure_time_spec now now r Hbase).
Qed.

Lemma departure_time_rounded_ahead_witness :
  fst (TrainGen.generate_departure_time
         (mkDatetime 7 23 59 30 250) None (mkRandom (fun _ => 0%N) 0))
  = mkDatetime 8 0 0 0 0 /\
  (minutes_since (mkDatetime 7 23 59 30 250) + 1
   <= minutes_since
        (fst (TrainGen.generate_departure_time
                (mkDatetime 7 23 59 30 250) None
                (mkRandom (fun _ => 0%N) 0))))%Z.
Proof.
  split; [reflexivity|].
  assert (Hnow : valid_time (mkDatetime 7 23 59 30 250))
    by (unfold valid_time; cbn; lia).
  destruct (departure_time_rounded_ahead
              (mkDatetime 7 23 59 30 250) None (mkRandom (fun _ => 0%N) 0)
              Hnow) as (_ & _ & _ & _ & H & _).
  exact H.
Defined.

(** X19.  [generate_route] returns two stations of [STATIONS], and they are
    different. *)
Theorem generate_route_two_stations (r : Random) :
  let '(start, finish) := fst (TrainGen.generate_route r) in
  In start TrainGen.STATIONS /\ In finish TrainGen.STATIONS /\
  start <> finish.
Proof.
  apply (TrainGenFacts.sample2_distinct "" TrainGen.STATIONS r).
  - apply TrainGenFacts.stations_differ.
  - cbn. lia.
Qed.

Lemma generated_departures_in_order
  (now : datetime) (count : nat) (r : Random) :
  valid_time now ->
  let departures := fst (TrainGen.generate_train_departures now count r) in
  List.length departures = count /\
  Sorted by_time departures /\
  Permutation departures (fst (TrainGen.generate_departures count now r)) /\
  Forall well_formed_departure departures.
Proof.
  intros Hnow. unfold TrainGen.generate_train_departures.
  destruct (TrainGenFacts.generate_departures_spec count now Hnow r)
    as [Hlen Hall].
  destruct (TrainGen.generate_departures count now r) as [generated r1].
  cbn [fst] in *.
  destruct (TrainGenFacts.sort_from_sorted scheduled_time generated []
              (Sorted_nil _)) as [Hsorted Hperm].
  cbn [app] in Hperm. fold (TrainGen.sort_by scheduled_time generated) in *.
  repeat apply conj.
  - rewrite <- Hlen. now apply Permutation_length.
  - exact Hsorted.
  - exact Hperm.
  - apply (Permutation_Forall (Permutation_sym Hperm) Hall).
Qed.

(** X20.  [generate_train_departures(count)] returns [count] records, the
    ones of its loop put in the order of their scheduled times as [str]
    compares them.  In every record the type and operator are a pair of
    [TRAIN_TYPES], origin and destination are different stations, the delay
    is from 0 to 60 and [is_delayed] says whether it is positive, the
    platform is from 1 to 20, the track is [None] or from 1 to 4, the train
    number ends in a number from 10 to 9999, and the scheduled time is
    [HH:MM] with a minute that is a multiple of five. *)
Theorem generate_train_departures_sorted
  (now : datetime) (count : nat) (r : Random) :
  valid_time now ->
  let departures := fst (TrainGen.generate_train_departures now count r) in
  List.length departures = count /\
  Sorted by_time departures /\
  Permutation departures (fst (TrainGen.generate_departures count now r)) /\
  Forall well_formed_departure departures.
Proof. apply generated_departures_in_order. Qed.

Lemma generate_train_departures_sorted_witness :
  map scheduled_time
      (fst (TrainGen.generate_train_departures
              (mkDatetime 0 23 10 0 0) 3
              (mkRandom (fun i => N.of_nat (17 * i + 5 * (i / 8) * 7)) 0)))
  = ["00:05"; "00:30"; "23:20"] /\
  Sorted by_time
         (fst (TrainGen.generate_train_departures
                 (mkDatetime 0 23 10 0 0) 3
                 (mkRandom (fun i => N.of_nat (17 * i + 5 * (i / 8) * 7)) 0))).
Proof.
  split; [vm_compute; reflexivity|].
  assert (Hnow : valid_time (mkDatetime 0 23 10 0 0))
    by (unfold valid_time; cbn; lia).
  destruct (generate_train_departures_sorted
              (mkDatetime 0 23 10 0 0) 3
              (mkRandom (fun i => N.of_nat (17 * i + 5 * (i / 8) * 7)) 0)
              Hnow) as (_ & H & _).
  exact H.
Defined.

(** X21.  A scheduled time as [strftime("%H:%M")] prints it is read by
    [_normalize_text] as one time: the whole text becomes the words of the
    hour, a space and the words of the minute, hyphens turned into spaces,
    when [num2words] spells both without digits. *)
Theorem scheduled_time_is_spoken
  (num2words : N -> result string) (limit : nat) (dt : datetime)
  (wh wm : string) :
  valid_time dt ->
  num2words (Z.to_N (hour dt)) = Ok wh ->
  num2words (Z.to_N (minute dt)) = Ok wm ->
  has_digit wh = false -> has_digit wm = false ->
  normalize_succeeds num2words limit (TrainGen.strftime_HM dt) = true /\
  normalize num2words limit (TrainGen.strftime_HM dt)
  = replace_hyphens (wh ++ " " ++ wm).
Proof.
  intros Hv Hwh Hwm Dh Dm.
  destruct (TrainGenFacts.strftime_is_a_time dt Hv)
    as (h1 & h2 & m1 & m2 & E & H1 & H2 & H3 & H4 & Hh & Hm).
  rewrite <- Hh in Hwh. rewrite <- Hm in Hwm.
  assert (Ht : sub_times num2words limit (TrainGen.strftime_HM dt)
               = Ok (wh ++ " " ++ wm)).
  { rewrite E.
    rewrite (times_two_digit_hour num2words limit h1 h2 m1 m2 "" wh wm)
      by assumption.
    change (sub_times num2words limit "") with (Ok (A := string) "").
    cbn [bind]. now rewrite TrainGenFacts.append_nothing. }
  assert (Hn : sub_numbers num2words limit (wh ++ " " ++ wm)
               = Ok (wh ++ " " ++ wm)).
  { unfold sub_numbers. apply ReFacts.sub_digits_no_digit.
    apply has_digit_no_digit in Dh, Dm.
    rewrite !no_digit_app, Dh, Dm. reflexivity. }
  unfold normalize_succeeds, normalize, _normalize_text.
  rewrite Ht, Hn. split; reflexivity.
Qed.

Lemma scheduled_time_is_spoken_witness :
  normalize_en (TrainGen.strftime_HM (mkDatetime 0 21 45 0 0))
  = "twenty one forty five".
Proof.
  assert (Hv : valid_time (mkDatetime 0 21 45 0 0))
    by (unfold valid_time; cbn; lia).
  destruct (scheduled_time_is_spoken
              Num2Words.num2words default_max_str_digits
              (mkDatetime 0 21 45 0 0) "twenty-one" "forty-five" Hv
              eq_refl eq_refl eq_refl eq_refl)
    as [_ H].
  exact H.
Defined.

(** ** main.py: the departures board *)

(** X22.  The fix-up of the delay text in [_on_refresh_click] never
    applies: no text of [format_delay_text] has [minut] or [planowo] in it,
    so the delay column shows that text unchanged. *)
Theorem delay_column_is_the_delay_text (d : Z) :
  contains "minut" (TrainGen.format_delay_text d) = false /\
  contains "planowo" (TrainGen.format_delay_text d) = false /\
  Board.delay_column d = TrainGen.format_delay_text d.
Proof.
  destruct (TrainGenFacts.format_delay_text_plain d) as [Hm Hp].
  repeat apply conj; try assumption.
  unfold Board.delay_column. cbv zeta. rewrite Hm. cbv iota.
  now rewrite Hp.
Qed.

Lemma fill_rows (trains : list TrainData) :
  forall tree delayed_count,
    Board.fill trains tree delayed_count
    = ((tree ++ map Board.row_of trains)%list,
       delayed_count + List.length (filter is_delayed trains)).
Proof.
  induction trains as [|t rest IH]; intros tree k; cbn [Board.fill map filter].
  - now rewrite app_nil_r, Nat.add_0_r.
  - rewrite IH, <- app_assoc. cbn [app]. f_equal.
    destruct (is_delayed t); cbn [List.length]; lia.
Qed.

(** X23.  [_on_refresh_click] replaces the trains by eight new records in
    the order of their scheduled times and leaves the engines and the
    speaking flag alone.  The table holds one row per train in that order,
    whatever it held before; a row is tagged [ontime] exactly when its
    delay column reads [On Time], and its platform column is the platform,
    followed by a slash and the track when there is one.  Two status texts
    are shown, the second with the count of trains and of delayed ones;
    nothing else is done. *)
Theorem refresh_fills_the_board
  (now : datetime) (r : Random) (self : App) (tree : list Row) (w : World) :
  valid_time now ->
  let out := Board._on_refresh_click now r self tree w in
  let self' := fst (fst (fst out)) in
  let tree' := snd (fst (fst out)) in
  let w' := snd out in
  trains self' = fst (TrainGen.generate_train_departures now 8 r) /\
  List.length (trains self') = 8 /\
  Sorted by_time (trains self') /\
  llm_generator self' = llm_generator self /\
  tts_engine self' = tts_engine self /\
  is_speaking self' = is_speaking self /\
  tree' = map Board.row_of (trains self') /\
  Forall (fun t =>
            (row_tag (Board.row_of t) = "ontime"
             <-> col_delay (Board.row_of t) = "On Time") /\
            col_platform (Board.row_of t)
            = str_of_Z (platform t) ++
              match track t with
              | Some k => "/" ++ str_of_Z k
              | None => ""
              end) (trains self') /\
  status w'
  = ("✅ Loaded 8 trains ("
     ++ str_of_nat (List.length (filter is_delayed (trains self')))
     ++ " delayed)")
    :: "🔄 Generating random train data..." :: status w /\
  counters w' = counters w /\ device w' = device w /\ stdout w' = stdout w.
Proof.
  intros Hnow. unfold Board._on_refresh_click.
  destruct (generated_departures_in_order now 8 r Hnow)
    as (Hlen & Hsorted & _ & Hall).
  destruct (TrainGen.generate_train_departures now 8 r) as [generated r1].
  cbn [fst] in Hlen, Hsorted, Hall.
  cbn [trains]. rewrite fill_rows. cbn [fst snd trains llm_generator tts_engine
                                       is_speaking app Nat.add].
  rewrite Hlen.
  repeat apply conj; try reflexivity; try assumption.
  apply (Forall_impl _ (P := well_formed_departure)); [|exact Hall].
  intros t (_ & _ & _ & _ & Hd & Hflag & _ & Htrack & _).
  split.
  - unfold Board.row_of. cbn [row_tag col_delay].
    destruct (TrainGenFacts.format_delay_text_plain (delay_minutes t))
      as [Hm Hp].
    unfold Board.delay_column. cbv zeta. rewrite Hm. cbv iota. rewrite Hp.
    rewrite Hflag. split.
    + destruct (Z.ltb_spec 0 (delay_minutes t)); [discriminate|].
      intros _. now replace (delay_minutes t) with 0%Z by lia.
    + intros H.
      apply (TrainGenFacts.format_delay_text_inj (delay_minutes t) 0) in H.
      now rewrite H.
  - unfold Board.row_of, Board.platform_column, Board.has_track.
    cbn [col_platform].
    destruct Htrack as [->|(k & -> & Hk)]; [reflexivity|].
    destruct (Z.eqb_spec k 0); [lia|reflexivity].
Qed.

Lemma refresh_fills_the_board_witness :
  map col_time
      (snd (fst (fst (Board._on_refresh_click
                        (mkDatetime 0 23 10 0 0)
                        (mkRandom (fun i => N.of_nat (977 * i)) 0)
                        (app_ready None) [] empty_world))))
  = map scheduled_time
        (fst (TrainGen.generate_train_departures
                (mkDatetime 0 23 10 0 0) 8
                (mkRandom (fun i => N.of_nat (977 * i)) 0))).
Proof.
  assert (Hnow : valid_time (mkDatetime 0 23 10 0 0))
    by (unfold valid_time; cbn; lia).
  destruct (refresh_fills_the_board
              (mkDatetime 0 23 10 0 0)
              (mkRandom (fun i => N.of_nat (977 * i)) 0)
              (app_ready None) [] empty_world Hnow)
    as (Htrains & _ & _ & _ & _ & _ & Htree & _).
  rewrite Htree, Htrains, map_map. reflexivity.
Defined.

(** X24.  The Speak button needs a refresh first.  On the application as
    it starts, a click shows the warning and does nothing else.  After a
    refresh a click of an application that is not speaking shows no
    warning: it sets the speaking flag and runs the batch on the first
    three of the eight records. *)
Theorem speak_click_needs_a_refresh
  (host : Host) (now : datetime) (r : Random) (w : World) :
  valid_time now ->
  Main._on_speak_click host Startup.new_app w
  = (Startup.new_app, push_dialog "Please refresh departures first!" w) /\
  forall (self : App) (tree : list Row),
    is_speaking self = false ->
    let out := Board._on_refresh_click now r self tree w in
    let self1 := fst (fst (fst out)) in
    let w1 := snd out in
    dialogs w1 = dialogs w /\
    List.length (firstn 3 (trains self1)) = 3 /\
    Main._on_speak_click host self1 w1
    = Main.speak_thread host (Main.set_speaking self1 true) w1.
Proof.
  intros Hnow. split; [reflexivity|].
  intros self tree Hidle. unfold Board._on_refresh_click.
  destruct (generated_departures_in_order now 8 r Hnow) as (Hlen & _).
  destruct (TrainGen.generate_train_departures now 8 r) as [generated r1].
  cbn [fst] in Hlen. cbn [trains]. rewrite fill_rows.
  cbn [fst snd trains].
  repeat apply conj.
  - reflexivity.
  - rewrite length_firstn, Hlen. reflexivity.
  - unfold Main._on_speak_click. cbn [trains is_speaking].
    rewrite Hidle. destruct generated; [discriminate Hlen|reflexivity].
Qed.

Lemma speak_click_needs_a_refresh_witness :
  dialogs
    (snd (Main._on_speak_click (host_without_sound (Raise "no backend") never)
            Startup.new_app
            empty_world))
  = ["Please refresh departures first!"].
Proof.
  assert (Hnow : valid_time (mkDatetime 0 23 10 0 0))
    by (unfold valid_time; cbn; lia).
  destruct (speak_click_needs_a_refresh
              (host_without_sound (Raise "no backend") never)
              (mkDatetime 0 23 10 0 0)
              (mkRandom (fun i => N.of_nat (977 * i)) 0) empty_world Hnow)
    as [H _].
  rewrite H. reflexivity.
Defined.
